(** * FIFA ranking dashboard: alignment, filtering and export engine

    A shallow embedding of the TypeScript sources

      - [src/routes/index.tsx]      (the dashboard: [updateChart], [fetchRankings],
                                     [toggleCountry] and the other event handlers)
      - [utils/download]            ([downloadCSV], [downloadJSON])
      - [src/routes/api/rankings.ts] (the server route [GET])
      - [src/types.ts]              ([RankingHistoryItem])

    together with the part of the JavaScript runtime these functions call
    ([Date], [Array.prototype.sort], [Set], [Map], ordinary objects,
    [parseInt], [Math.random]).

    Layout.  Parts I to VII are the embedding: the runtime model (module
    [JS]), the data model, the program (modules [Download], [Dashboard],
    [Api], [Controls]) and the concrete hosts and inputs of the examples.
    Part VIII holds the notions the statements are written in.  The
    remaining parts are lemmas and the properties of the program.  A
    property marked C1 to C10 settles the claim of the specification with
    that number; a property marked X1 to X27 is a further property of the
    code.

    Conventions.  A [Date] is its time value in milliseconds, [None] for
    an invalid date ([NaN]).  A call that may throw returns a
    [Completion].  A JavaScript object used as a record keyed by strings
    is the list of its properties in the order [Object.keys] lists them.
    [new Date()] and [Math.random()] read a [World].  What the standard
    leaves to the host (the fallback of [Date.parse], the time zone, the
    date format of the locale, the text of a fractional number) is a field
    of [Runtime], so that every statement holds for every host. *)

From Stdlib Require Import ZArith QArith Qround List String Ascii Lia Bool.
From Stdlib Require Import Sorted Permutation DecimalString DecimalPos.
From stdpp Require Import gmap strings.
Import ListNotations.
Local Open Scope Z_scope.

(* ===================================================================== *)
(** * Part I.  The JavaScript runtime *)
(* ===================================================================== *)

Module JS.

(** ** Completions: a call either returns or throws *)

Inductive Exn :=
| RangeError (msg : string)
| TypeError (msg : string)
| NetworkError (msg : string)
| Error (msg : string).

Inductive Completion (A : Type) :=
| Return (a : A)
| Throw (e : Exn).
Arguments Return {A} a.
Arguments Throw {A} e.

Definition cbind {A B} (c : Completion A) (k : A -> Completion B) : Completion B :=
  match c with
  | Return a => k a
  | Throw e => Throw e
  end.

(** [forEach]/[map] with a callback that may throw: the first exception
    aborts the loop. *)
Fixpoint cmap {A B} (f : A -> Completion B) (l : list A) : Completion (list B) :=
  match l with
  | [] => Return []
  | x :: l' => cbind (f x) (fun y => cbind (cmap f l') (fun ys => Return (y :: ys)))
  end.

Definition returns {A} (c : Completion A) : bool :=
  match c with Return _ => true | Throw _ => false end.

(** ** Numbers that may be [NaN]

    Time values and the results of [parseInt] are integers or [NaN];
    [None] stands for [NaN]. *)

Definition num := option Z.

Definition num_sub (a b : num) : num :=
  match a, b with
  | Some x, Some y => Some (x - y)
  | _, _ => None
  end.

(** [a >= b] and [a <= b] on numbers: false as soon as one side is [NaN]. *)
Definition num_ge (a b : num) : bool :=
  match a, b with
  | Some x, Some y => y <=? x
  | _, _ => false
  end.

Definition num_le (a b : num) : bool := num_ge b a.

(** ** Decimal digits *)

Definition digit_char (d : Z) : ascii := ascii_of_nat (Z.to_nat (48 + d)).

Definition digit_val (c : ascii) : option Z :=
  let n := Z.of_nat (nat_of_ascii c) in
  if (48 <=? n) && (n <=? 57) then Some (n - 48) else None.

(** The [k] low decimal digits of [n], most significant first, put in
    front of [acc]. *)
Fixpoint pad_acc (k : nat) (n : Z) (acc : string) : string :=
  match k with
  | O => acc
  | S k' => pad_acc k' (n / 10) (String (digit_char (n mod 10)) acc)
  end.

(** [String(n).padStart(k, "0")] for [0 <= n < 10^k]. *)
Definition pad (k : nat) (n : Z) : string := pad_acc k n EmptyString.

(** Reads exactly [k] decimal digits. *)
Fixpoint take_digits (k : nat) (s : string) (acc : Z) : option (Z * string) :=
  match k with
  | O => Some (acc, s)
  | S k' =>
      match s with
      | String c s' =>
          match digit_val c with
          | Some d => take_digits k' s' (10 * acc + d)
          | None => None
          end
      | EmptyString => None
      end
  end.

Definition expect (c : ascii) (s : string) : option string :=
  match s with
  | String c' s' => if Ascii.eqb c c' then Some s' else None
  | EmptyString => None
  end.

(** Number::toString on an integer. *)
Definition Z_toString (z : Z) : string := NilZero.string_of_int (Z.to_int z).

(** ** Strings *)

(** [s.split(sep)[0]]: the part of [s] before the first [sep] (all of [s]
    when [sep] does not occur). *)
Fixpoint split_head (sep : ascii) (s : string) : string :=
  match s with
  | EmptyString => EmptyString
  | String c s' => if Ascii.eqb c sep then EmptyString else String c (split_head sep s')
  end.

(** [s.replace(c, EmptyString)] for a one-character pattern: removes the first
    occurrence. *)
Fixpoint remove_first (c : ascii) (s : string) : string :=
  match s with
  | EmptyString => EmptyString
  | String c' s' => if Ascii.eqb c' c then s' else String c' (remove_first c s')
  end.

Definition is_whitespace (c : ascii) : bool :=
  let n := nat_of_ascii c in
  (n =? 32)%nat || (n =? 9)%nat || (n =? 10)%nat || (n =? 11)%nat
  || (n =? 12)%nat || (n =? 13)%nat.

Fixpoint skip_whitespace (s : string) : string :=
  match s with
  | String c s' => if is_whitespace c then skip_whitespace s' else s
  | EmptyString => EmptyString
  end.

(** The longest prefix of decimal digits, as a number; [None] when the
    string does not start with a digit. *)
Fixpoint digits_prefix (s : string) (acc : option Z) : option Z :=
  match s with
  | String c s' =>
      match digit_val c with
      | Some d =>
          digits_prefix s' (Some (10 * (match acc with Some a => a | None => 0 end) + d))
      | None => acc
      end
  | EmptyString => acc
  end.

(** [parseInt(s)] without a radix, for decimal input: leading white space,
    an optional sign, then the longest run of digits; [NaN] when there is
    none.  (The hexadecimal prefix is not modelled: the program only
    parses the digits of a time-range label and of a year field.) *)
Definition parseInt (s : string) : num :=
  match skip_whitespace s with
  | String "-" s' => option_map Z.opp (digits_prefix s' None)
  | String "+" s' => digits_prefix s' None
  | s' => digits_prefix s' None
  end.

(** ** Date: the time-value arithmetic of ECMAScript (section 21.4.1) *)

Definition msPerDay : Z := 86400000.
Definition msPerHour : Z := 3600000.
Definition msPerMinute : Z := 60000.
Definition msPerSecond : Z := 1000.
Definition maxTime : Z := 8640000000000000.

Definition Day (t : Z) : Z := t / msPerDay.
Definition TimeWithinDay (t : Z) : Z := t mod msPerDay.

Definition DaysInYear (y : Z) : Z :=
  if negb (y mod 4 =? 0) then 365
  else if negb (y mod 100 =? 0) then 366
  else if negb (y mod 400 =? 0) then 365
  else 366.

Definition DayFromYear (y : Z) : Z :=
  365 * (y - 1970) + (y - 1969) / 4 - (y - 1901) / 100 + (y - 1601) / 400.

Definition TimeFromYear (y : Z) : Z := msPerDay * DayFromYear y.

(** The year of a day number: the largest [y] with [DayFromYear y <= d].
    An estimate from the mean length of a year is off by at most one. *)
Definition YearFromDay (d : Z) : Z :=
  let y := 1970 + (400 * d) / 146097 in
  if d <? DayFromYear y then y - 1
  else if DayFromYear (y + 1) <=? d then y + 1
  else y.

Definition YearFromTime (t : Z) : Z := YearFromDay (Day t).

Definition leap_of_year (y : Z) : Z := if DaysInYear y =? 366 then 1 else 0.
Definition InLeapYear (t : Z) : Z := leap_of_year (YearFromTime t).

Definition DayWithinYear (t : Z) : Z := Day t - DayFromYear (YearFromTime t).

(** Day number within the year of the first day of month [m] (0-based). *)
Definition DayToMonth (m leap : Z) : Z :=
  match m with
  | 0 => 0
  | 1 => 31
  | 2 => 59 + leap
  | 3 => 90 + leap
  | 4 => 120 + leap
  | 5 => 151 + leap
  | 6 => 181 + leap
  | 7 => 212 + leap
  | 8 => 243 + leap
  | 9 => 273 + leap
  | 10 => 304 + leap
  | 11 => 334 + leap
  | _ => 365 + leap
  end.

Definition month_of_yday (d leap : Z) : Z :=
  if d <? DayToMonth 1 leap then 0
  else if d <? DayToMonth 2 leap then 1
  else if d <? DayToMonth 3 leap then 2
  else if d <? DayToMonth 4 leap then 3
  else if d <? DayToMonth 5 leap then 4
  else if d <? DayToMonth 6 leap then 5
  else if d <? DayToMonth 7 leap then 6
  else if d <? DayToMonth 8 leap then 7
  else if d <? DayToMonth 9 leap then 8
  else if d <? DayToMonth 10 leap then 9
  else if d <? DayToMonth 11 leap then 10
  else 11.

Definition MonthFromTime (t : Z) : Z := month_of_yday (DayWithinYear t) (InLeapYear t).

Definition DateFromTime (t : Z) : Z :=
  DayWithinYear t - DayToMonth (MonthFromTime t) (InLeapYear t) + 1.

Definition HourFromTime (t : Z) : Z := (t / msPerHour) mod 24.
Definition MinFromTime (t : Z) : Z := (t / msPerMinute) mod 60.
Definition SecFromTime (t : Z) : Z := (t / msPerSecond) mod 60.
Definition msFromTime (t : Z) : Z := t mod msPerSecond.

Definition MakeTime (h m s ms : Z) : Z :=
  h * msPerHour + m * msPerMinute + s * msPerSecond + ms.

(** [MakeDay(year, month, date)] with a 0-based month that may overflow
    into the neighbouring years and a date that may overflow the month. *)
Definition MakeDay (year month date : Z) : Z :=
  let ym := year + month / 12 in
  let mn := month mod 12 in
  DayFromYear ym + DayToMonth mn (leap_of_year ym) + date - 1.

Definition MakeDate (day time : Z) : Z := day * msPerDay + time.

Definition TimeClip (t : Z) : num :=
  if Z.abs t <=? maxTime then Some t else None.

(** Days of month [m] (1-based) in year [y]. *)
Definition DaysInMonth (y m : Z) : Z :=
  DayToMonth m (leap_of_year y) - DayToMonth (m - 1) (leap_of_year y).

(** ** Date: the ISO format *)

Definition yearString (y : Z) : string :=
  if (0 <=? y) && (y <=? 9999) then pad 4 y
  else (if y <? 0 then "-" else "+") +:+ pad 6 (Z.abs y).

(** The ["YYYY-MM-DD"] part of [toISOString]. *)
Definition isoDateString (t : Z) : string :=
  yearString (YearFromTime t) +:+ "-" +:+ pad 2 (MonthFromTime t + 1)
  +:+ "-" +:+ pad 2 (DateFromTime t).

(** The ["HH:mm:ss.sss"] part of [toISOString]. *)
Definition isoTimeString (t : Z) : string :=
  pad 2 (HourFromTime t) +:+ ":" +:+ pad 2 (MinFromTime t) +:+ ":"
  +:+ pad 2 (SecFromTime t) +:+ "." +:+ pad 3 (msFromTime t).

Definition parse_year (s : string) : option (Z * string) :=
  match s with
  | String "+" s' => take_digits 6 s' 0
  | String "-" s' =>
      '(y, r) ← take_digits 6 s' 0;
      if y =? 0 then None else Some (- y, r)
  | _ => take_digits 4 s 0
  end.

(** The time of day of the forms ["HH:mm:ssZ"] and ["HH:mm:ss.sssZ"]. *)
Definition parse_iso_time (s : string) : option Z :=
  '(h, s) ← take_digits 2 s 0;
  s ← expect ":" s;
  '(m, s) ← take_digits 2 s 0;
  s ← expect ":" s;
  '(sec, s) ← take_digits 2 s 0;
  if (h <=? 23) && (m <=? 59) && (sec <=? 59) then
    match s with
    | String "Z" EmptyString => Some (MakeTime h m sec 0)
    | String "." s' =>
        '(ms, s'') ← take_digits 3 s' 0;
        match s'' with
        | String "Z" EmptyString => Some (MakeTime h m sec ms)
        | _ => None
        end
    | _ => None
    end
  else None.

(** The date-time string format of ECMAScript (21.4.1.32), for the forms
    the standard fixes: a date alone, which is UTC midnight, and a date
    with a time and the UTC designator [Z].  Only fully valid fields are
    accepted here. *)
Definition parse_iso (s : string) : option Z :=
  '(y, s) ← parse_year s;
  s ← expect "-" s;
  '(m, s) ← take_digits 2 s 0;
  s ← expect "-" s;
  '(d, s) ← take_digits 2 s 0;
  if (1 <=? m) && (m <=? 12) && (1 <=? d) && (d <=? DaysInMonth y m) then
    let day := MakeDay y (m - 1) d in
    match s with
    | EmptyString => Some (MakeDate day 0)
    | String "T" s' =>
        time ← parse_iso_time s';
        Some (MakeDate day time)
    | _ => None
    end
  else None.

(** ** The host: everything the standard leaves to the implementation *)

Record Runtime := {
  (** [Date.parse] on a string that is not one of the ISO forms above:
      other ISO variants and the engine's own formats; [None] is [NaN]. *)
  legacy_parse : string -> num;
  (** [LocalTZA(t, true)]: the offset of local time at the UTC instant [t]. *)
  tza_of_utc : Z -> Z;
  (** [LocalTZA(t, false)]: the offset of local time at the local time [t]. *)
  tza_of_local : Z -> Z;
  (** The date format of the default locale: year, month (1-12) and day
      of the month to the text of [toLocaleDateString()]. *)
  locale_date : Z -> Z -> Z -> string;
  (** Number::toString on a number that need not be an integer. *)
  Number_toString : Q -> string
}.

(** A [Date] object holds a time value, or [NaN] (an invalid date). *)
Definition Date := num.

Section WithRuntime.
Variable rt : Runtime.

Definition LocalTime (t : Z) : Z := t + tza_of_utc rt t.
Definition UTC (t : Z) : Z := t - tza_of_local rt t.

Definition Date_parse (s : string) : num :=
  match parse_iso s with
  | Some t => Some t
  | None => legacy_parse rt s
  end.

(** [new Date(s)] *)
Definition Date_of_string (s : string) : Date :=
  t ← Date_parse s; TimeClip t.

(** [new Date(t)] for a clock reading. *)
Definition Date_of_time (t : Z) : Date := TimeClip t.

Definition getTime (d : Date) : num := d.

Definition getFullYear (d : Date) : num :=
  option_map (fun t => YearFromTime (LocalTime t)) d.

(** [d.setFullYear(y)]: the new time value of [d]. *)
Definition setFullYear (d : Date) (y : num) : Date :=
  let t := match d with Some t => LocalTime t | None => 0 end in
  match y with
  | None => None
  | Some y =>
      let newDate :=
        MakeDate (MakeDay y (MonthFromTime t) (DateFromTime t)) (TimeWithinDay t) in
      TimeClip (UTC newDate)
  end.

Definition toISOString (d : Date) : Completion string :=
  match d with
  | None => Throw (RangeError "Invalid time value")
  | Some t => Return (isoDateString t +:+ "T" +:+ isoTimeString t +:+ "Z")
  end.

Definition toLocaleDateString (d : Date) : string :=
  match d with
  | None => "Invalid Date"
  | Some t =>
      let lt := LocalTime t in
      locale_date rt (YearFromTime lt) (MonthFromTime lt + 1) (DateFromTime lt)
  end.

End WithRuntime.

(** ** Arrays *)

(** [SortCompare]: the comparator's result, with [NaN] read as [+0]. *)
Definition SortCompare {A} (comparefn : A -> A -> num) (x y : A) : Z :=
  match comparefn x y with
  | Some v => v
  | None => 0
  end.

Fixpoint sort_insert {A} (comparefn : A -> A -> num) (x : A) (l : list A) : list A :=
  match l with
  | [] => [x]
  | y :: l' =>
      if 0 <? SortCompare comparefn x y then y :: sort_insert comparefn x l'
      else x :: l
  end.

(** [Array.prototype.sort(comparefn)]: a stable sort.  For a consistent
    comparator the standard fixes the result, and this is it; for an
    inconsistent one (a comparator that returns [NaN] on some pairs) the
    order is implementation-defined and only the fact that the result is a
    permutation of the input is meaningful. *)
Definition Array_sort {A} (comparefn : A -> A -> num) (l : list A) : list A :=
  fold_right (sort_insert comparefn) [] l.

(** [find] with a predicate that may throw. *)
Fixpoint cfind {A} (f : A -> Completion bool) (l : list A) : Completion (option A) :=
  match l with
  | [] => Return None
  | x :: l' => cbind (f x) (fun b => if b then Return (Some x) else cfind f l')
  end.

(** ** [Set<string>]: insertion-ordered, without duplicates *)

Definition Set_has (s : list string) (x : string) : bool := existsb (String.eqb x) s.

Definition Set_add (s : list string) (x : string) : list string :=
  if Set_has s x then s else s ++ [x].

(** [Array.from(set)] is the list itself. *)
Definition Set_of_list (l : list string) : list string := fold_left Set_add l [].

(** ** [Map<string, V>]: only [get] is used, so a finite map *)

Definition Map_of_entries {V} (entries : list (string * V)) : gmap string V :=
  fold_left (fun m kv => <[kv.1 := kv.2]> m) entries ∅.

(** ** Ordinary objects used as records keyed by strings

    An object is the list of its own string-keyed properties in the order
    [Object.keys] lists them: array-index keys first, in increasing
    numeric order, then the other keys in the order of their creation. *)

Definition Object (V : Type) := list (string * V).

Definition all_digits (s : string) : bool :=
  forallb (fun c => match digit_val c with Some _ => true | None => false end)
          (list_ascii_of_string s).

(** The array index a key denotes, if it is the canonical decimal form of
    an integer below [2^32 - 1]. *)
Definition array_index (k : string) : option Z :=
  match k with
  | EmptyString => None
  | String "0" EmptyString => Some 0
  | String "0" _ => None
  | _ =>
      if all_digits k && (String.length k <=? 10)%nat then
        match digits_prefix k None with
        | Some n => if n <? 4294967295 then Some n else None
        | None => None
        end
      else None
  end.

Definition Object_keys {V} (o : Object V) : list string := map fst o.
Definition Object_values {V} (o : Object V) : list V := map snd o.

(** [o[k]] *)
Fixpoint Object_get {V} (o : Object V) (k : string) : option V :=
  match o with
  | [] => None
  | (k', v) :: o' => if String.eqb k' k then Some v else Object_get o' k
  end.

Definition Object_has {V} (o : Object V) (k : string) : bool :=
  match Object_get o k with Some _ => true | None => false end.

Fixpoint Object_update {V} (o : Object V) (k : string) (v : V) : Object V :=
  match o with
  | [] => []
  | (k', v') :: o' =>
      if String.eqb k' k then (k', v) :: o' else (k', v') :: Object_update o' k v
  end.

(** Where a new array-index key goes: before the first key that is not an
    array index or is a larger one. *)
Fixpoint Object_insert_index {V} (o : Object V) (n : Z) (k : string) (v : V) : Object V :=
  match o with
  | [] => [(k, v)]
  | (k', v') :: o' =>
      match array_index k' with
      | Some n' =>
          if n' <? n then (k', v') :: Object_insert_index o' n k v
          else (k, v) :: o
      | None => (k, v) :: o
      end
  end.

(** [o[k] = v] *)
Definition Object_set {V} (o : Object V) (k : string) (v : V) : Object V :=
  if Object_has o k then Object_update o k v
  else
    match array_index k with
    | Some n => Object_insert_index o n k v
    | None => o ++ [(k, v)]
    end.

(** ** The clock and the random source

    [new Date()] and [Math.random()] read the world.  A world holds the
    two sources as functions of how many readings were taken so far. *)

Record World := {
  clock : nat -> Z;       (** successive readings of the clock, in ms *)
  clock_reads : nat;
  random : nat -> Q;      (** successive results of [Math.random()] *)
  random_draws : nat
}.

Definition IO (A : Type) := World -> A * World.

Definition ret {A} (a : A) : IO A := fun w => (a, w).

Definition bind {A B} (m : IO A) (k : A -> IO B) : IO B :=
  fun w => let '(a, w') := m w in k a w'.

(** [new Date()] *)
Definition Date_now : IO Date :=
  fun w =>
    (Date_of_time (clock w (clock_reads w)),
     {| clock := clock w; clock_reads := S (clock_reads w);
        random := random w; random_draws := random_draws w |}).

(** [Math.random()] *)
Definition Math_random : IO Q :=
  fun w =>
    (random w (random_draws w),
     {| clock := clock w; clock_reads := clock_reads w;
        random := random w; random_draws := S (random_draws w) |}).

(** [Math.floor] *)
Definition Math_floor (q : Q) : Z := Qfloor q.

(** [l.filter(f)] with a callback that reads the world. *)
Fixpoint filterM {A} (f : A -> IO bool) (l : list A) : IO (list A) :=
  match l with
  | [] => ret []
  | x :: l' =>
      bind (f x) (fun b =>
      bind (filterM f l') (fun r => ret (if b then x :: r else r)))
  end.

End JS.

Import JS.

(* ===================================================================== *)
(** * Part II.  The data model ([src/types.ts]) *)
(* ===================================================================== *)

(** One element of [TeamName: { Description: string }[]]. *)
Record TeamNameEntry := { Description : string }.

Record RankingHistoryItem := {
  IdCountry : string;
  TeamName : list TeamNameEntry;
  Rank : Z;
  TotalPoints : Q;
  PubDate : string
}.

(** A HistoryMap: [Record<string, RankingHistoryItem[]>]. *)
Definition HistoryMap := Object (list RankingHistoryItem).

(** [x || fallback] on a string that may be [undefined]: the empty string
    is falsy too. *)
Definition or_string (x : option string) (fallback : string) : string :=
  match x with
  | Some s => if String.eqb s EmptyString then fallback else s
  | None => fallback
  end.

(** [item.TeamName[0]?.Description] *)
Definition firstDescription (item : RankingHistoryItem) : option string :=
  option_map Description (head (TeamName item)).

Definition nl : string := String (ascii_of_nat 10) EmptyString.

(* ===================================================================== *)
(** * Part III.  The exporter ([utils/download]) *)
(* ===================================================================== *)

Module Download.

Record CountryRankingData := {
  rank : Z;
  points : Q;
  countryName : option string
}.

(** A property of a [TimeSeriesEntry]: the [date] string or the data of
    one country. *)
Inductive EntryValue :=
| DateField (date : string)
| CountryField (d : CountryRankingData).

Definition TimeSeriesEntry := Object EntryValue.

Section WithRuntime.
Variable rt : Runtime.

(** [new Date(item.PubDate).toISOString().split('T')[0]] *)
Definition dateKey (item : RankingHistoryItem) : Completion string :=
  cbind (toISOString (Date_of_string rt (PubDate item)))
        (fun s => Return (split_head "T" s)).

(** A loop body run over a list, threading the set built so far. *)
Fixpoint forEach_acc {A S} (f : S -> A -> Completion S) (l : list A) (s : S)
  : Completion S :=
  match l with
  | [] => Return s
  | x :: l' => cbind (f s x) (forEach_acc f l')
  end.

(** The [allDates] set of both exports, as [Array.from] lists it. *)
Definition allDates (historyData : HistoryMap) : Completion (list string) :=
  forEach_acc
    (fun s history =>
       forEach_acc
         (fun s item => cbind (dateKey item) (fun k => Return (Set_add s k)))
         history s)
    (Object_values historyData) [].

(** [(a, b) => new Date(b).getTime() - new Date(a).getTime()] *)
Definition byDateDescending (a b : string) : num :=
  num_sub (getTime (Date_of_string rt b)) (getTime (Date_of_string rt a)).

Definition sortedDates (historyData : HistoryMap) : Completion (list string) :=
  cbind (allDates historyData)
        (fun dates => Return (Array_sort byDateDescending dates)).

(** [historyData[code]]; calling a method on [undefined] throws. *)
Definition historyOf (historyData : HistoryMap) (code : string)
  : Completion (list RankingHistoryItem) :=
  match Object_get historyData code with
  | Some history => Return history
  | None => Throw (TypeError "Cannot read properties of undefined")
  end.

(** [history.find(h => new Date(h.PubDate).toISOString().split('T')[0] === date)] *)
Definition findItem (history : list RankingHistoryItem) (date : string)
  : Completion (option RankingHistoryItem) :=
  cfind (fun h => cbind (dateKey h) (fun k => Return (String.eqb k date))) history.

(** The text one country adds to a row. *)
Definition csvCell (historyData : HistoryMap) (date code : string) : Completion string :=
  cbind (historyOf historyData code) (fun history =>
  cbind (findItem history date) (fun item =>
  match item with
  | Some item =>
      Return ("," +:+ Z_toString (Rank item) +:+ ","
              +:+ Number_toString rt (TotalPoints item))
  | None => Return ",,"
  end)).

Definition csvRow (historyData : HistoryMap) (countries : list string) (date : string)
  : Completion string :=
  forEach_acc
    (fun row code => cbind (csvCell historyData date code)
                           (fun cell => Return (row +:+ cell)))
    countries date.

Definition csvHeader (countries : list string) : string :=
  fold_left (fun csv code => csv +:+ "," +:+ code +:+ " Rank," +:+ code +:+ " Points")
            countries "Date"
  +:+ nl.

Definition csvRows (historyData : HistoryMap) (countries dates : list string)
                   (csvContent : string) : Completion string :=
  forEach_acc
    (fun csv date => cbind (csvRow historyData countries date)
                           (fun row => Return (csv +:+ row +:+ nl)))
    dates csvContent.

(** [downloadCSV]: the text handed to the browser for saving, [None]
    when the function returns early without a download. *)
Definition downloadCSV (historyData : HistoryMap) : Completion (option string) :=
  let countries := Object_keys historyData in
  if (length countries =? 0)%nat then Return None
  else
    cbind (sortedDates historyData) (fun dates =>
    cbind (csvRows historyData countries dates (csvHeader countries)) (fun csv =>
    Return (Some csv))).

(** The loop body of [countries.forEach] in [downloadJSON]. *)
Definition jsonField (historyData : HistoryMap) (date : string)
                     (entry : TimeSeriesEntry) (code : string)
  : Completion TimeSeriesEntry :=
  cbind (historyOf historyData code) (fun history =>
  cbind (findItem history date) (fun item =>
  match item with
  | Some item =>
      Return (Object_set entry code
                (CountryField {| rank := Rank item;
                                 points := TotalPoints item;
                                 countryName := firstDescription item |}))
  | None => Return entry
  end)).

Definition jsonEntry (historyData : HistoryMap) (countries : list string) (date : string)
  : Completion TimeSeriesEntry :=
  forEach_acc (jsonField historyData date) countries [("date", DateField date)].

(** [downloadJSON]: the [jsonOutput] array that is serialised and saved,
    [None] on the early return. *)
Definition downloadJSON (historyData : HistoryMap)
  : Completion (option (list TimeSeriesEntry)) :=
  let countries := Object_keys historyData in
  if (length countries =? 0)%nat then Return None
  else
    cbind (sortedDates historyData) (fun dates =>
    cbind (cmap (jsonEntry historyData countries) dates) (fun out =>
    Return (Some out))).

End WithRuntime.

End Download.

(* ===================================================================== *)
(** * Part IV.  The dashboard ([src/routes/index.tsx]) *)
(* ===================================================================== *)

Module Dashboard.

Module RankingResult.
Record t := {
  countryCode : string;
  countryName : string;
  rank : Z;
  previousRank : Z;
  points : Q;
  date : string;
  gender : string
}.
End RankingResult.

Definition COLORS : list string :=
  [ "#3b82f6"; "#ef4444"; "#10b981"; "#f59e0b"; "#8b5cf6"; "#ec4899";
    "#06b6d4"; "#f97316"; "#6366f1"; "#84cc16"; "#14b8a6"; "#d946ef";
    "#e11d48"; "#22c55e"; "#0ea5e9"; "#a855f7"; "#f43f5e"; "#64748b";
    "#a3e635"; "#2dd4bf"; "#fbbf24"; "#c084fc"; "#f472b6"; "#38bdf8";
    "#818cf8"; "#fb7185"; "#34d399"; "#a78bfa"; "#e879f9"; "#22d3ee" ].

(** One entry of [datasets]; [None] in [data] is [null], the gap marker,
    and [None] as a colour is [undefined].  The constant styling fields
    ([tension], [pointRadius], [pointHoverRadius]) are left out. *)
Record Dataset := {
  label : string;
  data : list (option Z);
  borderColor : option string;
  backgroundColor : option string
}.

(** The [data] of the chart configuration; the constant [options] are
    left out. *)
Record ChartData := {
  labels : list string;
  datasets : list Dataset
}.

(** The signals and the two local variables of the component. *)
Record State := {
  selectedCountries : list string;
  gender : string;
  footballType : string;
  results : list RankingResult.t;
  historyData : HistoryMap;
  loading : bool;
  timeRange : string;
  customStartYear : num;
  customEndYear : num;
  (** whether the canvas element is mounted *)
  chartCanvas : bool;
  (** the chart currently drawn; a destroyed chart draws nothing *)
  chartInstance : option ChartData
}.

Definition with_chart (st : State) (c : option ChartData) : State :=
  {| selectedCountries := selectedCountries st; gender := gender st;
     footballType := footballType st; results := results st;
     historyData := historyData st; loading := loading st;
     timeRange := timeRange st; customStartYear := customStartYear st;
     customEndYear := customEndYear st; chartCanvas := chartCanvas st;
     chartInstance := c |}.

Definition with_fetch (st : State) (l : bool) (r : list RankingResult.t)
                      (h : HistoryMap) : State :=
  {| selectedCountries := selectedCountries st; gender := gender st;
     footballType := footballType st; results := r;
     historyData := h; loading := l;
     timeRange := timeRange st; customStartYear := customStartYear st;
     customEndYear := customEndYear st; chartCanvas := chartCanvas st;
     chartInstance := chartInstance st |}.

Definition setTimeRange (st : State) (range : string) : State :=
  {| selectedCountries := selectedCountries st; gender := gender st;
     footballType := footballType st; results := results st;
     historyData := historyData st; loading := loading st;
     timeRange := range; customStartYear := customStartYear st;
     customEndYear := customEndYear st; chartCanvas := chartCanvas st;
     chartInstance := chartInstance st |}.

(** What one retrieval of [/api/rankings?...] comes to, seen from the
    promise of one country. *)
Inductive FetchResult :=
| (** [fetch] rejects, or [res.json()] rejects, or reading [data.rankings]
      throws *)
  Rejects (e : Exn)
| (** [data.rankings]: [None] when the property is absent or [null] *)
  Resolves (rankings : option (list RankingHistoryItem)).

Section WithRuntime.
Variable rt : Runtime.

(** *** [updateChart] *)

(** The callback of [history.filter]. *)
Definition keepItem (st : State) (now : Date) (item : RankingHistoryItem) : IO bool :=
  let itemDate := Date_of_string rt (PubDate item) in
  if String.eqb (timeRange st) "custom" then
    let year := getFullYear rt itemDate in
    ret (num_ge year (customStartYear st) && num_le year (customEndYear st))
  else if negb (String.eqb (timeRange st) "all") then
    let years := parseInt (remove_first "y" (timeRange st)) in
    bind Date_now (fun cutoffDate =>
    let cutoffDate := setFullYear rt cutoffDate (num_sub (getFullYear rt now) years) in
    ret (num_ge (getTime itemDate) (getTime cutoffDate)))
  else ret true.

(** [historyData()[code]] for a [code] taken from [Object.keys]. *)
Definition historyOf (h : HistoryMap) (code : string) : list RankingHistoryItem :=
  match Object_get h code with
  | Some history => history
  | None => []
  end.

(** The loop that fills [filteredHistoryData]. *)
Fixpoint filterHistories (st : State) (now : Date) (codes : list string)
                         (filtered : HistoryMap) : IO HistoryMap :=
  match codes with
  | [] => ret filtered
  | code :: codes' =>
      bind (filterM (keepItem st now) (historyOf (historyData st) code)) (fun kept =>
      filterHistories st now codes' (Object_set filtered code kept))
  end.

(** [new Date(item.PubDate).toLocaleDateString()] *)
Definition dateLabel (item : RankingHistoryItem) : string :=
  toLocaleDateString rt (Date_of_string rt (PubDate item)).

Definition allDates (filteredHistoryData : HistoryMap) : list string :=
  fold_left
    (fun s history => fold_left (fun s item => Set_add s (dateLabel item)) history s)
    (Object_values filteredHistoryData) [].

(** [(a, b) => new Date(a).getTime() - new Date(b).getTime()] *)
Definition byDateAscending (a b : string) : num :=
  num_sub (getTime (Date_of_string rt a)) (getTime (Date_of_string rt b)).

Definition chartLabels (filteredHistoryData : HistoryMap) : list string :=
  Array_sort byDateAscending (allDates filteredHistoryData).

Definition rankMap (history : list RankingHistoryItem) : gmap string Z :=
  Map_of_entries (map (fun h => (dateLabel h, Rank h)) history).

(** [rankMap.get(date) || null] *)
Definition rankAt (history : list RankingHistoryItem) (date : string) : option Z :=
  match rankMap history !! date with
  | Some r => if r =? 0 then None else Some r
  | None => None
  end.

(** The colour of the series at position [index]. *)
Definition seriesColor (index : nat) : IO (option string) :=
  if (index <? length COLORS)%nat then ret (nth_error COLORS index)
  else
    bind Math_random (fun r =>
    ret (nth_error COLORS
           (Z.to_nat (Math_floor (r * inject_Z (Z.of_nat (length COLORS)))))))%Q.

(** [history[0]?.TeamName[0]?.Description] *)
Definition headDescription (history : list RankingHistoryItem) : option string :=
  match head history with
  | Some h => firstDescription h
  | None => None
  end.

(** The callback of [countries.map((code, index) => ...)]. *)
Definition makeDataset (filteredHistoryData : HistoryMap) (chart_labels : list string)
                       (code : string) (index : nat) : IO Dataset :=
  let history := historyOf filteredHistoryData code in
  let data := map (rankAt history) chart_labels in
  bind (seriesColor index) (fun color =>
  ret {| label := or_string (headDescription history) code +:+ " (" +:+ code +:+ ")";
         data := data;
         borderColor := color;
         backgroundColor := color |}).

(** [countries.map(callback)], with the index passed along. *)
Fixpoint mapIndexed {A B} (f : A -> nat -> IO B) (l : list A) (index : nat)
  : IO (list B) :=
  match l with
  | [] => ret []
  | x :: l' =>
      bind (f x index) (fun y =>
      bind (mapIndexed f l' (S index)) (fun ys => ret (y :: ys)))
  end.

(** The chart [updateChart] builds from the history and the time range
    once the early returns are passed. *)
Definition buildChart (st : State) : IO ChartData :=
  let countries := Object_keys (historyData st) in
  bind Date_now (fun now =>
  bind (filterHistories st now (Object_keys (historyData st)) []) (fun filtered =>
  let chart_labels := chartLabels filtered in
  bind (mapIndexed (makeDataset filtered chart_labels) countries 0%nat) (fun sets =>
  ret {| labels := chart_labels; datasets := sets |}))).

Definition updateChart (st : State) : IO State :=
  if negb (chartCanvas st) then ret st
  else
    (* chartInstance.destroy() *)
    let st := with_chart st None in
    let countries := Object_keys (historyData st) in
    if (length countries =? 0)%nat then ret st
    else bind (buildChart st) (fun chart => ret (with_chart st (Some chart))).

(** *** [fetchRankings] *)

Variable fetch : string -> FetchResult.

Definition apiUrl (st : State) (code : string) : string :=
  "/api/rankings?countryCode=" +:+ code +:+ "&gender=" +:+ gender st
  +:+ "&footballType=" +:+ footballType st.

(** [(a, b) => new Date(b.PubDate).getTime() - new Date(a.PubDate).getTime()] *)
Definition byPubDateDescending (a b : RankingHistoryItem) : num :=
  num_sub (getTime (Date_of_string rt (PubDate b)))
          (getTime (Date_of_string rt (PubDate a))).

(** What the promise of one country resolves to. *)
Record Fetched := {
  result : RankingResult.t;
  history : list RankingHistoryItem;
  code : string
}.

(** The body of the [async (code) => ...] callback: [Throw] is a
    rejected promise, [Return None] a promise resolved with [null]. *)
Definition fetchCountry (st : State) (code : string) : Completion (option Fetched) :=
  match fetch (apiUrl st code) with
  | Rejects e => Throw e
  | Resolves None => Return None
  | Resolves (Some rankings) =>
      if (0 <? length rankings)%nat then
        let rankings := Array_sort byPubDateDescending rankings in
        match rankings with
        | [] => Return None
        | current :: rest =>
            let previous := match rest with p :: _ => p | [] => current end in
            Return (Some
              {| result :=
                   {| RankingResult.countryCode := code;
                      RankingResult.countryName := or_string (firstDescription current) code;
                      RankingResult.rank := Rank current;
                      RankingResult.previousRank := Rank previous;
                      RankingResult.points := TotalPoints current;
                      RankingResult.date := PubDate current;
                      RankingResult.gender :=
                        if String.eqb (gender st) "1" then "Men" else "Women" |};
                 history := rankings;
                 code := code |})
        end
      else Return None
  end.

(** [(await Promise.all(promises)).filter(Boolean)]: the promises run
    independently of each other and [Promise.all] keeps their order; it
    rejects as soon as one of them does. *)
Definition fetchAll (st : State) : Completion (list Fetched) :=
  cbind (cmap (fetchCountry st) (selectedCountries st)) (fun fetched =>
  Return (omap id fetched)).

Definition newResults (fetchedData : list Fetched) : list RankingResult.t :=
  map result fetchedData.

Definition newHistory (fetchedData : list Fetched) : HistoryMap :=
  fold_left (fun h item => Object_set h (code item) (history item)) fetchedData [].

Definition fetchRankings (st : State) : IO State :=
  if (length (selectedCountries st) =? 0)%nat then ret st
  else
    (* setLoading(true); setResults([]); setHistoryData({}) *)
    let st := with_fetch st true [] [] in
    match fetchAll st with
    | Return fetchedData =>
        let st := with_fetch st true (newResults fetchedData) (newHistory fetchedData) in
        bind (updateChart st) (fun st =>
        ret (with_fetch st false (results st) (historyData st)))
    | Throw err =>
        (* console.error("Error fetching rankings:", err) *)
        ret (with_fetch st false (results st) (historyData st))
    end.

End WithRuntime.
End Dashboard.

(* ===================================================================== *)
(** * Part V.  The server route ([src/routes/api/rankings.ts]) *)
(* ===================================================================== *)

Module Api.

#[local] Unset Elimination Schemes.
Inductive Json :=
| JNull
| JBool (b : bool)
| JNumber (q : Q)
| JString (s : string)
| JArray (l : list Json)
| JObject (fields : list (string * Json)).
#[local] Set Elimination Schemes.

(** The query string of the request, decoded: [url.searchParams]. *)
Record Request := { searchParams : list (string * string) }.

(** [searchParams.get(name)]: the first value of that name, or [null]. *)
Fixpoint searchParams_get (params : list (string * string)) (name : string)
  : option string :=
  match params with
  | [] => None
  | (k, v) :: params' => if String.eqb k name then Some v else searchParams_get params' name
  end.

(** What the provider does with a request for a URL. *)
Inductive Upstream :=
| (** [fetch] rejects *)
  FetchFails (e : Exn)
| (** a response arrives; [body] is what [response.json()] resolves to,
      [None] when the body is not JSON and [response.json()] rejects *)
  Responds (status : Z) (body : option Json).

(** [response.ok] *)
Definition ok (status : Z) : bool := (200 <=? status) && (status <=? 299).

Record Response := {
  status : Z;
  body : Json
}.

(** [json(data, { status })]; the status is 200 when none is given. *)
Definition json (data : Json) (st : option Z) : Response :=
  {| status := match st with Some s => s | None => 200 end; body := data |}.

Definition userAgent : string :=
  "Mozilla/5.0 (Macintosh; Intel Mac OS X 10_15_7) AppleWebKit/537.36 (KHTML, like Gecko) Chrome/120.0.0.0 Safari/537.36".

Definition fifaUrl (gender countryCode footballType : string) : string :=
  "https://inside.fifa.com/api/rankings/by-country?gender=" +:+ gender
  +:+ "&countryCode=" +:+ countryCode +:+ "&footballType=" +:+ footballType
  +:+ "&locale=en".

Section WithProvider.
Variable provider : string -> Upstream.

(** The [try] block: the URLs requested from the provider, and the
    completion. *)
Definition tryFetch (gender countryCode footballType : string)
  : list string * Completion Response :=
  let url := fifaUrl gender countryCode footballType in
  ([url],
   match provider url with
   | FetchFails e => Throw e
   | Responds st b =>
       if negb (ok st) then Throw (Error "FIFA API responded with a failure status")
       else
         match b with
         | None => Throw (Error "Unexpected token in JSON")
         | Some data => Return (json data None)
         end
   end).

(** [GET]: the response, and the URLs requested from the provider on the
    way. *)
Definition GET (request : Request) : Response * list string :=
  let countryCode := searchParams_get (searchParams request) "countryCode" in
  let gender := or_string (searchParams_get (searchParams request) "gender") "1" in
  let footballType :=
    or_string (searchParams_get (searchParams request) "footballType") "football" in
  match countryCode with
  | None => (json (JObject [("error", JString "Country code is required")]) (Some 400), [])
  | Some countryCode =>
      if String.eqb countryCode EmptyString then
        (json (JObject [("error", JString "Country code is required")]) (Some 400), [])
      else
        let '(requested, completion) := tryFetch gender countryCode footballType in
        match completion with
        | Return response => (response, requested)
        | Throw error =>
            (* console.error("API Error:", error) *)
            (json (JObject [("error", JString "Failed to fetch data")]) (Some 500),
             requested)
        end
  end.

End WithProvider.
End Api.

(* ===================================================================== *)
(** * Part VI.  The controls of the dashboard ([src/routes/index.tsx]) *)
(* ===================================================================== *)

(** The event handlers of the component and the order of the result
    cards.  They work on the state of [Dashboard]. *)

Module Controls.
Import Dashboard.

Definition setSelectedCountries (st : State) (selected : list string) : State :=
  {| selectedCountries := selected; gender := gender st;
     footballType := footballType st; results := results st;
     historyData := historyData st; loading := loading st;
     timeRange := timeRange st; customStartYear := customStartYear st;
     customEndYear := customEndYear st; chartCanvas := chartCanvas st;
     chartInstance := chartInstance st |}.

Definition setCustomStartYear (st : State) (year : num) : State :=
  {| selectedCountries := selectedCountries st; gender := gender st;
     footballType := footballType st; results := results st;
     historyData := historyData st; loading := loading st;
     timeRange := timeRange st; customStartYear := year;
     customEndYear := customEndYear st; chartCanvas := chartCanvas st;
     chartInstance := chartInstance st |}.

Definition setCustomEndYear (st : State) (year : num) : State :=
  {| selectedCountries := selectedCountries st; gender := gender st;
     footballType := footballType st; results := results st;
     historyData := historyData st; loading := loading st;
     timeRange := timeRange st; customStartYear := customStartYear st;
     customEndYear := year; chartCanvas := chartCanvas st;
     chartInstance := chartInstance st |}.

(** [current.includes(code)] *)
Definition Array_includes (current : list string) (code : string) : bool :=
  existsb (String.eqb code) current.

(** [toggleCountry]: a click on a country of the list, or on the tag of a
    selected country. *)
Definition toggleCountry (st : State) (code : string) : State :=
  let current := selectedCountries st in
  if Array_includes current code then
    setSelectedCountries st (List.filter (fun c => negb (String.eqb c code)) current)
  else
    setSelectedCountries st (current ++ [code]).

(** The button ["Clear all"]: [setSelectedCountries([])]. *)
Definition clearAll (st : State) : State := setSelectedCountries st [].

(** [(a, b) => a.rank - b.rank] *)
Definition byRank (a b : RankingResult.t) : num :=
  Some (RankingResult.rank a - RankingResult.rank b).

(** [results().sort((a, b) => a.rank - b.rank)]: the result cards in the
    order they are shown.  (The sort is in place, on the array the signal
    holds; nothing else reads the order of that array.) *)
Definition sortedResults (st : State) : list RankingResult.t :=
  Array_sort byRank (results st).

Section WithRuntime.
Variable rt : Runtime.

(** A button of the time range, ["1y"] to ["6y"], ["all"] or ["custom"]:
    [setTimeRange(range); updateChart()]. *)
Definition selectRange (st : State) (range : string) : IO State :=
  updateChart rt (setTimeRange st range).

(** The two year boxes of the custom range:
    [setCustomStartYear(parseInt(e.currentTarget.value)); updateChart()]
    and the same for the end year.  The value of a number box is empty
    or the text of a decimal number. *)
Definition inputStartYear (st : State) (value : string) : IO State :=
  updateChart rt (setCustomStartYear st (parseInt value)).

Definition inputEndYear (st : State) (value : string) : IO State :=
  updateChart rt (setCustomEndYear st (parseInt value)).

End WithRuntime.
End Controls.

(* ===================================================================== *)
(** * Part VII.  Concrete hosts for the examples *)
(* ===================================================================== *)

Module Hosts.

(** A run of digits of any length, and what follows it. *)
Fixpoint digits_run (s : string) (acc : option Z) : option Z * string :=
  match s with
  | String c s' =>
      match digit_val c with
      | Some d =>
          digits_run s' (Some (10 * (match acc with Some a => a | None => 0 end) + d))
      | None => (acc, s)
      end
  | EmptyString => (acc, s)
  end.

(** The fallback of [Date.parse] for a slash-separated date: the three
    numbers are read as month, day and year, whatever the locale, and the
    date is local midnight.  Anything else is [NaN]. *)
Definition parse_slashes (tza : Z) (s : string) : num :=
  match digits_run s None with
  | (Some m, String "/" s1) =>
      match digits_run s1 None with
      | (Some d, String "/" s2) =>
          match digits_run s2 None with
          | (Some y, EmptyString) =>
              if (1 <=? m) && (m <=? 12) && (1 <=? d) && (d <=? DaysInMonth y m)
                 && (100 <=? y)
              then Some (MakeDate (MakeDay y (m - 1) d) 0 - tza)
              else None
          | _ => None
          end
      | _ => None
      end
  | _ => None
  end.

(** Decimal text of a non-negative rational with a finite expansion of
    up to [fuel] fractional digits. *)
Fixpoint fraction_digits (fuel : nat) (num den : Z) : string :=
  match fuel with
  | O => EmptyString
  | S fuel' =>
      if num =? 0 then EmptyString
      else String (digit_char (10 * num / den))
                  (fraction_digits fuel' ((10 * num) mod den) den)
  end.

Definition decimal_text (q : Q) : string :=
  let n := Qnum q in
  let d := Zpos (Qden q) in
  let ip := Z.abs n / d in
  let fr := Z.abs n mod d in
  (if n <? 0 then "-" else EmptyString) +:+ Z_toString ip
  +:+ (if fr =? 0 then EmptyString else "." +:+ fraction_digits 17 fr d).

(** [M/D/YYYY] *)
Definition us_date (y m d : Z) : string :=
  Z_toString m +:+ "/" +:+ Z_toString d +:+ "/" +:+ Z_toString y.

(** [DD/MM/YYYY] *)
Definition gb_date (y m d : Z) : string :=
  pad 2 d +:+ "/" +:+ pad 2 m +:+ "/" +:+ Z_toString y.

(** [YYYY-MM-DD] *)
Definition iso_date (y m d : Z) : string :=
  yearString y +:+ "-" +:+ pad 2 m +:+ "-" +:+ pad 2 d.

(** A host with a fixed offset from UTC (in ms) and a date format. *)
Definition host (tza : Z) (fmt : Z -> Z -> Z -> string) : Runtime :=
  {| legacy_parse := parse_slashes tza;
     tza_of_utc := fun _ => tza;
     tza_of_local := fun _ => tza;
     locale_date := fmt;
     Number_toString := decimal_text |}.

(** en-US in UTC; en-US five hours west of UTC; en-GB in UTC; a locale
    with ISO dates (such as sv-SE) in UTC. *)
Definition enUS_UTC : Runtime := host 0 us_date.
Definition enUS_west : Runtime := host (- 5 * msPerHour) us_date.
Definition enGB_UTC : Runtime := host 0 gb_date.
Definition iso_UTC : Runtime := host 0 iso_date.

(** A world whose clock stands still at [now] and whose random source is
    constant. *)
Definition still_world (now : Z) (r : Q) : World :=
  {| clock := fun _ => now; clock_reads := 0; random := fun _ => r; random_draws := 0 |}.

Definition item (code name : string) (rank : Z) (pts : Q) (pub : string)
  : RankingHistoryItem :=
  {| IdCountry := code; TeamName := [ {| Description := name |} ];
     Rank := rank; TotalPoints := pts; PubDate := pub |}.

Definition initial (selected : list string) : Dashboard.State :=
  {| Dashboard.selectedCountries := selected;
     Dashboard.gender := "1";
     Dashboard.footballType := "football";
     Dashboard.results := [];
     Dashboard.historyData := [];
     Dashboard.loading := false;
     Dashboard.timeRange := "all";
     Dashboard.customStartYear := Some 2015;
     Dashboard.customEndYear := Some 2025;
     Dashboard.chartCanvas := true;
     Dashboard.chartInstance := None |}.

End Hosts.

(** Inputs of the examples. *)

Module Examples.
Import Hosts.

(** 2025-01-01T00:00:00Z *)
Definition new_year_2025 : Z := 1735689600000.

Definition usa_records : list RankingHistoryItem :=
  [ item "USA" "USA" 5 (175050 # 100) "2024-01-01";
    item "USA" "USA" 3 (1800 # 1) "2024-06-01" ].

(** The provider serves USA and the connection fails for everyone else. *)
Definition only_usa (url : string) : Dashboard.FetchResult :=
  if String.eqb url "/api/rankings?countryCode=USA&gender=1&footballType=football"
  then Dashboard.Resolves (Some usa_records)
  else Dashboard.Rejects (NetworkError "Failed to fetch").

End Examples.

Module ManyCountries.
(** A history map of [n] entities ["T00"], ["T01"], ... without records. *)
Definition history (n : nat) : HistoryMap :=
  map (fun i => ("T" +:+ pad 2 (Z.of_nat i), [])) (seq 0 n).

Definition state (n : nat) : Dashboard.State :=
  Dashboard.with_fetch (Hosts.initial (Object_keys (history n))) false [] (history n).
End ManyCountries.

Module Scenario.
(** [RelativeYears(1)] on 2025-01-01. *)
Definition state : Dashboard.State :=
  Dashboard.setTimeRange (Hosts.initial ["USA"]) "1y".
End Scenario.

Module Malformed.
(** USA with one good record and one whose [PubDate] is no date. *)
Definition history : HistoryMap :=
  [ ("USA", [ Hosts.item "USA" "USA" 5 (1750 # 1) "2024-01-01";
              Hosts.item "USA" "USA" 4 (1760 # 1) "not a date" ]) ].
Definition state : Dashboard.State :=
  Dashboard.with_fetch (Hosts.initial ["USA"]) false [] history.
End Malformed.

Module SameDay.
(** USA with two records on 2024-01-01, at noon and at midnight, in the
    order [fetchRankings] leaves them in: latest first. *)
Definition noon : RankingHistoryItem :=
  Hosts.item "USA" "USA" 3 (1800 # 1) "2024-01-01T12:00:00Z".
Definition midnight : RankingHistoryItem :=
  Hosts.item "USA" "USA" 5 (1750 # 1) "2024-01-01T00:00:00Z".
Definition history : HistoryMap := [ ("USA", [noon; midnight]) ].
Definition state : Dashboard.State :=
  Dashboard.with_fetch (Hosts.initial ["USA"]) false [] history.
End SameDay.

Module TwoEntities.
(** USA with records on 2024-01-01 and 2024-06-01, BRA with a record on
    2024-06-01 only. *)
Definition history : HistoryMap :=
  [ ("USA", [ Hosts.item "USA" "USA" 3 (1800 # 1) "2024-06-01";
              Hosts.item "USA" "USA" 5 (175050 # 100) "2024-01-01" ]);
    ("BRA", [ Hosts.item "BRA" "Brazil" 1 (1900 # 1) "2024-06-01" ]) ].
Definition state : Dashboard.State :=
  Dashboard.with_fetch (Hosts.initial ["USA"; "BRA"]) false [] history.
(** USA with records on 1 February and on 3 January: dates whose
    day-first labels are dates again when read month first. *)
Definition february_march : HistoryMap :=
  [ ("USA", [ Hosts.item "USA" "USA" 3 (1800 # 1) "2024-02-01";
              Hosts.item "USA" "USA" 5 (1750 # 1) "2024-01-03" ]) ].
Definition state_gb : Dashboard.State :=
  Dashboard.with_fetch (Hosts.initial ["USA"]) false [] february_march.
End TwoEntities.

Module Served.
(** USA is served; for every other country the route answers with an
    error body, which has no [rankings]. *)
Definition usa_or_error (url : string) : Dashboard.FetchResult :=
  if String.eqb url "/api/rankings?countryCode=USA&gender=1&footballType=football"
  then Dashboard.Resolves (Some Examples.usa_records)
  else Dashboard.Resolves None.
End Served.

Module Sparse.
(** USA with a record of June 2024 and Brazil with a record of January
    2023 only, seen with the range of one year, with the range of two
    years, and with the custom range from 2024 to 2025. *)
Definition history : HistoryMap :=
  [ ("USA", [ Hosts.item "USA" "USA" 3 (1800 # 1) "2024-06-01" ]);
    ("BRA", [ Hosts.item "BRA" "Brazil" 1 (1900 # 1) "2023-01-01" ]) ].
Definition loaded : Dashboard.State :=
  Dashboard.with_fetch (Hosts.initial ["USA"; "BRA"]) false [] history.
Definition one_year : Dashboard.State := Dashboard.setTimeRange loaded "1y".
Definition two_years : Dashboard.State := Dashboard.setTimeRange loaded "2y".
Definition custom : Dashboard.State :=
  Controls.setCustomStartYear (Dashboard.setTimeRange loaded "custom") (Some 2024).
End Sparse.

Module Unranked.
(** USA with one record, of rank 0. *)
Definition history : HistoryMap :=
  [ ("USA", [ Hosts.item "USA" "USA" 0 (0 # 1) "2024-06-01" ]) ].
Definition state : Dashboard.State :=
  Dashboard.with_fetch (Hosts.initial ["USA"]) false [] history.
End Unranked.

(* ===================================================================== *)
(** * Part VIII.  Notions used in the statements *)
(* ===================================================================== *)

(** ** Retrieval *)

Section FetchNotions.
Variable rt : Runtime.
Variable fetch : string -> Dashboard.FetchResult.

(** The retrieval of [code] rejects. *)
Definition rejected (st : Dashboard.State) (code : string) : Prop :=
  exists e, fetch (Dashboard.apiUrl st code) = Dashboard.Rejects e.

(** The retrieval of [code] succeeds with a non-empty record list. *)
Definition delivers (st : Dashboard.State) (code : string)
                    (rankings : list RankingHistoryItem) : Prop :=
  fetch (Dashboard.apiUrl st code) = Dashboard.Resolves (Some rankings)
  /\ rankings <> [].



End FetchNotions.

(** ** The server route *)

Definition badRequest : Api.Response :=
  {| Api.status := 400;
     Api.body := Api.JObject [("error", Api.JString "Country code is required")] |}.

Definition fetchFailed : Api.Response :=
  {| Api.status := 500;
     Api.body := Api.JObject [("error", Api.JString "Failed to fetch data")] |}.

Definition forwarded (data : Api.Json) : Api.Response :=
  {| Api.status := 200; Api.body := data |}.

(** A query parameter, or its default when the parameter is absent. *)
Definition param_or (req : Api.Request) (name default : string) : string :=
  match Api.searchParams_get (Api.searchParams req) name with
  | Some v => v
  | None => default
  end.

(** The three cases of the route, split on whether [countryCode] is
    absent and on what the provider does. *)
Definition route_by_absence (provider : string -> Api.Upstream) (req : Api.Request)
  : Prop :=
  match Api.searchParams_get (Api.searchParams req) "countryCode" with
  | None => Api.GET provider req = (badRequest, [])
  | Some code =>
      match provider (Api.fifaUrl (param_or req "gender" "1") code
                                  (param_or req "footballType" "football")) with
      | Api.FetchFails _ => fst (Api.GET provider req) = fetchFailed
      | Api.Responds st body =>
          if Api.ok st then
            forall data, body = Some data -> fst (Api.GET provider req) = forwarded data
          else fst (Api.GET provider req) = fetchFailed
      end
  end.

(** ** Colours *)

Definition seriesColors (chart : Dashboard.ChartData) : list (option string) :=
  map Dashboard.borderColor (Dashboard.datasets chart).

(** Two runs on the same state give the series the same colours. *)
Definition colors_reproducible (rt : Runtime) (st : Dashboard.State) : Prop :=
  forall w1 w2,
    seriesColors (fst (Dashboard.buildChart rt st w1))
    = seriesColors (fst (Dashboard.buildChart rt st w2)).

(** The palette entry a random draw [r] selects. *)
Definition randomColor (r : Q) : option string :=
  nth_error Dashboard.COLORS
    (Z.to_nat (Math_floor (r * inject_Z (Z.of_nat (length Dashboard.COLORS))))).

(** The same random source, read up to the same point. *)
Definition same_random (w w' : World) : Prop :=
  random w' = random w /\ random_draws w' = random_draws w.

(** ** Time ranges *)

Section RangeNotions.
Variable rt : Runtime.

(** The time value of a record, [NaN] when [PubDate] does not parse. *)
Definition timeOf (item : RankingHistoryItem) : num :=
  getTime (Date_of_string rt (PubDate item)).

(** All records of a history map. *)
Definition records (h : HistoryMap) : list RankingHistoryItem :=
  concat (Object_values h).

(** [now] shifted back [n] calendar years: the instant with the local
    month, day of the month and time of day of [now] in the year that lies
    [n] before the local year of [now] (a 29 February that does not exist
    there runs over into 1 March). *)
Definition shiftBackYears (now n : Z) : num :=
  let lt := LocalTime rt now in
  TimeClip (UTC rt (MakeDate (MakeDay (YearFromTime lt - n) (MonthFromTime lt)
                                      (DateFromTime lt))
                             (TimeWithinDay lt))).

(** The time range is the relative range of [n] years. *)
Definition relativeYears (st : Dashboard.State) (n : Z) : Prop :=
  String.eqb (Dashboard.timeRange st) "custom" = false
  /\ String.eqb (Dashboard.timeRange st) "all" = false
  /\ parseInt (remove_first "y" (Dashboard.timeRange st)) = Some n.

(** The clock reads [now] and does not move while the chart is updated. *)
Definition steady (w : World) (now : Z) : Prop := forall i, clock w i = now.

(** The [filteredHistoryData] that [updateChart] computes. *)
Definition filteredHistory (st : Dashboard.State) (w : World) : HistoryMap :=
  let '(now, w1) := Date_now w in
  fst (Dashboard.filterHistories rt st now (Object_keys (Dashboard.historyData st)) [] w1).

End RangeNotions.

(** ** The aligned axis *)

Section AxisNotions.
Variable rt : Runtime.

(** The export key of a record whose date parses. *)
Definition isoKey (item : RankingHistoryItem) : string :=
  match timeOf rt item with
  | Some t => isoDateString t
  | None => EmptyString
  end.

(** The sum of the lengths of all histories. *)
Definition sum_lengths (h : HistoryMap) : nat :=
  list_sum (map (@length RankingHistoryItem) (Object_values h)).

(** The axis is at least as long as every history and at most as long as
    all of them together. *)
Definition axis_within_bounds (axis : list string) (h : HistoryMap) : Prop :=
  (forall history, In history (Object_values h) -> (length history <= length axis)%nat)
  /\ (length axis <= sum_lengths h)%nat.

(** Both exports return, and every label of the chart axis is the label of
    a record whose date parses. *)
Definition tolerates_malformed (st : Dashboard.State) (w : World) : Prop :=
  returns (Download.downloadCSV rt (Dashboard.historyData st)) = true
  /\ returns (Download.downloadJSON rt (Dashboard.historyData st)) = true
  /\ forall label,
      In label (Dashboard.labels (fst (Dashboard.buildChart rt st w))) ->
      exists item,
        In item (records (Dashboard.historyData st))
        /\ timeOf rt item <> None
        /\ Dashboard.dateLabel rt item = label.

End AxisNotions.

(** ** The exports, when every date parses *)

Section ExportNotions.
Variable rt : Runtime.

(** The record the exports show for an entity on a date. *)
Definition findByKey (history : list RankingHistoryItem) (date : string)
  : option RankingHistoryItem :=
  List.find (fun h => String.eqb (isoKey rt h) date) history.

Definition cellText (h : HistoryMap) (date code : string) : string :=
  match findByKey (Dashboard.historyOf h code) date with
  | Some item =>
      "," +:+ Z_toString (Rank item) +:+ "," +:+ Number_toString rt (TotalPoints item)
  | None => ",,"
  end.

Definition rowText (h : HistoryMap) (countries : list string) (date : string) : string :=
  fold_left (fun row code => row +:+ cellText h date code) countries date.

Definition csvText (h : HistoryMap) (countries dates : list string) : string :=
  fold_left (fun csv date => csv +:+ rowText h countries date +:+ nl) dates
            (Download.csvHeader countries).

Definition entryField (h : HistoryMap) (date : string) (entry : Download.TimeSeriesEntry)
                      (code : string) : Download.TimeSeriesEntry :=
  match findByKey (Dashboard.historyOf h code) date with
  | Some item =>
      Object_set entry code
        (Download.CountryField
           {| Download.rank := Rank item;
              Download.points := TotalPoints item;
              Download.countryName := firstDescription item |})
  | None => entry
  end.

Definition entryOf (h : HistoryMap) (countries : list string) (date : string)
  : Download.TimeSeriesEntry :=
  fold_left (entryField h date) countries [("date", Download.DateField date)].

(** The date of the export axis for the UTC day [d], which is the day of
    a record. *)
Definition export_day (h : HistoryMap) (date : string) (d : Z) : Prop :=
  date = isoDateString (d * msPerDay)
  /\ exists item t, In item (records h) /\ timeOf rt item = Some t /\ Day t = d.

(** The label of the chart axis for the local day [d], which is the day
    of a record. *)
Definition chart_day (f : HistoryMap) (label : string) (d : Z) : Prop :=
  exists item t,
    In item (records f) /\ timeOf rt item = Some t
    /\ Day (LocalTime rt t) = d /\ label = Dashboard.dateLabel rt item.

(** [Date] reads the labels that [toLocaleDateString] gives the records
    of [h] back as instants that grow with the local day. *)
Definition labels_read_back (h : HistoryMap) : Prop :=
  exists f : Z -> Z,
    (forall d1 d2, d1 < d2 -> f d1 < f d2)
    /\ forall item t,
        In item (records h) -> timeOf rt item = Some t ->
        Date_of_string rt (Dashboard.dateLabel rt item)
        = Some (f (Day (LocalTime rt t))).

(** The time value [Date] reads from a key of an axis. *)
Definition timeOfKey (k : string) : Z :=
  match Date_of_string rt k with
  | Some u => u
  | None => 0
  end.

End ExportNotions.

(** The chart labels name strictly increasing days and both exports return
    rows for strictly decreasing days. *)
Definition axes_chronological (rt : Runtime) (st : Dashboard.State) (w : World) : Prop :=
  (exists days,
      List.Forall2 (chart_day rt (filteredHistory rt st w))
                   (Dashboard.labels (fst (Dashboard.buildChart rt st w))) days
      /\ StronglySorted Z.lt days)
  /\ (exists dates days,
         Download.downloadCSV rt (Dashboard.historyData st)
         = Return (Some (csvText rt (Dashboard.historyData st)
                           (Object_keys (Dashboard.historyData st)) dates))
         /\ Download.downloadJSON rt (Dashboard.historyData st)
            = Return (Some (map (entryOf rt (Dashboard.historyData st)
                                   (Object_keys (Dashboard.historyData st))) dates))
         /\ List.Forall2 (export_day rt (Dashboard.historyData st)) dates days
         /\ StronglySorted Z.gt days).

(** ** Date keys *)

(** The export and the chart give the record the same key. *)
Definition keys_agree (rt : Runtime) (item : RankingHistoryItem) : Prop :=
  Download.dateKey rt item = Return (Dashboard.dateLabel rt item).

(** The text of the cells of the countries that follow an entity in a row. *)
Definition cellsText (rt : Runtime) (h : HistoryMap) (date : string)
                     (countries : list string) : string :=
  fold_left (fun acc c => acc +:+ cellText rt h date c) countries EmptyString.

(** ** Several records on one day *)

Section LatestNotions.
Variable rt : Runtime.

(** The time value of a record whose date parses. *)
Definition time0 (item : RankingHistoryItem) : Z :=
  match timeOf rt item with
  | Some t => t
  | None => 0
  end.

(** The history lists later records first. *)
Definition latest_first (history : list RankingHistoryItem) : Prop :=
  StronglySorted (fun a b => time0 b <= time0 a) history.

(** [item] is a record of the history with key [D], and no record with
    that key is later. *)
Definition latest_with (key : RankingHistoryItem -> string)
           (history : list RankingHistoryItem) (D : string)
           (item : RankingHistoryItem) : Prop :=
  In item history /\ key item = D
  /\ forall item', In item' history -> key item' = D -> time0 item' <= time0 item.

(** [item] is a record of the history with key [D], and no record with
    that key is earlier. *)
Definition earliest_with (key : RankingHistoryItem -> string)
           (history : list RankingHistoryItem) (D : string)
           (item : RankingHistoryItem) : Prop :=
  In item history /\ key item = D
  /\ forall item', In item' history -> key item' = D -> time0 item <= time0 item'.

(** The chart looks up the rank of the latest record of the day. *)
Definition chart_shows_latest (history : list RankingHistoryItem) (D : string) : Prop :=
  forall item,
    latest_with (Dashboard.dateLabel rt) history D item ->
    Dashboard.rankMap rt history !! D = Some (Rank item).

End LatestNotions.

(** ** The selection *)

(** A click that changes the selection. *)
Inductive Click :=
| Toggle (code : string)
| ClearAll.

Definition click (st : Dashboard.State) (c : Click) : Dashboard.State :=
  match c with
  | Toggle code => Controls.toggleCountry st code
  | ClearAll => Controls.clearAll st
  end.

(** ** Retrieval *)

(** The retrieval of [code] resolves with at least one record. *)
Definition hasData (fetch : string -> Dashboard.FetchResult) (st : Dashboard.State)
                   (code : string) : bool :=
  match fetch (Dashboard.apiUrl st code) with
  | Dashboard.Resolves (Some (_ :: _)) => true
  | _ => false
  end.

(** ** The custom range *)

(** The local year of a record, [NaN] when its date does not parse. *)
Definition localYear (rt : Runtime) (item : RankingHistoryItem) : num :=
  getFullYear rt (Date_of_string rt (PubDate item)).

(** The local year of the record lies between the two years of the custom
    range; false as soon as one of the three is [NaN]. *)
Definition in_custom_range (rt : Runtime) (st : Dashboard.State)
                           (item : RankingHistoryItem) : bool :=
  num_ge (localYear rt item) (Dashboard.customStartYear st)
  && num_le (localYear rt item) (Dashboard.customEndYear st).

(** ** The server route *)

(** The names of the query parameters that the route reads. *)
Definition route_parameter (name : string) : bool :=
  String.eqb name "countryCode" || String.eqb name "gender"
  || String.eqb name "footballType".

(** ** Auxiliary notions of the proofs *)

(** No character of [s] is [c]. *)
Fixpoint no_char (c : ascii) (s : string) : bool :=
  match s with
  | EmptyString => true
  | String c' s' => negb (Ascii.eqb c' c) && no_char c s'
  end.

(** The colour of the series at position [j], when the draws for the
    positions past the palette start at draw number [base]. *)
Definition colorAt (w : World) (base j : nat) : option string :=
  if (j <? length Dashboard.COLORS)%nat then nth_error Dashboard.COLORS j
  else randomColor (random w (base + (j - length Dashboard.COLORS))).

(** ** Tactics *)

Ltac digit_cases d :=
  let H := fresh in
  assert (H : d = 0 \/ d = 1 \/ d = 2 \/ d = 3 \/ d = 4 \/ d = 5 \/ d = 6
              \/ d = 7 \/ d = 8 \/ d = 9) by lia;
  repeat (destruct H as [H | H]; [rewrite H; try reflexivity |]);
  try (rewrite H; reflexivity).

Ltac eval_DayToMonth :=
  repeat match goal with
         | H : context [DayToMonth ?a ?b] |- _ =>
             let v := eval vm_compute in (DayToMonth a b) in
             change (DayToMonth a b) with v in H
         | |- context [DayToMonth ?a ?b] =>
             let v := eval vm_compute in (DayToMonth a b) in
             change (DayToMonth a b) with v
         end.

Ltac month_cases m :=
  let H := fresh in
  assert (H : m = 0 \/ m = 1 \/ m = 2 \/ m = 3 \/ m = 4 \/ m = 5 \/ m = 6
              \/ m = 7 \/ m = 8 \/ m = 9 \/ m = 10 \/ m = 11) by lia;
  destruct H as [-> | [-> | [-> | [-> | [-> | [-> | [-> | [-> | [-> | [-> | [-> | ->]]]]]]]]]]].


(* ===================================================================== *)
(** * Part IX.  Lemmas on the runtime *)
(* ===================================================================== *)

(** ** Decimal digits *)

Lemma digit_val_char (d : Z) : 0 <= d <= 9 -> digit_val (digit_char d) = Some d.
Proof. intros Hd. digit_cases d. Qed.

Lemma mod10_digit (n : Z) : 0 <= n mod 10 <= 9.
Proof. pose proof (Z.mod_pos_bound n 10). lia. Qed.

Lemma take_digits_pad_acc (k : nat) :
  forall (j : nat) (n : Z) (rest : string) (acc : Z),
    take_digits (k + j) (pad_acc k n rest) acc
    = take_digits j rest (acc * 10 ^ Z.of_nat k + n mod 10 ^ Z.of_nat k).
Proof.
  induction k as [| k IH]; intros j n rest acc.
  - cbn [pad_acc Nat.add]. f_equal. change (10 ^ Z.of_nat 0) with 1.
    rewrite Z.mod_1_r. lia.
  - cbn [pad_acc]. replace (S k + j)%nat with (k + S j)%nat by lia.
    rewrite IH. cbn [take_digits].
    rewrite digit_val_char by apply mod10_digit.
    f_equal.
    rewrite Nat2Z.inj_succ, Z.pow_succ_r by lia.
    assert (Hp : 0 < 10 ^ Z.of_nat k) by (apply Z.pow_pos_nonneg; lia).
    rewrite Z.rem_mul_r by lia.
    lia.
Qed.

Lemma append_cons (c : ascii) (s1 s2 : string) :
  String c s1 +:+ s2 = String c (s1 +:+ s2).
Proof. reflexivity. Qed.

Lemma append_nil_l (s : string) : EmptyString +:+ s = s.
Proof. reflexivity. Qed.

Lemma append_assoc (s1 s2 s3 : string) : (s1 +:+ s2) +:+ s3 = s1 +:+ (s2 +:+ s3).
Proof.
  induction s1 as [| c s1 IH]; rewrite ?append_cons, ?append_nil_l; congruence.
Qed.

Lemma append_nil_r (s : string) : s +:+ EmptyString = s.
Proof.
  induction s as [| c s IH]; rewrite ?append_cons, ?append_nil_l; congruence.
Qed.

Lemma pad_acc_app (k : nat) :
  forall (n : Z) (rest : string), pad_acc k n rest = pad k n +:+ rest.
Proof.
  unfold pad. induction k as [| k IH]; intros n rest.
  - reflexivity.
  - cbn [pad_acc]. rewrite (IH (n / 10) (String _ rest)).
    rewrite (IH (n / 10) (String _ EmptyString)).
    rewrite append_assoc. reflexivity.
Qed.

Lemma take_digits_pad (k : nat) (n : Z) (rest : string) :
  0 <= n < 10 ^ Z.of_nat k ->
  take_digits k (pad k n +:+ rest) 0 = Some (n, rest).
Proof.
  intros Hn. rewrite <- pad_acc_app.
  replace k with (k + 0)%nat at 1 by lia.
  rewrite take_digits_pad_acc. cbn [take_digits].
  rewrite Z.mod_small by lia. reflexivity.
Qed.

(** ** Characters of a string *)

Lemma no_char_app (c : ascii) (s1 s2 : string) :
  no_char c (s1 +:+ s2) = no_char c s1 && no_char c s2.
Proof.
  induction s1 as [| c' s1 IH]; rewrite ?append_cons, ?append_nil_l; cbn [no_char].
  - reflexivity.
  - rewrite IH. apply andb_assoc.
Qed.

Lemma split_head_app (c : ascii) (s1 s2 : string) :
  no_char c s1 = true -> split_head c (s1 +:+ String c s2) = s1.
Proof.
  induction s1 as [| c' s1 IH]; rewrite ?append_cons, ?append_nil_l;
    cbn [no_char split_head]; intros H.
  - rewrite Ascii.eqb_refl. reflexivity.
  - apply andb_prop in H as [Hc Hs]. destruct (Ascii.eqb c' c); [discriminate |].
    rewrite IH by assumption. reflexivity.
Qed.

Lemma digit_char_not_T (d : Z) : 0 <= d <= 9 -> Ascii.eqb (digit_char d) "T" = false.
Proof. intros Hd. digit_cases d. Qed.

Lemma no_T_pad_acc (k : nat) :
  forall (n : Z) (rest : string),
    no_char "T" rest = true -> no_char "T" (pad_acc k n rest) = true.
Proof.
  induction k as [| k IH]; intros n rest H; cbn [pad_acc].
  - assumption.
  - apply IH. cbn [no_char]. rewrite digit_char_not_T by apply mod10_digit.
    exact H.
Qed.

Lemma no_T_pad (k : nat) (n : Z) : no_char "T" (pad k n) = true.
Proof. apply no_T_pad_acc. reflexivity. Qed.

Lemma no_T_yearString (y : Z) : no_char "T" (yearString y) = true.
Proof.
  unfold yearString. destruct ((0 <=? y) && (y <=? 9999)).
  - apply no_T_pad.
  - rewrite no_char_app, no_T_pad. destruct (y <? 0); reflexivity.
Qed.

Lemma no_T_isoDateString (t : Z) : no_char "T" (isoDateString t) = true.
Proof.
  unfold isoDateString.
  rewrite !no_char_app, no_T_yearString, !no_T_pad. reflexivity.
Qed.

(** ** Calendar arithmetic *)

Lemma YearFromDay_spec (d : Z) :
  DayFromYear (YearFromDay d) <= d < DayFromYear (YearFromDay d + 1).
Proof.
  unfold YearFromDay, DayFromYear.
  repeat match goal with
         | |- context [if ?b then _ else _] => destruct b eqn:?
         end;
    Z.div_mod_to_equations; lia.
Qed.

Lemma DayFromYear_succ (y : Z) : DayFromYear (y + 1) = DayFromYear y + DaysInYear y.
Proof.
  unfold DayFromYear, DaysInYear.
  repeat match goal with
         | |- context [if ?b then _ else _] => destruct b eqn:?
         end;
    Z.div_mod_to_equations; lia.
Qed.

Lemma DayFromYear_mono (y1 y2 : Z) : y1 <= y2 -> DayFromYear y1 <= DayFromYear y2.
Proof. unfold DayFromYear. intros H. Z.div_mod_to_equations. lia. Qed.

(** The year is determined by the two bounds of [YearFromDay_spec]. *)
Lemma YearFromDay_unique (d y : Z) :
  DayFromYear y <= d < DayFromYear (y + 1) -> YearFromDay d = y.
Proof.
  intros H. pose proof (YearFromDay_spec d) as H'.
  destruct (Z.lt_trichotomy (YearFromDay d) y) as [Hlt | [Heq | Hgt]]; [| assumption |].
  - pose proof (DayFromYear_mono (YearFromDay d + 1) y). lia.
  - pose proof (DayFromYear_mono (y + 1) (YearFromDay d)). lia.
Qed.

Lemma DaysInYear_leap (y : Z) : DaysInYear y = 365 + leap_of_year y.
Proof.
  unfold leap_of_year, DaysInYear.
  repeat match goal with
         | |- context [if ?b then _ else _] => destruct b eqn:?
         end; try reflexivity; lia.
Qed.

Lemma leap_of_year_01 (y : Z) : leap_of_year y = 0 \/ leap_of_year y = 1.
Proof. unfold leap_of_year. destruct (DaysInYear y =? 366); auto. Qed.

Lemma DayWithinYear_bounds (t : Z) :
  0 <= DayWithinYear t < 365 + InLeapYear t.
Proof.
  unfold DayWithinYear, InLeapYear, YearFromTime.
  pose proof (YearFromDay_spec (Day t)) as H.
  rewrite DayFromYear_succ, DaysInYear_leap in H. lia.
Qed.

Lemma month_of_yday_range (d leap : Z) : 0 <= month_of_yday d leap <= 11.
Proof.
  unfold month_of_yday.
  repeat match goal with
         | |- context [if ?b then _ else _] => destruct b
         end; lia.
Qed.

(** The month found for a day of the year contains that day. *)
Lemma month_of_yday_spec (d leap : Z) :
  0 <= d < 365 + leap -> (leap = 0 \/ leap = 1) ->
  DayToMonth (month_of_yday d leap) leap <= d
  < DayToMonth (month_of_yday d leap + 1) leap.
Proof.
  intros Hd Hl. unfold month_of_yday.
  destruct Hl; subst leap;
    repeat match goal with
           | |- context [if ?x <? ?y then _ else _] => destruct (Z.ltb_spec x y)
           end;
    repeat match goal with
           | H : context [DayToMonth ?a ?b] |- _ =>
               let v := eval vm_compute in (DayToMonth a b) in
               change (DayToMonth a b) with v in H
           | |- context [DayToMonth ?a ?b] =>
               let v := eval vm_compute in (DayToMonth a b) in
               change (DayToMonth a b) with v
           end;
    lia.
Qed.

Lemma MonthFromTime_range (t : Z) : 0 <= MonthFromTime t <= 11.
Proof. apply month_of_yday_range. Qed.

Lemma DateFromTime_range (t : Z) :
  1 <= DateFromTime t <= DaysInMonth (YearFromTime t) (MonthFromTime t + 1).
Proof.
  unfold DateFromTime, DaysInMonth, MonthFromTime.
  pose proof (month_of_yday_spec (DayWithinYear t) (InLeapYear t)
                (DayWithinYear_bounds t) (leap_of_year_01 _)) as H.
  fold (InLeapYear t).
  replace (month_of_yday (DayWithinYear t) (InLeapYear t) + 1 - 1)
    with (month_of_yday (DayWithinYear t) (InLeapYear t)) by lia.
  lia.
Qed.

(** Year, month and day of the month give the day number back. *)
Lemma MakeDay_of_time (t : Z) :
  MakeDay (YearFromTime t) (MonthFromTime t) (DateFromTime t) = Day t.
Proof.
  unfold MakeDay. pose proof (MonthFromTime_range t) as Hm.
  rewrite Z.div_small, Z.mod_small, Z.add_0_r by lia.
  unfold DateFromTime, DayWithinYear, InLeapYear. lia.
Qed.

Lemma Day_bounds (t : Z) :
  Z.abs t <= maxTime -> -100000000 <= Day t <= 100000000.
Proof.
  unfold Day, maxTime, msPerDay. intros H. Z.div_mod_to_equations. lia.
Qed.

Lemma YearFromTime_range (t : Z) :
  Z.abs t <= maxTime -> -271821 <= YearFromTime t <= 275760.
Proof.
  intros H. apply Day_bounds in H. unfold YearFromTime.
  pose proof (YearFromDay_spec (Day t)) as Hs.
  pose proof (DayFromYear_mono (YearFromDay (Day t) + 1) (-271821)).
  pose proof (DayFromYear_mono 275761 (YearFromDay (Day t))).
  assert (DayFromYear (-271821) = -100000109) by reflexivity.
  assert (DayFromYear 275761 = 100000110) by reflexivity.
  lia.
Qed.

(** ** The ISO date format reads back what it prints *)

Lemma pad_succ_head (k : nat) (n : Z) :
  exists d tl, 0 <= d <= 9 /\ pad (S k) n = String (digit_char d) tl.
Proof.
  unfold pad. generalize EmptyString as acc. revert n.
  induction k as [| k IH]; intros n acc.
  - exists (n mod 10), acc. split; [apply mod10_digit | reflexivity].
  - change (pad_acc (S (S k)) n acc)
      with (pad_acc (S k) (n / 10) (String (digit_char (n mod 10)) acc)).
    apply IH.
Qed.

Lemma parse_year_digit (d : Z) (s : string) :
  0 <= d <= 9 ->
  parse_year (String (digit_char d) s) = take_digits 4 (String (digit_char d) s) 0.
Proof. intros Hd. digit_cases d. Qed.

Lemma parse_year_yearString (y : Z) (rest : string) :
  -999999 <= y <= 999999 ->
  parse_year (yearString y +:+ rest) = Some (y, rest).
Proof.
  intros Hy. unfold yearString.
  destruct (Z.leb_spec 0 y) as [H0 | H0]; cbn [andb].
  - destruct (Z.leb_spec y 9999) as [H1 | H1].
    + destruct (pad_succ_head 3 y) as (d & tl & Hd & E).
      pose proof (take_digits_pad 4 y rest ltac:(cbn; lia)) as Ht.
      rewrite E in *. rewrite append_cons in *.
      rewrite parse_year_digit by assumption. exact Ht.
    + destruct (Z.ltb_spec y 0) as [? | _]; [lia |].
      rewrite append_assoc, append_cons, append_nil_l. cbn [parse_year].
      rewrite take_digits_pad by (cbn; lia).
      rewrite Z.abs_eq by lia. reflexivity.
  - destruct (Z.ltb_spec y 0) as [_ | ?]; [| lia].
    rewrite append_assoc, append_cons, append_nil_l. cbn [parse_year].
    rewrite take_digits_pad by (cbn; lia). cbn.
    destruct (Z.eqb_spec (Z.abs y) 0) as [? | _]; [lia |].
    do 2 f_equal. lia.
Qed.

Lemma parse_iso_isoDateString (t : Z) :
  Z.abs t <= maxTime -> parse_iso (isoDateString t) = Some (Day t * msPerDay).
Proof.
  intros Ht. pose proof (YearFromTime_range t Ht) as Hy.
  pose proof (MonthFromTime_range t) as Hm.
  pose proof (DateFromTime_range t) as Hd.
  assert (Hdm : DaysInMonth (YearFromTime t) (MonthFromTime t + 1) <= 31).
  { unfold DaysInMonth. destruct (leap_of_year_01 (YearFromTime t)) as [-> | ->];
      assert (Hc : MonthFromTime t = 0 \/ MonthFromTime t = 1 \/ MonthFromTime t = 2
                   \/ MonthFromTime t = 3 \/ MonthFromTime t = 4 \/ MonthFromTime t = 5
                   \/ MonthFromTime t = 6 \/ MonthFromTime t = 7 \/ MonthFromTime t = 8
                   \/ MonthFromTime t = 9 \/ MonthFromTime t = 10 \/ MonthFromTime t = 11)
        by lia;
      repeat (destruct Hc as [Hc | Hc]; [rewrite Hc; vm_compute; discriminate |]);
      rewrite Hc; vm_compute; discriminate. }
  unfold parse_iso, isoDateString.
  rewrite parse_year_yearString by lia. cbn [mbind option_bind].
  rewrite append_cons, append_nil_l. cbn [expect]. rewrite Ascii.eqb_refl.
  cbn [mbind option_bind].
  rewrite take_digits_pad by (cbn; lia). cbn [mbind option_bind].
  rewrite append_cons, append_nil_l. cbn [expect]. rewrite Ascii.eqb_refl.
  cbn [mbind option_bind].
  rewrite <- (append_nil_r (pad 2 (DateFromTime t))).
  rewrite take_digits_pad by (cbn; lia). cbn [mbind option_bind].
  destruct (Z.leb_spec 1 (MonthFromTime t + 1)); [| lia].
  destruct (Z.leb_spec (MonthFromTime t + 1) 12); [| lia].
  destruct (Z.leb_spec 1 (DateFromTime t)); [| lia].
  destruct (Z.leb_spec (DateFromTime t)
              (DaysInMonth (YearFromTime t) (MonthFromTime t + 1))); [| lia].
  cbn [andb].
  replace (MonthFromTime t + 1 - 1) with (MonthFromTime t) by lia.
  rewrite MakeDay_of_time. unfold MakeDate. f_equal. lia.
Qed.

(** [TimeClip] keeps exactly the time values in range. *)
Lemma TimeClip_Some (t u : Z) : TimeClip t = Some u -> u = t /\ Z.abs t <= maxTime.
Proof.
  unfold TimeClip. destruct (Z.leb_spec (Z.abs t) maxTime); [| discriminate].
  intros [= <-]. auto.
Qed.

Lemma TimeClip_in_range (t : Z) : Z.abs t <= maxTime -> TimeClip t = Some t.
Proof.
  intros H. unfold TimeClip. destruct (Z.leb_spec (Z.abs t) maxTime); [reflexivity | lia].
Qed.

Lemma midnight_in_range (t : Z) :
  Z.abs t <= maxTime -> Z.abs (Day t * msPerDay) <= maxTime.
Proof. unfold Day, maxTime, msPerDay. intros H. Z.div_mod_to_equations. lia. Qed.

Section Dates.
Variable rt : Runtime.

Lemma Date_of_string_range (s : string) (t : Z) :
  Date_of_string rt s = Some t -> Z.abs t <= maxTime.
Proof.
  unfold Date_of_string. destruct (Date_parse rt s) as [u |]; cbn; [| discriminate].
  intros H. apply TimeClip_Some in H as [-> ?]. assumption.
Qed.

(** A date key of the export denotes UTC midnight of its day, on every host. *)
Lemma Date_of_isoDateString (t : Z) :
  Z.abs t <= maxTime ->
  Date_of_string rt (isoDateString t) = Some (Day t * msPerDay).
Proof.
  intros Ht. unfold Date_of_string, Date_parse.
  rewrite parse_iso_isoDateString by assumption. cbn.
  apply TimeClip_in_range, midnight_in_range, Ht.
Qed.

Lemma toISOString_date (t : Z) :
  cbind (toISOString (Some t)) (fun s => Return (split_head "T" s))
  = Return (isoDateString t).
Proof.
  cbn. f_equal. apply split_head_app, no_T_isoDateString.
Qed.

Lemma dateKey_valid (item : RankingHistoryItem) (t : Z) :
  Date_of_string rt (PubDate item) = Some t ->
  Download.dateKey rt item = Return (isoDateString t).
Proof. intros H. unfold Download.dateKey. rewrite H. apply toISOString_date. Qed.

Lemma dateKey_invalid (item : RankingHistoryItem) :
  Date_of_string rt (PubDate item) = None ->
  Download.dateKey rt item = Throw (RangeError "Invalid time value").
Proof. intros H. unfold Download.dateKey. rewrite H. reflexivity. Qed.

End Dates.

(** Two instants have the same export key exactly when they fall on the
    same UTC day. *)
Lemma isoDateString_inj (t1 t2 : Z) :
  Z.abs t1 <= maxTime -> Z.abs t2 <= maxTime ->
  isoDateString t1 = isoDateString t2 -> Day t1 = Day t2.
Proof.
  intros H1 H2 E.
  pose proof (parse_iso_isoDateString t1 H1) as P1.
  pose proof (parse_iso_isoDateString t2 H2) as P2.
  rewrite E in P1. rewrite P1 in P2. injection P2 as P2.
  unfold msPerDay in P2. lia.
Qed.

Lemma isoDateString_same_day (t1 t2 : Z) :
  Day t1 = Day t2 -> isoDateString t1 = isoDateString t2.
Proof.
  intros E. unfold isoDateString, DateFromTime, MonthFromTime, DayWithinYear,
    InLeapYear, YearFromTime. rewrite E. reflexivity.
Qed.

(** ** [Array.prototype.sort] *)

Section Sorting.
Context {A : Type}.
Variable comparefn : A -> A -> num.

Lemma sort_insert_perm (x : A) (l : list A) :
  Permutation (x :: l) (sort_insert comparefn x l).
Proof.
  induction l as [| y l IH]; cbn [sort_insert].
  - reflexivity.
  - destruct (0 <? SortCompare comparefn x y).
    + rewrite perm_swap. apply perm_skip, IH.
    + reflexivity.
Qed.

Lemma Array_sort_perm (l : list A) : Permutation l (Array_sort comparefn l).
Proof.
  unfold Array_sort. induction l as [| x l IH]; cbn [fold_right].
  - reflexivity.
  - rewrite <- sort_insert_perm. apply perm_skip, IH.
Qed.

Lemma Array_sort_In (l : list A) (x : A) : In x (Array_sort comparefn l) <-> In x l.
Proof.
  split; apply Permutation_in; [symmetry |]; apply Array_sort_perm.
Qed.

Lemma Array_sort_length (l : list A) : length (Array_sort comparefn l) = length l.
Proof. symmetry. apply Permutation_length, Array_sort_perm. Qed.

(** A comparator that subtracts the keys of its arguments, on the
    elements where the key is a number. *)
Variable key : A -> Z.
Variable ok : A -> Prop.
Hypothesis comparefn_key :
  forall a b, ok a -> ok b -> comparefn a b = Some (key a - key b).

Lemma sort_insert_sorted (x : A) (l : list A) :
  ok x -> Forall ok l ->
  StronglySorted (fun a b => key a <= key b) l ->
  StronglySorted (fun a b => key a <= key b) (sort_insert comparefn x l).
Proof using comparefn_key.
  intros Hx Hl Hs. induction Hs as [| y l Hs IH Hy]; cbn [sort_insert].
  - constructor; constructor.
  - apply List.Forall_cons_iff in Hl as [Hoy Hl].
    unfold SortCompare. rewrite comparefn_key by assumption.
    destruct (Z.ltb_spec 0 (key x - key y)) as [Hlt | Hge].
    + constructor; [apply IH, Hl |].
      apply (Permutation_Forall (sort_insert_perm x l)).
      constructor; [lia | exact Hy].
    + constructor; [constructor; assumption |].
      constructor; [lia |].
      eapply List.Forall_impl; [| exact Hy]. cbn. intros. lia.
Qed.

Lemma Array_sort_sorted (l : list A) :
  Forall ok l -> StronglySorted (fun a b => key a <= key b) (Array_sort comparefn l).
Proof using comparefn_key.
  unfold Array_sort. induction 1 as [| x l Hx Hl IH]; cbn [fold_right].
  - constructor.
  - apply sort_insert_sorted; [assumption | | assumption].
    apply (Permutation_Forall (Array_sort_perm l)), Hl.
Qed.

End Sorting.

(** A sorted list without repetitions whose keys tell its elements apart
    is strictly sorted. *)
Lemma StronglySorted_strict {A} (key : A -> Z) (l : list A) :
  StronglySorted (fun a b => key a <= key b) l ->
  List.NoDup l ->
  (forall a b, In a l -> In b l -> key a = key b -> a = b) ->
  StronglySorted (fun a b => key a < key b) l.
Proof.
  induction 1 as [| x l Hs IH Hx]; intros Hnd Hinj.
  - constructor.
  - apply List.NoDup_cons_iff in Hnd as [Hnx Hnd].
    constructor.
    + apply IH; [assumption |]. intros a b Ha Hb. apply Hinj; right; assumption.
    + rewrite List.Forall_forall in *. intros y Hy.
      specialize (Hx y Hy). cbn in Hx.
      destruct (Z.eq_dec (key x) (key y)) as [E | ?]; [| lia].
      apply Hinj in E; [| left; reflexivity | right; assumption].
      subst. contradiction.
Qed.

Lemma StronglySorted_map {A B} (f : A -> B) (R : B -> B -> Prop) (l : list A) :
  StronglySorted (fun a b => R (f a) (f b)) l -> StronglySorted R (map f l).
Proof.
  induction 1 as [| x l Hs IH Hx]; cbn [map]; constructor.
  - assumption.
  - apply List.Forall_map. exact Hx.
Qed.

(** ** [Set<string>] *)

Lemma Set_has_In (s : list string) (x : string) : Set_has s x = true <-> In x s.
Proof.
  unfold Set_has. rewrite existsb_exists. split.
  - intros (y & Hy & E). apply String.eqb_eq in E. subst. assumption.
  - intros H. exists x. split; [assumption | apply String.eqb_refl].
Qed.

Lemma Set_add_In (s : list string) (x y : string) :
  In y (Set_add s x) <-> In y s \/ y = x.
Proof.
  unfold Set_add. destruct (Set_has s x) eqn:E.
  - apply Set_has_In in E. split; [auto |]. intros [? | ->]; assumption.
  - rewrite in_app_iff. cbn. intuition.
Qed.

Lemma NoDup_snoc {A} (l : list A) (x : A) :
  List.NoDup l -> ~ In x l -> List.NoDup (l ++ [x]).
Proof.
  induction 1 as [| y l Hy Hl IH]; cbn [app]; intros Hx.
  - constructor; [intros [] | constructor].
  - constructor.
    + rewrite in_app_iff. cbn. intros [? | [-> | []]]; [contradiction |].
      apply Hx. left. reflexivity.
    + apply IH. intros H. apply Hx. right. assumption.
Qed.

Lemma Set_add_NoDup (s : list string) (x : string) :
  List.NoDup s -> List.NoDup (Set_add s x).
Proof.
  intros H. unfold Set_add. destruct (Set_has s x) eqn:E; [assumption |].
  apply NoDup_snoc; [assumption |]. intros Hx. apply Set_has_In in Hx. congruence.
Qed.

Lemma Set_add_length (s : list string) (x : string) :
  (length (Set_add s x) <= S (length s))%nat.
Proof.
  unfold Set_add. destruct (Set_has s x); [lia |]. rewrite length_app. cbn. lia.
Qed.

Lemma fold_Set_add_In (l s : list string) (y : string) :
  In y (fold_left Set_add l s) <-> In y s \/ In y l.
Proof.
  revert s. induction l as [| x l IH]; intros s; cbn [fold_left].
  - cbn. intuition.
  - rewrite IH, Set_add_In. cbn. intuition.
Qed.

Lemma fold_Set_add_NoDup (l s : list string) :
  List.NoDup s -> List.NoDup (fold_left Set_add l s).
Proof.
  revert s. induction l as [| x l IH]; intros s H; cbn [fold_left].
  - assumption.
  - apply IH, Set_add_NoDup, H.
Qed.

Lemma fold_Set_add_length (l s : list string) :
  (length (fold_left Set_add l s) <= length s + length l)%nat.
Proof.
  revert s. induction l as [| x l IH]; intros s; cbn [fold_left length].
  - lia.
  - pose proof (IH (Set_add s x)). pose proof (Set_add_length s x). lia.
Qed.

Lemma Set_of_list_In (l : list string) (y : string) : In y (Set_of_list l) <-> In y l.
Proof. unfold Set_of_list. rewrite fold_Set_add_In. cbn. intuition. Qed.

Lemma Set_of_list_NoDup (l : list string) : List.NoDup (Set_of_list l).
Proof. apply fold_Set_add_NoDup. constructor. Qed.

Lemma Set_of_list_length (l : list string) : (length (Set_of_list l) <= length l)%nat.
Proof. pose proof (fold_Set_add_length l []). cbn in *. assumption. Qed.

(** A list without repetitions is no longer than a list that holds all
    its elements. *)
Lemma NoDup_incl_le {A} (l l' : list A) :
  List.NoDup l -> incl l l' -> (length l <= length l')%nat.
Proof. apply NoDup_incl_length. Qed.

(** The nested loops that fill a set visit the items of all histories in
    order. *)
Lemma fold_nested {A S} (f : S -> A -> S) (ls : list (list A)) (s : S) :
  fold_left (fun s l => fold_left f l s) ls s = fold_left f (concat ls) s.
Proof.
  revert s. induction ls as [| l ls IH]; intros s; cbn [fold_left concat].
  - reflexivity.
  - rewrite fold_left_app. apply IH.
Qed.

Lemma fold_Set_add_map {A} (f : A -> string) (l : list A) (s : list string) :
  fold_left (fun s x => Set_add s (f x)) l s = fold_left Set_add (map f l) s.
Proof.
  revert s. induction l as [| x l IH]; intros s; cbn [fold_left map].
  - reflexivity.
  - apply IH.
Qed.

(** ** Loops whose body may throw *)

Lemma forEach_acc_app {A S} (f : S -> A -> Completion S) (l1 l2 : list A) (s : S) :
  Download.forEach_acc f (l1 ++ l2) s
  = cbind (Download.forEach_acc f l1 s) (Download.forEach_acc f l2).
Proof.
  revert s. induction l1 as [| x l1 IH]; intros s; cbn [Download.forEach_acc app].
  - reflexivity.
  - destruct (f s x) as [s' | e]; cbn [cbind]; [apply IH | reflexivity].
Qed.

Lemma forEach_acc_nested {A S} (f : S -> A -> Completion S)
      (ls : list (list A)) (s : S) :
  Download.forEach_acc (fun s l => Download.forEach_acc f l s) ls s
  = Download.forEach_acc f (concat ls) s.
Proof.
  revert s. induction ls as [| l ls IH]; intros s; cbn [Download.forEach_acc concat].
  - reflexivity.
  - rewrite forEach_acc_app.
    destruct (Download.forEach_acc f l s) as [s' | e]; cbn [cbind];
      [apply IH | reflexivity].
Qed.

(** A loop whose body returns on every element is a fold. *)
Lemma forEach_acc_pure {A S} (f : S -> A -> Completion S) (g : S -> A -> S)
      (l : list A) :
  forall s, (forall s x, In x l -> f s x = Return (g s x)) ->
       Download.forEach_acc f l s = Return (fold_left g l s).
Proof.
  induction l as [| x l IH]; intros s H; cbn [Download.forEach_acc fold_left].
  - reflexivity.
  - rewrite H by (left; reflexivity). cbn [cbind].
    apply IH. intros s' y Hy. apply H. right. assumption.
Qed.

(** A loop throws what its body throws on the first element where it does. *)
Lemma forEach_acc_throws {A S} (f : S -> A -> Completion S) (e : Exn) (l : list A) :
  forall s, (forall s x, In x l -> f s x = Throw e \/ exists s', f s x = Return s') ->
       Exists (fun x => forall s, f s x = Throw e) l ->
       Download.forEach_acc f l s = Throw e.
Proof.
  induction l as [| x l IH]; intros s H Hex; cbn [Download.forEach_acc].
  - inversion Hex.
  - apply Exists_cons in Hex as [Hx | Hex].
    + rewrite Hx. reflexivity.
    + destruct (H s x (or_introl eq_refl)) as [-> | [s' ->]]; cbn [cbind].
      * reflexivity.
      * apply IH; [| assumption]. intros s'' y Hy. apply H. right. assumption.
Qed.

Lemma cmap_pure {A B} (f : A -> Completion B) (g : A -> B) (l : list A) :
  (forall x, In x l -> f x = Return (g x)) -> cmap f l = Return (map g l).
Proof.
  induction l as [| x l IH]; intros H; cbn [cmap map].
  - reflexivity.
  - rewrite H by (left; reflexivity). cbn [cbind].
    rewrite IH by (intros y Hy; apply H; right; assumption). reflexivity.
Qed.

(** ** Objects *)

Lemma Object_get_In {V} (o : Object V) (k : string) (v : V) :
  Object_get o k = Some v -> In (k, v) o.
Proof.
  induction o as [| [k' v'] o IH]; cbn [Object_get]; [discriminate |].
  destruct (String.eqb_spec k' k) as [-> | ?].
  - intros [= ->]. left. reflexivity.
  - intros H. right. apply IH, H.
Qed.

Lemma Object_get_value {V} (o : Object V) (k : string) (v : V) :
  Object_get o k = Some v -> In v (Object_values o).
Proof.
  intros H. apply Object_get_In in H. unfold Object_values.
  apply in_map_iff. exists (k, v). auto.
Qed.

Lemma Object_get_key {V} (o : Object V) (k : string) :
  In k (Object_keys o) -> exists v, Object_get o k = Some v.
Proof.
  unfold Object_keys. induction o as [| [k' v'] o IH]; cbn [map Object_get fst].
  - intros [].
  - destruct (String.eqb_spec k' k) as [-> | Hne].
    + eauto.
    + intros [? | H]; [contradiction | apply IH, H].
Qed.

Lemma Object_get_None {V} (o : Object V) (k : string) :
  Object_get o k = None <-> ~ In k (Object_keys o).
Proof.
  split.
  - intros H Hin. apply Object_get_key in Hin as [v Hv]. congruence.
  - intros H. destruct (Object_get o k) as [v |] eqn:E; [| reflexivity].
    exfalso. apply H. apply Object_get_In in E. unfold Object_keys.
    apply in_map_iff. exists (k, v). auto.
Qed.

Lemma Object_update_get {V} (o : Object V) (k k' : string) (v : V) :
  Object_get (Object_update o k v) k'
  = if String.eqb k k' then option_map (fun _ => v) (Object_get o k)
    else Object_get o k'.
Proof.
  induction o as [| [k0 v0] o IH]; cbn [Object_update Object_get option_map].
  - destruct (String.eqb k k'); reflexivity.
  - destruct (String.eqb_spec k0 k) as [-> | Hne]; cbn [Object_get].
    + destruct (String.eqb_spec k k') as [-> | Hne'].
      * reflexivity.
      * reflexivity.
    + destruct (String.eqb_spec k0 k') as [-> | Hne'].
      * destruct (String.eqb_spec k k') as [-> | ?]; [contradiction | reflexivity].
      * exact IH.
Qed.

Lemma Object_insert_index_get {V} (o : Object V) (n : Z) (k k' : string) (v : V) :
  Object_get o k = None ->
  Object_get (Object_insert_index o n k v) k'
  = if String.eqb k k' then Some v else Object_get o k'.
Proof.
  induction o as [| [k0 v0] o IH]; cbn [Object_insert_index Object_get]; intros Hk.
  - reflexivity.
  - destruct (String.eqb_spec k0 k) as [-> | Hne]; [discriminate |].
    destruct (array_index k0) as [n0 |].
    + destruct (n0 <? n); cbn [Object_get].
      * rewrite IH by assumption.
        destruct (String.eqb_spec k0 k') as [-> | ?].
        -- destruct (String.eqb_spec k k') as [-> | ?]; [contradiction | reflexivity].
        -- reflexivity.
      * destruct (String.eqb k k'); reflexivity.
    + cbn [Object_get]. destruct (String.eqb k k'); reflexivity.
Qed.

Lemma Object_get_app {V} (o1 o2 : Object V) (k : string) :
  Object_get (o1 ++ o2) k
  = match Object_get o1 k with Some v => Some v | None => Object_get o2 k end.
Proof.
  induction o1 as [| [k0 v0] o1 IH]; cbn [app Object_get]; [reflexivity |].
  destruct (String.eqb k0 k); [reflexivity | apply IH].
Qed.

(** Reading a property after an assignment. *)
Lemma Object_get_set {V} (o : Object V) (k k' : string) (v : V) :
  Object_get (Object_set o k v) k'
  = if String.eqb k k' then Some v else Object_get o k'.
Proof.
  unfold Object_set, Object_has.
  destruct (Object_get o k) as [v0 |] eqn:E.
  - rewrite Object_update_get, E. reflexivity.
  - destruct (array_index k) as [n |].
    + apply Object_insert_index_get, E.
    + rewrite Object_get_app. cbn [Object_get].
      destruct (String.eqb_spec k k') as [-> | ?].
      * rewrite E. reflexivity.
      * destruct (Object_get o k'); reflexivity.
Qed.

(* ===================================================================== *)
(** * Part X.  The server route *)
(* ===================================================================== *)

(** A request whose [countryCode] is present but empty is answered with
    400 although the provider would have served it. *)
Lemma GET_empty_code :
  ~ route_by_absence
      (fun _ => Api.Responds 200 (Some (Api.JObject [("rankings", Api.JArray [])])))
      {| Api.searchParams := [("countryCode", EmptyString)] |}.
Proof.
  unfold route_by_absence. cbn. intros H.
  specialize (H _ eq_refl). discriminate H.
Qed.

(** C10 (as amended).  [GET] answers 400 "Country code is required",
    without contacting the provider, when [countryCode] is absent or
    empty.  Otherwise it requests exactly one URL, built from the country
    code and from [gender] and [footballType], which default to ["1"] and
    ["football"] when absent or empty; it answers 500 "Failed to fetch
    data" when the fetch rejects, when the status is not a success, or
    when the body is not JSON, and else forwards the payload with status
    200. *)
Theorem GET_cases (provider : string -> Api.Upstream) (req : Api.Request) :
  Api.GET provider req =
  match Api.searchParams_get (Api.searchParams req) "countryCode" with
  | None => (badRequest, [])
  | Some code =>
      if String.eqb code EmptyString then (badRequest, [])
      else
        let gender :=
          or_string (Api.searchParams_get (Api.searchParams req) "gender") "1" in
        let footballType :=
          or_string (Api.searchParams_get (Api.searchParams req) "footballType")
                    "football" in
        let url := Api.fifaUrl gender code footballType in
        (match provider url with
         | Api.FetchFails _ => fetchFailed
         | Api.Responds st body =>
             if Api.ok st then
               match body with
               | Some data => forwarded data
               | None => fetchFailed
               end
             else fetchFailed
         end, [url])
  end.
Proof.
  unfold Api.GET, Api.tryFetch.
  destruct (Api.searchParams_get (Api.searchParams req) "countryCode") as [code |];
    [| reflexivity].
  destruct (String.eqb code EmptyString); [reflexivity |].
  cbv zeta.
  destruct (provider _) as [e | st [data |]]; [reflexivity | |];
    destruct (Api.ok st); reflexivity.
Qed.

(* ===================================================================== *)
(** * Part XI.  Retrieval *)
(* ===================================================================== *)

Lemma cmap_throws {A B} (f : A -> Completion B) (l : list A) (x : A) (e : Exn) :
  In x l -> f x = Throw e -> exists e', cmap f l = Throw e'.
Proof.
  induction l as [| y l IH]; intros Hin Hx; [destruct Hin |]. cbn [cmap].
  destruct Hin as [-> | Hin].
  - rewrite Hx. eauto.
  - destruct (f y) as [b | e0]; cbn [cbind]; [| eauto].
    destruct (IH Hin Hx) as [e' ->]. eauto.
Qed.


Section Retrieval.
Variable rt : Runtime.
Variable fetch : string -> Dashboard.FetchResult.

Lemma updateChart_keeps (st : Dashboard.State) (w : World) :
  let st' := fst (Dashboard.updateChart rt st w) in
  Dashboard.results st' = Dashboard.results st
  /\ Dashboard.historyData st' = Dashboard.historyData st
  /\ Dashboard.loading st' = Dashboard.loading st.
Proof.
  unfold Dashboard.updateChart.
  destruct (negb (Dashboard.chartCanvas st)); [cbn; auto |].
  destruct (_ =? _)%nat; [cbn; auto |].
  unfold bind, ret. destruct (Dashboard.buildChart rt _ w) as [chart w']. cbn. auto.
Qed.

Lemma fetchCountry_rejected (st : Dashboard.State) (code : string) :
  rejected fetch st code -> exists e, Dashboard.fetchCountry rt fetch st code = Throw e.
Proof. intros [e H]. unfold Dashboard.fetchCountry. rewrite H. eauto. Qed.



Lemma fetchCountry_history (st : Dashboard.State) (c : string) (item : Dashboard.Fetched) :
  Dashboard.fetchCountry rt fetch st c = Return (Some item) ->
  Dashboard.code item = c
  /\ exists rankings,
       fetch (Dashboard.apiUrl st c) = Dashboard.Resolves (Some rankings)
       /\ Dashboard.history item = Array_sort (Dashboard.byPubDateDescending rt) rankings.
Proof.
  unfold Dashboard.fetchCountry.
  destruct (fetch _) as [e | [rankings |]]; [discriminate | | discriminate].
  destruct (0 <? length rankings)%nat; [| discriminate].
  destruct (Array_sort _ rankings) as [| current rest] eqn:E; [discriminate |].
  intros [= <-]. cbn. eauto.
Qed.



End Retrieval.



(* ===================================================================== *)
(** * Part XII.  The clock and the random source through [updateChart] *)
(* ===================================================================== *)

Lemma same_random_refl (w : World) : same_random w w.
Proof. split; reflexivity. Qed.

Lemma same_random_trans (w1 w2 w3 : World) :
  same_random w1 w2 -> same_random w2 w3 -> same_random w1 w3.
Proof. intros [A B] [C D]. split; congruence. Qed.

Lemma Date_now_random (w : World) : same_random w (snd (Date_now w)).
Proof. split; reflexivity. Qed.

Lemma filterM_random {A} (f : A -> IO bool) (l : list A) :
  (forall x w, same_random w (snd (f x w))) ->
  forall w, same_random w (snd (filterM f l w)).
Proof.
  intros Hf. induction l as [| x l IH]; intros w; cbn [filterM].
  - apply same_random_refl.
  - unfold bind, ret. pose proof (Hf x w) as H1. destruct (f x w) as [b w1].
    pose proof (IH w1) as H2. destruct (filterM f l w1) as [r w2].
    cbn in *. eapply same_random_trans; eassumption.
Qed.

(** In a filter, an element is kept only if the callback said so, in the
    world it ran in. *)
Lemma filterM_In {A} (f : A -> IO bool) (l : list A) (x : A) :
  forall w, In x (fst (filterM f l w)) -> In x l /\ exists w', fst (f x w') = true.
Proof.
  induction l as [| y l IH]; intros w; cbn [filterM].
  - intros [].
  - unfold bind, ret. destruct (f y w) as [b w1] eqn:E.
    specialize (IH w1). destruct (filterM f l w1) as [r w2]. cbn [fst] in *.
    destruct b.
    + intros [-> | H].
      * split; [left; reflexivity |]. exists w. rewrite E. reflexivity.
      * destruct (IH H) as [? ?]. split; [right |]; assumption.
    + intros H. destruct (IH H) as [? ?]. split; [right |]; assumption.
Qed.

(** A filter whose callback does not depend on the world is the pure
    filter. *)
Lemma filterM_pure {A} (f : A -> IO bool) (g : A -> bool) (l : list A) :
  forall w, (forall x w', In x l -> fst (f x w') = g x) ->
       fst (filterM f l w) = List.filter g l.
Proof.
  induction l as [| y l IH]; intros w H; cbn [filterM List.filter].
  - reflexivity.
  - unfold bind, ret. pose proof (H y w (or_introl eq_refl)) as Hy.
    destruct (f y w) as [b w1]. cbn [fst] in Hy. subst b.
    specialize (IH w1 (fun x w' Hx => H x w' (or_intror Hx))).
    destruct (filterM f l w1) as [r w2]. cbn [fst] in *. subst r.
    destruct (g y); reflexivity.
Qed.

Section Worlds.
Variable rt : Runtime.

Lemma keepItem_random (st : Dashboard.State) (now : Date) (item : RankingHistoryItem)
      (w : World) :
  same_random w (snd (Dashboard.keepItem rt st now item w)).
Proof.
  unfold Dashboard.keepItem.
  destruct (String.eqb _ "custom"); [apply same_random_refl |].
  destruct (negb _); [| apply same_random_refl].
  split; reflexivity.
Qed.

Lemma filterHistories_random (st : Dashboard.State) (now : Date) (codes : list string) :
  forall (acc : HistoryMap) (w : World),
    same_random w (snd (Dashboard.filterHistories rt st now codes acc w)).
Proof.
  induction codes as [| code codes IH]; intros acc w; cbn [Dashboard.filterHistories].
  - apply same_random_refl.
  - unfold bind.
    pose proof (filterM_random (Dashboard.keepItem rt st now)
                  (Dashboard.historyOf (Dashboard.historyData st) code)
                  (keepItem_random st now) w) as H1.
    destruct (filterM _ _ w) as [kept w1]. cbn [snd] in H1.
    eapply same_random_trans; [exact H1 | apply IH].
Qed.

(** ** Colours *)

Lemma COLORS_length : length Dashboard.COLORS = 30%nat.
Proof. reflexivity. Qed.

Lemma mapIndexed_colors (filtered : HistoryMap) (chart_labels : list string)
      (base : nat) (codes : list string) :
  forall (index : nat) (w : World) (i : nat) (ds : Dashboard.Dataset),
    random_draws w = (base + (index - length Dashboard.COLORS))%nat ->
    nth_error (fst (Dashboard.mapIndexed
                      (Dashboard.makeDataset rt filtered chart_labels) codes index w)) i
    = Some ds ->
    Dashboard.borderColor ds = colorAt w base (index + i)
    /\ Dashboard.backgroundColor ds = Dashboard.borderColor ds.
Proof.
  induction codes as [| code codes IH]; intros index w i ds Hw;
    cbn [Dashboard.mapIndexed].
  - destruct i; discriminate.
  - unfold bind, ret.
    destruct (Dashboard.makeDataset rt filtered chart_labels code index w)
      as [ds0 w1] eqn:E.
    specialize (IH (S index) w1).
    destruct (Dashboard.mapIndexed _ codes (S index) w1) as [sets w2].
    cbn [fst] in *.
    unfold Dashboard.makeDataset, Dashboard.seriesColor, bind, ret in E.
    rewrite COLORS_length in *.
    destruct i as [| i]; cbn [nth_error].
    + intros [= <-]. rewrite Nat.add_0_r. unfold colorAt. rewrite COLORS_length.
      destruct (index <? 30)%nat; injection E as <- _; cbn.
      * auto.
      * rewrite Hw. auto.
    + intros Hi. replace (index + S i)%nat with (S index + i)%nat by lia.
      assert (Hc : forall j, colorAt w1 base j = colorAt w base j).
      { intros j. unfold colorAt.
        destruct (index <? 30)%nat; injection E as _ <-; reflexivity. }
      rewrite <- Hc. apply IH; [| exact Hi].
      destruct (Nat.ltb_spec index 30); injection E as _ <-; cbn; lia.
Qed.

(** C6 (as amended).  The series at a position below the size of the
    palette gets the palette entry of that position, whatever the random
    source.  A series past the palette gets the entry selected by a call
    of [Math.random()]: the [k]-th series past the palette by the [k]-th
    draw, so its colour is a function of the random source and not of the
    position.  Border and background always agree. *)
Theorem series_colors (st : Dashboard.State) (w : World) (i : nat)
        (ds : Dashboard.Dataset) :
  nth_error (Dashboard.datasets (fst (Dashboard.buildChart rt st w))) i = Some ds ->
  Dashboard.borderColor ds
  = (if (i <? length Dashboard.COLORS)%nat then nth_error Dashboard.COLORS i
     else randomColor (random w (random_draws w + (i - length Dashboard.COLORS))))
  /\ Dashboard.backgroundColor ds = Dashboard.borderColor ds.
Proof.
  unfold Dashboard.buildChart, bind, ret.
  pose proof (Date_now_random w) as H1.
  destruct (Date_now w) as [now w1]. cbn [snd] in H1.
  pose proof (filterHistories_random st now (Object_keys (Dashboard.historyData st))
                [] w1) as H2.
  destruct (Dashboard.filterHistories rt st now _ [] w1) as [filtered w2].
  cbn [snd] in H2.
  destruct (same_random_trans _ _ _ H1 H2) as [Hr Hd].
  pose proof (mapIndexed_colors filtered (Dashboard.chartLabels rt filtered)
                (random_draws w) (Object_keys (Dashboard.historyData st)) 0 w2 i ds) as H.
  destruct (Dashboard.mapIndexed _ _ 0 w2) as [sets w3]. cbn [fst] in *.
  cbn [Dashboard.datasets]. intros Hi.
  destruct H as [Hb Hg]; [cbn; lia | exact Hi |].
  split; [| exact Hg]. rewrite Hb. unfold colorAt. cbn [Nat.add].
  rewrite Hr. reflexivity.
Qed.

End Worlds.

(** The 31st of 31 series is blue with one random source and purple with
    another. *)
Lemma random_color_differs :
  ~ colors_reproducible Hosts.enUS_UTC (ManyCountries.state 31).
Proof.
  intros H.
  specialize (H (Hosts.still_world Examples.new_year_2025 0)
                (Hosts.still_world Examples.new_year_2025 (1 # 2))).
  vm_compute in H. discriminate H.
Qed.

Lemma series_colors_witness :
  exists ds,
    nth_error (Dashboard.datasets
                 (fst (Dashboard.buildChart Hosts.enUS_UTC (ManyCountries.state 31)
                         (Hosts.still_world Examples.new_year_2025 (1 # 2))))) 30
    = Some ds
    /\ Dashboard.borderColor ds = Some "#a855f7".
Proof.
  eexists. split; [reflexivity |].
  apply (proj1 (series_colors Hosts.enUS_UTC (ManyCountries.state 31)
                  (Hosts.still_world Examples.new_year_2025 (1 # 2)) 30 _ eq_refl)).
Defined.

(* ===================================================================== *)
(** * Part XIII.  The time-range filter *)
(* ===================================================================== *)

(** A filter whose callback gives the same answer in every world that
    satisfies an invariant it maintains is the pure filter. *)
Lemma filterM_invariant {A} (P : World -> Prop) (f : A -> IO bool) (g : A -> bool)
      (l : list A) :
  (forall x w, P w -> fst (f x w) = g x /\ P (snd (f x w))) ->
  forall w, P w -> fst (filterM f l w) = List.filter g l /\ P (snd (filterM f l w)).
Proof.
  intros Hf. induction l as [| y l IH]; intros w Hw; cbn [filterM List.filter].
  - split; [reflexivity | exact Hw].
  - unfold bind, ret. destruct (Hf y w Hw) as [Hy Hw1].
    destruct (f y w) as [b w1]. cbn [fst snd] in Hy, Hw1. subst b.
    destruct (IH w1 Hw1) as [Hr Hw2].
    destruct (filterM f l w1) as [r w2]. cbn [fst snd] in *. subst r.
    split; [destruct (g y); reflexivity | exact Hw2].
Qed.

Lemma num_ge_spec (a b : num) :
  num_ge a b = true <-> exists x y, a = Some x /\ b = Some y /\ y <= x.
Proof.
  unfold num_ge. destruct a as [x |], b as [y |]; split;
    try discriminate; try (intros (? & ? & ? & ? & ?); discriminate).
  - intros H. apply Z.leb_le in H. eauto.
  - intros (x' & y' & [= <-] & [= <-] & H). apply Z.leb_le, H.
Qed.

Section Filter.
Variable rt : Runtime.

(** The callback of the relative range, with the clock standing at [now]. *)
Lemma keepItem_relative (st : Dashboard.State) (w : World) (now n : Z)
      (item : RankingHistoryItem) :
  relativeYears st n -> steady w now -> Z.abs now <= maxTime ->
  fst (Dashboard.keepItem rt st (Date_of_time now) item w)
  = num_ge (timeOf rt item) (shiftBackYears rt now n)
  /\ steady (snd (Dashboard.keepItem rt st (Date_of_time now) item w)) now.
Proof.
  intros (Hc & Ha & Hn) Hw Hnow. unfold Dashboard.keepItem.
  rewrite Hc, Ha, Hn. cbn [negb]. unfold bind, ret, Date_now. cbn [fst snd].
  split; [| exact Hw].
  rewrite Hw. unfold Date_of_time. rewrite TimeClip_in_range by assumption.
  unfold timeOf, shiftBackYears, setFullYear, getFullYear, getTime.
  cbn [option_map num_sub]. reflexivity.
Qed.


End Filter.


(* ===================================================================== *)
(** * Part XIV.  The filtered history and the two axes *)
(* ===================================================================== *)

Lemma Object_update_In {V} (o : Object V) (k : string) (v : V) (kv : string * V) :
  In kv (Object_update o k v) -> kv = (k, v) \/ In kv o.
Proof.
  induction o as [| [k0 v0] o IH]; cbn [Object_update]; [intros [] |].
  destruct (String.eqb_spec k0 k) as [-> | ?]; cbn [In].
  - intros [<- | H]; auto.
  - intros [<- | H]; [auto |]. destruct (IH H); auto.
Qed.

Lemma Object_insert_index_In {V} (o : Object V) (n : Z) (k : string) (v : V)
      (kv : string * V) :
  In kv (Object_insert_index o n k v) -> kv = (k, v) \/ In kv o.
Proof.
  induction o as [| [k0 v0] o IH]; cbn [Object_insert_index].
  - intros [<- | []]. auto.
  - destruct (array_index k0) as [n0 |]; [destruct (n0 <? n) |]; cbn [In].
    + intros [<- | H]; [auto |]. destruct (IH H); auto.
    + intros [<- | H]; auto.
    + intros [<- | H]; auto.
Qed.

Lemma Object_set_In {V} (o : Object V) (k : string) (v : V) (kv : string * V) :
  In kv (Object_set o k v) -> kv = (k, v) \/ In kv o.
Proof.
  unfold Object_set. destruct (Object_has o k).
  - apply Object_update_In.
  - destruct (array_index k) as [n |].
    + apply Object_insert_index_In.
    + rewrite in_app_iff. cbn. intros [H | [<- | []]]; auto.
Qed.

Lemma Object_values_In {V} (o : Object V) (v : V) :
  In v (Object_values o) <-> exists k, In (k, v) o.
Proof.
  unfold Object_values. rewrite in_map_iff. split.
  - intros ([k v'] & <- & H). eauto.
  - intros [k H]. exists (k, v). auto.
Qed.

Lemma records_In (h : HistoryMap) (item : RankingHistoryItem) :
  In item (records h) <-> exists history, In history (Object_values h) /\ In item history.
Proof.
  unfold records. rewrite in_concat. split; intros (x & ? & ?); eauto.
Qed.

Lemma sum_lengths_records (h : HistoryMap) : sum_lengths h = length (records h).
Proof.
  unfold sum_lengths, records.
  induction (Object_values h) as [| x l IH]; [reflexivity |].
  cbn [map concat]. rewrite length_app, <- IH. reflexivity.
Qed.

Lemma filter_all {A} (l : list A) : List.filter (fun _ => true) l = l.
Proof. induction l as [| x l IH]; cbn; congruence. Qed.

Section Filtered.
Variable rt : Runtime.

Lemma historyOf_records (h : HistoryMap) (c : string) (item : RankingHistoryItem) :
  In item (Dashboard.historyOf h c) -> In item (records h).
Proof.
  unfold Dashboard.historyOf. destruct (Object_get h c) as [hist |] eqn:E; [| intros []].
  intros H. apply records_In. exists hist. split; [| assumption].
  eapply Object_get_value, E.
Qed.

(** Every history of the filtered map is what the filter kept of the
    history of one of the codes. *)
Lemma filterHistories_values (st : Dashboard.State) (now : Date) (codes : list string) :
  forall (acc : HistoryMap) (w : World) (hist : list RankingHistoryItem),
    In hist (Object_values (fst (Dashboard.filterHistories rt st now codes acc w))) ->
    In hist (Object_values acc)
    \/ exists c w', In c codes
                    /\ hist = fst (filterM (Dashboard.keepItem rt st now)
                                     (Dashboard.historyOf (Dashboard.historyData st) c) w').
Proof.
  induction codes as [| code codes IH]; intros acc w hist;
    cbn [Dashboard.filterHistories].
  - auto.
  - unfold bind.
    destruct (filterM _ (Dashboard.historyOf (Dashboard.historyData st) code) w)
      as [kept w1] eqn:E.
    intros H. apply IH in H as [H | (c & w' & Hc & Hh)].
    + apply Object_values_In in H as [k H]. apply Object_set_In in H as [[= _ ->] | H].
      * right. exists code, w. split; [left; reflexivity |]. rewrite E. reflexivity.
      * left. apply Object_values_In. eauto.
    + right. exists c, w'. split; [right |]; assumption.
Qed.

Lemma filterHistories_get_other (st : Dashboard.State) (now : Date) (codes : list string)
      (c : string) :
  ~ In c codes ->
  forall (acc : HistoryMap) (w : World),
    Object_get (fst (Dashboard.filterHistories rt st now codes acc w)) c
    = Object_get acc c.
Proof.
  induction codes as [| code codes IH]; intros Hc acc w;
    cbn [Dashboard.filterHistories].
  - reflexivity.
  - unfold bind. destruct (filterM _ _ w) as [kept w1].
    rewrite IH by (intros H; apply Hc; right; assumption).
    rewrite Object_get_set.
    destruct (String.eqb_spec code c) as [-> | ?]; [| reflexivity].
    exfalso. apply Hc. left. reflexivity.
Qed.

(** The filtered map binds every code to what the filter kept of its
    history. *)
Lemma filterHistories_get (st : Dashboard.State) (now : Date) (codes : list string)
      (c : string) :
  In c codes ->
  forall (acc : HistoryMap) (w : World),
  exists w',
    Object_get (fst (Dashboard.filterHistories rt st now codes acc w)) c
    = Some (fst (filterM (Dashboard.keepItem rt st now)
                   (Dashboard.historyOf (Dashboard.historyData st) c) w')).
Proof.
  induction codes as [| code codes IH]; intros Hc acc w; [destruct Hc |].
  cbn [Dashboard.filterHistories]. unfold bind.
  destruct (filterM _ (Dashboard.historyOf (Dashboard.historyData st) code) w)
    as [kept w1] eqn:E.
  destruct (in_dec string_dec c codes) as [Hin | Hnin].
  - apply IH, Hin.
  - destruct Hc as [-> | ?]; [| contradiction].
    exists w. rewrite filterHistories_get_other by assumption.
    rewrite Object_get_set, String.eqb_refl, E. reflexivity.
Qed.

(** What survives the filter was in the history map and passed the
    callback. *)
Lemma filteredHistory_records (st : Dashboard.State) (w : World)
      (item : RankingHistoryItem) :
  In item (records (filteredHistory rt st w)) ->
  In item (records (Dashboard.historyData st))
  /\ exists now w',
      fst (Dashboard.keepItem rt st now item w') = true.
Proof.
  unfold filteredHistory. destruct (Date_now w) as [now w1].
  intros H. apply records_In in H as (hist & Hh & Hi).
  apply filterHistories_values in Hh as [[] | (c & w' & _ & ->)].
  apply filterM_In in Hi as [Hi [w'' Hk]].
  split; [eapply historyOf_records, Hi | eauto].
Qed.

Lemma buildChart_labels (st : Dashboard.State) (w : World) :
  Dashboard.labels (fst (Dashboard.buildChart rt st w))
  = Dashboard.chartLabels rt (filteredHistory rt st w).
Proof.
  unfold Dashboard.buildChart, filteredHistory, bind, ret.
  destruct (Date_now w) as [now w1].
  destruct (Dashboard.filterHistories rt st now _ [] w1) as [filtered w2].
  destruct (Dashboard.mapIndexed _ _ 0%nat w2) as [sets w3]. reflexivity.
Qed.

(** The set of labels of the chart. *)
Lemma chart_allDates (f : HistoryMap) :
  Dashboard.allDates rt f = Set_of_list (map (Dashboard.dateLabel rt) (records f)).
Proof.
  unfold Dashboard.allDates, Set_of_list, records.
  rewrite (fold_nested (fun s item => Set_add s (Dashboard.dateLabel rt item))).
  apply fold_Set_add_map.
Qed.

Lemma chartLabels_In (f : HistoryMap) (label : string) :
  In label (Dashboard.chartLabels rt f)
  <-> exists item, In item (records f) /\ Dashboard.dateLabel rt item = label.
Proof.
  unfold Dashboard.chartLabels.
  rewrite Array_sort_In, chart_allDates, Set_of_list_In, in_map_iff.
  split; intros (item & ? & ?); eauto.
Qed.

Lemma chartLabels_NoDup (f : HistoryMap) : List.NoDup (Dashboard.chartLabels rt f).
Proof.
  unfold Dashboard.chartLabels.
  eapply Permutation_NoDup; [apply Array_sort_perm |].
  rewrite chart_allDates. apply Set_of_list_NoDup.
Qed.

(** The set of dates of the exports: the keys of all records when every
    date parses, and a [RangeError] when one does not. *)
Lemma export_allDates_flat (h : HistoryMap) :
  Download.allDates rt h
  = Download.forEach_acc
      (fun s item => cbind (Download.dateKey rt item) (fun k => Return (Set_add s k)))
      (records h) [].
Proof. unfold Download.allDates, records. apply forEach_acc_nested. Qed.

Lemma dateKey_isoKey (item : RankingHistoryItem) :
  timeOf rt item <> None -> Download.dateKey rt item = Return (isoKey rt item).
Proof.
  unfold isoKey, timeOf, getTime. intros H.
  destruct (Date_of_string rt (PubDate item)) as [t |] eqn:E; [| contradiction].
  apply dateKey_valid, E.
Qed.

Lemma export_allDates_valid (h : HistoryMap) :
  (forall item, In item (records h) -> timeOf rt item <> None) ->
  Download.allDates rt h = Return (Set_of_list (map (isoKey rt) (records h))).
Proof.
  intros H. rewrite export_allDates_flat. unfold Set_of_list.
  rewrite <- fold_Set_add_map. apply forEach_acc_pure.
  intros s item Hi. rewrite dateKey_isoKey by (apply H, Hi). reflexivity.
Qed.

Lemma dateKey_cases (item : RankingHistoryItem) :
  Download.dateKey rt item = Throw (RangeError "Invalid time value")
  \/ (timeOf rt item <> None /\ Download.dateKey rt item = Return (isoKey rt item)).
Proof.
  destruct (timeOf rt item) as [t |] eqn:E.
  - right. split; [discriminate |]. apply dateKey_isoKey. congruence.
  - left. apply dateKey_invalid, E.
Qed.

Lemma export_allDates_invalid (h : HistoryMap) (item : RankingHistoryItem) :
  In item (records h) -> timeOf rt item = None ->
  Download.allDates rt h = Throw (RangeError "Invalid time value").
Proof.
  intros Hin Hbad. rewrite export_allDates_flat. apply forEach_acc_throws.
  - intros s x _. destruct (dateKey_cases x) as [-> | [_ ->]]; cbn [cbind]; eauto.
  - apply List.Exists_exists. exists item. split; [assumption |]. intros s.
    rewrite dateKey_invalid by assumption. reflexivity.
Qed.

(** Both exports return exactly when every date parses. *)
Lemma export_allDates_returns (h : HistoryMap) (dates : list string) :
  Download.allDates rt h = Return dates ->
  (forall item, In item (records h) -> timeOf rt item <> None)
  /\ dates = Set_of_list (map (isoKey rt) (records h)).
Proof.
  intros H.
  assert (Hv : forall item, In item (records h) -> timeOf rt item <> None).
  { intros item Hi Hbad. rewrite (export_allDates_invalid h item Hi Hbad) in H.
    discriminate H. }
  split; [exact Hv |]. rewrite export_allDates_valid in H by exact Hv.
  injection H as <-. reflexivity.
Qed.

End Filtered.

(* ===================================================================== *)
(** * Part XV.  Malformed timestamps *)
(* ===================================================================== *)

Lemma records_keys (h : HistoryMap) (item : RankingHistoryItem) :
  In item (records h) -> (length (Object_keys h) =? 0)%nat = false.
Proof.
  intros H. apply records_In in H as (hist & Hh & _).
  destruct h as [| kv h]; [destruct Hh | reflexivity].
Qed.

Section Malformed.
Variable rt : Runtime.

Lemma sortedDates_invalid (h : HistoryMap) (item : RankingHistoryItem) :
  In item (records h) -> timeOf rt item = None ->
  Download.sortedDates rt h = Throw (RangeError "Invalid time value").
Proof.
  intros Hi Hb. unfold Download.sortedDates.
  rewrite (export_allDates_invalid rt h item Hi Hb). reflexivity.
Qed.

Lemma keepItem_invalid (st : Dashboard.State) (now : Date) (item : RankingHistoryItem)
      (w : World) :
  timeOf rt item = None -> Dashboard.timeRange st <> "all" ->
  fst (Dashboard.keepItem rt st now item w) = false.
Proof.
  unfold timeOf, getTime. intros Hb Hall. unfold Dashboard.keepItem. rewrite Hb.
  destruct (String.eqb _ "custom"); [reflexivity |].
  destruct (String.eqb_spec (Dashboard.timeRange st) "all"); [contradiction |].
  reflexivity.
Qed.

Lemma keepItem_all (st : Dashboard.State) (now : Date) (item : RankingHistoryItem)
      (w : World) :
  Dashboard.timeRange st = "all" ->
  fst (Dashboard.keepItem rt st now item w) = true.
Proof. intros H. unfold Dashboard.keepItem. rewrite H. reflexivity. Qed.

(** With the range ["all"] the filtered map binds every code to its whole
    history. *)
Lemma filteredHistory_all (st : Dashboard.State) (w : World) (c : string)
      (history : list RankingHistoryItem) :
  Dashboard.timeRange st = "all" ->
  Object_get (Dashboard.historyData st) c = Some history ->
  Object_get (filteredHistory rt st w) c = Some history.
Proof.
  intros Hall Hget. unfold filteredHistory. destruct (Date_now w) as [now w1].
  assert (Hc : In c (Object_keys (Dashboard.historyData st))).
  { apply Object_get_In in Hget. unfold Object_keys. apply in_map_iff.
    exists (c, history). auto. }
  destruct (filterHistories_get rt st now _ c Hc [] w1) as [w' ->].
  f_equal. unfold Dashboard.historyOf. rewrite Hget.
  rewrite <- (filter_all history) at 2.
  apply (filterM_invariant (fun _ => True)); [| exact I].
  intros x w'' _. split; [apply keepItem_all, Hall | exact I].
Qed.

(** C7 (as amended).  A record whose [PubDate] does not parse makes both
    exports throw a [RangeError]: nothing is saved.  Building the chart
    does not throw.  With the time range ["all"] the record stays on the
    axis, as the label ["Invalid Date"]; with any other time range the
    filter drops it before the axis is built. *)
Theorem malformed_timestamp (st : Dashboard.State) (w : World) (code : string)
        (history : list RankingHistoryItem) (item : RankingHistoryItem) :
  Object_get (Dashboard.historyData st) code = Some history ->
  In item history ->
  timeOf rt item = None ->
  Download.downloadCSV rt (Dashboard.historyData st)
  = Throw (RangeError "Invalid time value")
  /\ Download.downloadJSON rt (Dashboard.historyData st)
     = Throw (RangeError "Invalid time value")
  /\ (Dashboard.timeRange st = "all" ->
      In "Invalid Date" (Dashboard.labels (fst (Dashboard.buildChart rt st w))))
  /\ (Dashboard.timeRange st <> "all" ->
      ~ In item (records (filteredHistory rt st w))).
Proof.
  intros Hget Hin Hbad.
  assert (Hrec : In item (records (Dashboard.historyData st))).
  { apply records_In. exists history. split; [| assumption].
    eapply Object_get_value, Hget. }
  pose proof (records_keys _ _ Hrec) as Hk.
  pose proof (sortedDates_invalid _ _ Hrec Hbad) as Hs.
  repeat split.
  - unfold Download.downloadCSV. rewrite Hk, Hs. reflexivity.
  - unfold Download.downloadJSON. rewrite Hk, Hs. reflexivity.
  - intros Hall. rewrite buildChart_labels. apply chartLabels_In.
    exists item. split.
    + apply records_In. exists history. split; [| assumption].
      eapply Object_get_value, filteredHistory_all; eassumption.
    + unfold Dashboard.dateLabel. unfold timeOf, getTime in Hbad. rewrite Hbad.
      reflexivity.
  - intros Hall H. apply filteredHistory_records in H as (_ & now & w' & Hk').
    rewrite keepItem_invalid in Hk' by assumption. discriminate Hk'.
Qed.

(* ===================================================================== *)
(** * Part XVI.  The length of the axis *)
(* ===================================================================== *)

Lemma history_records (h : HistoryMap) (history : list RankingHistoryItem) :
  In history (Object_values h) -> incl history (records h).
Proof. intros H item Hi. apply records_In. eauto. Qed.

Lemma distinct_keys_le {A} (key : A -> string) (l : list A) (axis : list string) :
  (forall x, In x l -> In (key x) axis) ->
  (length (Set_of_list (map key l)) <= length axis)%nat
  /\ (List.NoDup (map key l) -> (length l <= length axis)%nat).
Proof.
  intros H. split.
  - apply NoDup_incl_length; [apply Set_of_list_NoDup |].
    intros k Hk. apply Set_of_list_In, in_map_iff in Hk as (x & <- & Hx). auto.
  - intros Hnd. rewrite <- (length_map key).
    apply NoDup_incl_length; [assumption |].
    intros k Hk. apply in_map_iff in Hk as (x & <- & Hx). auto.
Qed.

(** C8 (as amended).  The chart axis and the export axis have no
    repetitions, so their length is the number of distinct date keys.  It
    is at most the sum of the lengths of all histories, and at least the
    number of distinct date keys of each single history; it is at least
    the length of a history whose records all fall on different days. *)
Theorem axis_length_bounds (st : Dashboard.State) (w : World) :
  let filtered := filteredHistory rt st w in
  let axis := Dashboard.labels (fst (Dashboard.buildChart rt st w)) in
  (List.NoDup axis
   /\ (length axis <= sum_lengths filtered)%nat
   /\ forall history,
       In history (Object_values filtered) ->
       (length (Set_of_list (map (Dashboard.dateLabel rt) history)) <= length axis)%nat
       /\ (List.NoDup (map (Dashboard.dateLabel rt) history) ->
           (length history <= length axis)%nat))
  /\
  (forall dates,
      Download.sortedDates rt (Dashboard.historyData st) = Return dates ->
      List.NoDup dates
      /\ (length dates <= sum_lengths (Dashboard.historyData st))%nat
      /\ forall history,
          In history (Object_values (Dashboard.historyData st)) ->
          (length (Set_of_list (map (isoKey rt) history)) <= length dates)%nat
          /\ (List.NoDup (map (isoKey rt) history) ->
              (length history <= length dates)%nat)).
Proof.
  cbv zeta. rewrite buildChart_labels. split.
  - split; [apply chartLabels_NoDup |]. split.
    + unfold Dashboard.chartLabels. rewrite Array_sort_length, chart_allDates.
      rewrite sum_lengths_records, <- (length_map (Dashboard.dateLabel rt)).
      apply Set_of_list_length.
    + intros history Hh. apply distinct_keys_le.
      intros x Hx. apply chartLabels_In. exists x. split; [| reflexivity].
      eapply history_records; eassumption.
  - intros dates Hd. unfold Download.sortedDates in Hd.
    destruct (Download.allDates rt (Dashboard.historyData st)) as [ds | e] eqn:E;
      [| discriminate]. cbn [cbind] in Hd. injection Hd as <-.
    apply export_allDates_returns in E as [Hv ->].
    split; [| split].
    + eapply Permutation_NoDup; [apply Array_sort_perm | apply Set_of_list_NoDup].
    + rewrite Array_sort_length, sum_lengths_records, <- (length_map (isoKey rt)).
      apply Set_of_list_length.
    + intros history Hh. apply distinct_keys_le.
      intros x Hx. apply Array_sort_In, Set_of_list_In, in_map.
      eapply history_records; eassumption.
Qed.

End Malformed.

(** With one good record and one malformed record, the exports throw and
    ["Invalid Date"] is a label of the chart. *)
Lemma malformed_breaks_export :
  ~ tolerates_malformed Hosts.enUS_UTC Malformed.state
      (Hosts.still_world Examples.new_year_2025 0).
Proof. intros [H _]. vm_compute in H. discriminate H. Qed.

Lemma malformed_timestamp_witness :
  Download.downloadCSV Hosts.enUS_UTC Malformed.history
  = Throw (RangeError "Invalid time value")
  /\ In "Invalid Date"
        (Dashboard.labels
           (fst (Dashboard.buildChart Hosts.enUS_UTC Malformed.state
                   (Hosts.still_world Examples.new_year_2025 0)))).
Proof.
  pose proof (malformed_timestamp Hosts.enUS_UTC Malformed.state
                (Hosts.still_world Examples.new_year_2025 0) "USA"
                _ (Hosts.item "USA" "USA" 4 (1760 # 1) "not a date")
                eq_refl ltac:(right; left; reflexivity)
                ltac:(vm_compute; reflexivity)) as (H1 & _ & H3 & _).
  split; [exact H1 | apply H3; reflexivity].
Defined.

(** One entity with two records on the same day: the axis has one date,
    the history two records. *)
Lemma same_day_axis_shorter :
  ~ axis_within_bounds
      (Dashboard.labels (fst (Dashboard.buildChart Hosts.enUS_UTC SameDay.state
                                (Hosts.still_world Examples.new_year_2025 0))))
      (filteredHistory Hosts.enUS_UTC SameDay.state
         (Hosts.still_world Examples.new_year_2025 0)).
Proof.
  intros [H _]. specialize (H [SameDay.noon; SameDay.midnight]).
  assert (Hin : In [SameDay.noon; SameDay.midnight]
                   (Object_values (filteredHistory Hosts.enUS_UTC SameDay.state
                                     (Hosts.still_world Examples.new_year_2025 0)))).
  { vm_compute. left. reflexivity. }
  apply H in Hin. vm_compute in Hin. lia.
Qed.

Lemma axis_length_bounds_witness :
  (length (Dashboard.labels
             (fst (Dashboard.buildChart Hosts.enUS_UTC SameDay.state
                     (Hosts.still_world Examples.new_year_2025 0))))
   <= sum_lengths (filteredHistory Hosts.enUS_UTC SameDay.state
                     (Hosts.still_world Examples.new_year_2025 0)))%nat.
Proof.
  pose proof (axis_length_bounds Hosts.enUS_UTC SameDay.state
                (Hosts.still_world Examples.new_year_2025 0)) as H.
  cbv zeta in H. destruct H as [[_ [H _]] _]. exact H.
Defined.

(* ===================================================================== *)
(** * Part XVII.  The exports when every date parses *)
(* ===================================================================== *)

Lemma cfind_pure {A} (f : A -> Completion bool) (g : A -> bool) (l : list A) :
  (forall x, In x l -> f x = Return (g x)) -> cfind f l = Return (List.find g l).
Proof.
  induction l as [| x l IH]; intros H; cbn [cfind List.find].
  - reflexivity.
  - rewrite H by (left; reflexivity). cbn [cbind].
    destruct (g x); [reflexivity |].
    apply IH. intros y Hy. apply H. right. assumption.
Qed.

Lemma keys_nonempty {V} (o : Object V) :
  o <> [] -> (length (Object_keys o) =? 0)%nat = false.
Proof. destruct o; [contradiction | reflexivity]. Qed.

Section PureExport.
Variable rt : Runtime.
Variable h : HistoryMap.
Hypothesis well_dated : forall item, In item (records h) -> timeOf rt item <> None.

Lemma export_historyOf (code : string) :
  In code (Object_keys h) ->
  Download.historyOf h code = Return (Dashboard.historyOf h code).
Proof using Type.
  intros H. apply Object_get_key in H as [hist E].
  unfold Download.historyOf, Dashboard.historyOf. rewrite E. reflexivity.
Qed.

Lemma findItem_pure (code date : string) :
  Download.findItem rt (Dashboard.historyOf h code) date
  = Return (findByKey rt (Dashboard.historyOf h code) date).
Proof using well_dated.
  unfold Download.findItem, findByKey. apply cfind_pure.
  intros x Hx. rewrite dateKey_isoKey; [reflexivity |].
  eapply well_dated, historyOf_records, Hx.
Qed.

Lemma csvCell_pure (date code : string) :
  In code (Object_keys h) ->
  Download.csvCell rt h date code = Return (cellText rt h date code).
Proof using well_dated.
  intros H. unfold Download.csvCell, cellText.
  rewrite export_historyOf by assumption. cbn [cbind].
  rewrite findItem_pure. cbn [cbind].
  destruct (findByKey _ _ _); reflexivity.
Qed.

Lemma csvRow_pure (countries : list string) (date : string) :
  incl countries (Object_keys h) ->
  Download.csvRow rt h countries date = Return (rowText rt h countries date).
Proof using well_dated.
  intros H. unfold Download.csvRow, rowText. apply forEach_acc_pure.
  intros row code Hc. rewrite csvCell_pure by (apply H, Hc). reflexivity.
Qed.

Lemma csvRows_pure (countries dates : list string) (csv : string) :
  incl countries (Object_keys h) ->
  Download.csvRows rt h countries dates csv
  = Return (fold_left (fun csv date => csv +:+ rowText rt h countries date +:+ nl)
                      dates csv).
Proof using well_dated.
  intros H. unfold Download.csvRows. apply forEach_acc_pure.
  intros s date _. rewrite csvRow_pure by assumption. reflexivity.
Qed.

Lemma jsonField_pure (date : string) (entry : Download.TimeSeriesEntry) (code : string) :
  In code (Object_keys h) ->
  Download.jsonField rt h date entry code = Return (entryField rt h date entry code).
Proof using well_dated.
  intros H. unfold Download.jsonField, entryField.
  rewrite export_historyOf by assumption. cbn [cbind].
  rewrite findItem_pure. cbn [cbind].
  destruct (findByKey _ _ _); reflexivity.
Qed.

Lemma jsonEntry_pure (countries : list string) (date : string) :
  incl countries (Object_keys h) ->
  Download.jsonEntry rt h countries date = Return (entryOf rt h countries date).
Proof using well_dated.
  intros H. unfold Download.jsonEntry, entryOf. apply forEach_acc_pure.
  intros entry code Hc. apply jsonField_pure, H, Hc.
Qed.

Lemma sortedDates_pure :
  Download.sortedDates rt h
  = Return (Array_sort (Download.byDateDescending rt)
                       (Set_of_list (map (isoKey rt) (records h)))).
Proof using well_dated.
  unfold Download.sortedDates. rewrite export_allDates_valid by exact well_dated.
  reflexivity.
Qed.

(** The two exports of a non-empty history map whose dates all parse. *)
Lemma downloadCSV_pure :
  h <> [] ->
  Download.downloadCSV rt h
  = Return (Some (csvText rt h (Object_keys h)
                    (Array_sort (Download.byDateDescending rt)
                                (Set_of_list (map (isoKey rt) (records h)))))).
Proof using well_dated.
  intros Hne. unfold Download.downloadCSV.
  rewrite keys_nonempty by assumption.
  rewrite sortedDates_pure. cbn [cbind].
  rewrite csvRows_pure by apply incl_refl. reflexivity.
Qed.

Lemma downloadJSON_pure :
  h <> [] ->
  Download.downloadJSON rt h
  = Return (Some (map (entryOf rt h (Object_keys h))
                      (Array_sort (Download.byDateDescending rt)
                                  (Set_of_list (map (isoKey rt) (records h)))))).
Proof using well_dated.
  intros Hne. unfold Download.downloadJSON.
  rewrite keys_nonempty by assumption.
  rewrite sortedDates_pure. cbn [cbind].
  rewrite (cmap_pure _ (entryOf rt h (Object_keys h))).
  - reflexivity.
  - intros date _. apply jsonEntry_pure, incl_refl.
Qed.

End PureExport.

(** A row is its date followed by the cells of the countries. *)
Lemma fold_append (A : Type) (f : A -> string) (l : list A) (s : string) :
  fold_left (fun acc x => acc +:+ f x) l s
  = s +:+ fold_left (fun acc x => acc +:+ f x) l EmptyString.
Proof.
  revert s. induction l as [| x l IH]; intros s; cbn [fold_left].
  - rewrite append_nil_r. reflexivity.
  - rewrite IH, (IH (EmptyString +:+ f x)), append_nil_l, append_assoc. reflexivity.
Qed.

Lemma fold_append_app (A : Type) (f : A -> string) (l1 l2 : list A) :
  fold_left (fun acc x => acc +:+ f x) (l1 ++ l2) EmptyString
  = fold_left (fun acc x => acc +:+ f x) l1 EmptyString
    +:+ fold_left (fun acc x => acc +:+ f x) l2 EmptyString.
Proof. rewrite fold_left_app. apply fold_append. Qed.

Lemma rowText_split (rt : Runtime) (h : HistoryMap) (before after : list string)
      (code date : string) :
  rowText rt h (before ++ code :: after) date
  = rowText rt h before date +:+ cellText rt h date code
    +:+ fold_left (fun acc c => acc +:+ cellText rt h date c) after EmptyString.
Proof.
  unfold rowText. rewrite fold_left_app. cbn [fold_left].
  rewrite fold_append, append_assoc. reflexivity.
Qed.

(* ===================================================================== *)
(** * Part XVIII.  The order of the two axes *)
(* ===================================================================== *)

Lemma Forall_exists_Forall2 {A B} (R : A -> B -> Prop) (l : list A) :
  List.Forall (fun x => exists y, R x y) l -> exists l', List.Forall2 R l l'.
Proof.
  induction 1 as [| x l [y Hy] _ [l' IH]].
  - exists []. constructor.
  - exists (y :: l'). constructor; assumption.
Qed.

Lemma Forall2_In_l {A B} (R : A -> B -> Prop) (l : list A) (l' : list B) (y : B) :
  List.Forall2 R l l' -> In y l' -> exists x, In x l /\ R x y.
Proof.
  induction 1 as [| x y' l l' Hxy _ IH]; [intros [] |].
  intros [<- | H].
  - exists x. split; [left; reflexivity | assumption].
  - destruct (IH H) as (x' & ? & ?). exists x'. split; [right |]; assumption.
Qed.

(** The days of a list sorted by time are sorted the same way when time
    follows the days. *)
Lemma sorted_days {A} (tau : A -> Z) (R : A -> Z -> Prop) (Rd : Z -> Z -> Prop)
      (l : list A) (days : list Z) :
  StronglySorted (fun a b => tau a < tau b) l ->
  List.Forall2 R l days ->
  (forall a b da db, In a l -> In b l -> R a da -> R b db -> tau a < tau b -> Rd da db) ->
  StronglySorted Rd days.
Proof.
  intros Hs HF. revert Hs. induction HF as [| a da l days Ha HF IH]; intros Hs H.
  - constructor.
  - apply StronglySorted_inv in Hs as [Hs Hall]. constructor.
    + apply IH; [assumption |]. intros x y dx dy Hx Hy. apply H; right; assumption.
    + apply List.Forall_forall. intros db Hdb.
      destruct (Forall2_In_l _ _ _ _ HF Hdb) as (b & Hb & Rb).
      rewrite List.Forall_forall in Hall.
      eapply H; [left; reflexivity | right; exact Hb | exact Ha | exact Rb | ].
      apply Hall, Hb.
Qed.

Section Axes.
Variable rt : Runtime.

Lemma timeOf_range (item : RankingHistoryItem) (t : Z) :
  timeOf rt item = Some t -> Z.abs t <= maxTime.
Proof. apply Date_of_string_range. Qed.

Lemma Day_midnight (d : Z) : Day (d * msPerDay) = d.
Proof. unfold Day, msPerDay. apply Z.div_mul. discriminate. Qed.

(** *** The export axis *)

(** A date of the export axis names the UTC day of a record, and [Date]
    reads it back as the midnight of that day. *)
Lemma export_key_day (h : HistoryMap) (date : string) :
  (forall item, In item (records h) -> timeOf rt item <> None) ->
  In date (Set_of_list (map (isoKey rt) (records h))) ->
  exists d, export_day rt h date d
            /\ Date_of_string rt date = Some (d * msPerDay).
Proof.
  intros Hv Hin. apply Set_of_list_In, in_map_iff in Hin as (item & <- & Hi).
  unfold isoKey. destruct (timeOf rt item) as [t |] eqn:E; [| destruct (Hv _ Hi E)].
  pose proof (timeOf_range _ _ E) as Ht.
  exists (Day t). split.
  - split.
    + apply isoDateString_same_day. symmetry. apply Day_midnight.
    + exists item, t. auto.
  - apply Date_of_isoDateString, Ht.
Qed.

Lemma export_axis_sorted (h : HistoryMap) :
  (forall item, In item (records h) -> timeOf rt item <> None) ->
  exists days,
    List.Forall2 (export_day rt h)
      (Array_sort (Download.byDateDescending rt)
                  (Set_of_list (map (isoKey rt) (records h)))) days
    /\ StronglySorted Z.gt days.
Proof.
  intros Hv.
  set (keys := Set_of_list (map (isoKey rt) (records h))).
  set (axis := Array_sort (Download.byDateDescending rt) keys).
  assert (Hkey : forall k, In k axis ->
                      exists d, export_day rt h k d
                                /\ Date_of_string rt k = Some (d * msPerDay)).
  { intros k Hk. apply Array_sort_In in Hk. apply export_key_day; assumption. }
  assert (Hsorted : StronglySorted
                      (fun a b => - timeOfKey rt a <= - timeOfKey rt b) axis).
  { apply (Array_sort_sorted _ (fun k => - timeOfKey rt k)
             (fun k => In k keys)).
    - intros a b Ha Hb.
      destruct (export_key_day h a Hv Ha) as (da & _ & Ea).
      destruct (export_key_day h b Hv Hb) as (db & _ & Eb).
      unfold Download.byDateDescending, getTime, timeOfKey. rewrite Ea, Eb.
      cbn [num_sub]. f_equal. lia.
    - apply List.Forall_forall. auto. }
  assert (Hstrict : StronglySorted
                      (fun a b => - timeOfKey rt a < - timeOfKey rt b) axis).
  { apply StronglySorted_strict; [exact Hsorted | |].
    - eapply Permutation_NoDup; [apply Array_sort_perm | apply Set_of_list_NoDup].
    - intros a b Ha Hb E.
      destruct (Hkey a Ha) as (da & [-> _] & Ea).
      destruct (Hkey b Hb) as (db & [-> _] & Eb).
      unfold timeOfKey in E. rewrite Ea, Eb in E.
      assert (da = db) by (unfold msPerDay in E; lia). subst. reflexivity. }
  destruct (Forall_exists_Forall2 (export_day rt h) axis) as [days HF].
  { apply List.Forall_forall. intros k Hk. destruct (Hkey k Hk) as (d & ? & _). eauto. }
  exists days. split; [exact HF |].
  apply (sorted_days _ _ _ _ _ Hstrict HF).
  intros a b da db Ha Hb [-> (ia & ta & _ & Tia & <-)] [-> (ib & tb & _ & Tib & <-)].
  unfold timeOfKey.
  rewrite !Date_of_isoDateString
    by (apply midnight_in_range; eapply timeOf_range; eassumption).
  rewrite !Day_midnight. unfold msPerDay. lia.
Qed.

End Axes.

Section ChartAxis.
Variable rt : Runtime.

(** *** The chart axis *)

Lemma toLocaleDateString_same_day (t1 t2 : Z) :
  Day (LocalTime rt t1) = Day (LocalTime rt t2) ->
  toLocaleDateString rt (Some t1) = toLocaleDateString rt (Some t2).
Proof.
  intros E. unfold toLocaleDateString, DateFromTime, MonthFromTime, DayWithinYear,
    InLeapYear, YearFromTime. rewrite E. reflexivity.
Qed.

Lemma dateLabel_valid (item : RankingHistoryItem) (t : Z) :
  timeOf rt item = Some t -> Dashboard.dateLabel rt item = toLocaleDateString rt (Some t).
Proof. unfold timeOf, getTime, Dashboard.dateLabel. intros ->. reflexivity. Qed.

Lemma chart_axis_sorted (f h : HistoryMap) :
  incl (records f) (records h) ->
  (forall item, In item (records h) -> timeOf rt item <> None) ->
  labels_read_back rt h ->
  exists days,
    List.Forall2 (chart_day rt f) (Dashboard.chartLabels rt f) days
    /\ StronglySorted Z.lt days.
Proof.
  intros Hsub Hv (g & Hmono & Hread).
  assert (Hinj : forall d1 d2, g d1 = g d2 -> d1 = d2).
  { intros d1 d2 E. destruct (Z.lt_trichotomy d1 d2) as [H | [H | H]]; [| exact H |];
      apply Hmono in H; lia. }
  assert (Hday : forall label d,
             chart_day rt f label d -> Date_of_string rt label = Some (g d)).
  { intros label d (item & t & Hi & Ht & <- & ->). apply Hread; auto. }
  assert (Hkey : forall label, In label (Dashboard.chartLabels rt f) ->
                          exists d, chart_day rt f label d).
  { intros label Hl. apply chartLabels_In in Hl as (item & Hi & <-).
    destruct (timeOf rt item) as [t |] eqn:E; [| destruct (Hv _ (Hsub _ Hi) E)].
    exists (Day (LocalTime rt t)), item, t. auto. }
  assert (Hsorted : StronglySorted (fun a b => timeOfKey rt a <= timeOfKey rt b)
                                   (Dashboard.chartLabels rt f)).
  { apply (Array_sort_sorted _ (timeOfKey rt)
             (fun k => In k (Dashboard.chartLabels rt f))).
    - intros a b Ha Hb.
      destruct (Hkey a Ha) as [da Da]. destruct (Hkey b Hb) as [db Db].
      unfold Dashboard.byDateAscending, getTime, timeOfKey.
      rewrite (Hday _ _ Da), (Hday _ _ Db). reflexivity.
    - apply List.Forall_forall. intros k Hk. apply Array_sort_In. exact Hk. }
  assert (Hstrict : StronglySorted (fun a b => timeOfKey rt a < timeOfKey rt b)
                                   (Dashboard.chartLabels rt f)).
  { apply StronglySorted_strict; [exact Hsorted | apply chartLabels_NoDup |].
    intros a b Ha Hb E.
    destruct (Hkey a Ha) as [da Da]. destruct (Hkey b Hb) as [db Db].
    unfold timeOfKey in E. rewrite (Hday _ _ Da), (Hday _ _ Db) in E.
    apply Hinj in E. subst db.
    destruct Da as (ia & ta & _ & Ta & Ea & ->).
    destruct Db as (ib & tb & _ & Tb & Eb & ->).
    rewrite (dateLabel_valid _ _ Ta), (dateLabel_valid _ _ Tb).
    apply toLocaleDateString_same_day. congruence. }
  destruct (Forall_exists_Forall2 (chart_day rt f) (Dashboard.chartLabels rt f))
    as [days HF].
  { apply List.Forall_forall. exact Hkey. }
  exists days. split; [exact HF |].
  apply (sorted_days _ _ _ _ _ Hstrict HF).
  intros a b da db _ _ Da Db. unfold timeOfKey.
  rewrite (Hday _ _ Da), (Hday _ _ Db). intros Hlt.
  destruct (Z.lt_ge_cases da db) as [H | H]; [exact H |].
  destruct (Z.eq_dec db da) as [-> | Hne]; [lia |].
  assert (Hlt' : db < da) by lia. apply Hmono in Hlt'. lia.
Qed.

(** C4 (as amended).  Take a history map with at least one record, in
    which the date of every record parses.  Then both exports return, and
    the rows of the CSV text and the entries of the JSON document stand
    for a strictly decreasing sequence of UTC days, each the day of a
    record.  If moreover [Date] reads the labels of the locale back as
    instants that grow with the local day, the labels of the chart stand
    for a strictly increasing sequence of local days, each the day of a
    record that passed the filter. *)
Theorem axes_ordered (st : Dashboard.State) (w : World) :
  records (Dashboard.historyData st) <> [] ->
  (forall item, In item (records (Dashboard.historyData st)) -> timeOf rt item <> None) ->
  (exists dates days,
      Download.downloadCSV rt (Dashboard.historyData st)
      = Return (Some (csvText rt (Dashboard.historyData st)
                        (Object_keys (Dashboard.historyData st)) dates))
      /\ Download.downloadJSON rt (Dashboard.historyData st)
         = Return (Some (map (entryOf rt (Dashboard.historyData st)
                                (Object_keys (Dashboard.historyData st))) dates))
      /\ List.Forall2 (export_day rt (Dashboard.historyData st)) dates days
      /\ StronglySorted Z.gt days)
  /\ (labels_read_back rt (Dashboard.historyData st) ->
      exists days,
        List.Forall2 (chart_day rt (filteredHistory rt st w))
                     (Dashboard.labels (fst (Dashboard.buildChart rt st w))) days
        /\ StronglySorted Z.lt days).
Proof.
  intros Hne Hv. split.
  - destruct (export_axis_sorted rt _ Hv) as (days & HF & Hs).
    eexists _, days.
    assert (Hh : Dashboard.historyData st <> []).
    { intros E. rewrite E in Hne. apply Hne. reflexivity. }
    split; [apply downloadCSV_pure; assumption |].
    split; [apply downloadJSON_pure; assumption |].
    split; assumption.
  - intros Hread. rewrite buildChart_labels.
    apply (chart_axis_sorted _ (Dashboard.historyData st)); [| assumption..].
    intros item Hi. apply filteredHistory_records in Hi as [Hi _]. exact Hi.
Qed.

End ChartAxis.

(** With a malformed record the exports throw: there are no rows. *)
Lemma malformed_no_rows :
  ~ axes_chronological Hosts.enUS_UTC Malformed.state
      (Hosts.still_world Examples.new_year_2025 0).
Proof.
  intros [_ (dates & days & H & _)].
  assert (E : Download.downloadCSV Hosts.enUS_UTC (Dashboard.historyData Malformed.state)
              = Throw (RangeError "Invalid time value"))
    by (vm_compute; reflexivity).
  rewrite E in H. discriminate H.
Qed.

(** On a host with the day-first dates of en-GB, whose [Date] reads a
    slash-separated date month first, 1 February comes before 3 January
    on the chart. *)
Lemma day_first_labels_out_of_order :
  Dashboard.labels (fst (Dashboard.buildChart Hosts.enGB_UTC TwoEntities.state_gb
                           (Hosts.still_world Examples.new_year_2025 0)))
  = ["01/02/2024"; "03/01/2024"].
Proof. vm_compute. reflexivity. Qed.

(** A host whose locale writes ISO dates, in UTC, reads its labels back
    for every history map. *)
Lemma iso_UTC_reads_back (h : HistoryMap) : labels_read_back Hosts.iso_UTC h.
Proof.
  exists (fun d => d * msPerDay). split; [unfold msPerDay; lia |].
  intros item t _ Ht.
  rewrite (dateLabel_valid Hosts.iso_UTC item t Ht).
  assert (El : LocalTime Hosts.iso_UTC t = t) by apply Z.add_0_r.
  rewrite El.
  assert (E : toLocaleDateString Hosts.iso_UTC (Some t) = isoDateString t).
  { unfold toLocaleDateString. rewrite El. reflexivity. }
  rewrite E. apply Date_of_isoDateString. eapply timeOf_range, Ht.
Qed.

Lemma en_US_reads_back : labels_read_back Hosts.enUS_UTC TwoEntities.history.
Proof.
  exists (fun d => d * msPerDay). split; [unfold msPerDay; lia |].
  intros item t Hin Ht.
  vm_compute in Hin.
  repeat (destruct Hin as [<- | Hin];
          [vm_compute in Ht; injection Ht as <-; vm_compute; reflexivity |]).
  destruct Hin.
Qed.

Lemma axes_ordered_witness :
  (exists dates days,
      Download.downloadCSV Hosts.enUS_UTC TwoEntities.history
      = Return (Some (csvText Hosts.enUS_UTC TwoEntities.history
                        (Object_keys TwoEntities.history) dates))
      /\ Download.downloadJSON Hosts.enUS_UTC TwoEntities.history
         = Return (Some (map (entryOf Hosts.enUS_UTC TwoEntities.history
                                (Object_keys TwoEntities.history)) dates))
      /\ List.Forall2 (export_day Hosts.enUS_UTC TwoEntities.history) dates days
      /\ StronglySorted Z.gt days)
  /\ exists days,
      List.Forall2
        (chart_day Hosts.enUS_UTC
           (filteredHistory Hosts.enUS_UTC TwoEntities.state
              (Hosts.still_world Examples.new_year_2025 0)))
        (Dashboard.labels
           (fst (Dashboard.buildChart Hosts.enUS_UTC TwoEntities.state
                   (Hosts.still_world Examples.new_year_2025 0)))) days
      /\ StronglySorted Z.lt days.
Proof.
  assert (Hv : forall item, In item (records TwoEntities.history) ->
                       timeOf Hosts.enUS_UTC item <> None).
  { intros item Hin. vm_compute in Hin.
    repeat (destruct Hin as [<- | Hin]; [vm_compute; discriminate |]).
    destruct Hin. }
  pose proof (axes_ordered Hosts.enUS_UTC TwoEntities.state
                (Hosts.still_world Examples.new_year_2025 0)
                ltac:(vm_compute; discriminate) Hv) as [H1 H2].
  split; [exact H1 | exact (H2 en_US_reads_back)].
Defined.

(** On the en-GB host the labels of the chart do not stand for increasing
    days: the order of the chart depends on the locale. *)
Lemma day_first_not_chronological :
  ~ exists days,
      List.Forall2
        (chart_day Hosts.enGB_UTC
           (filteredHistory Hosts.enGB_UTC TwoEntities.state_gb
              (Hosts.still_world Examples.new_year_2025 0)))
        (Dashboard.labels
           (fst (Dashboard.buildChart Hosts.enGB_UTC TwoEntities.state_gb
                   (Hosts.still_world Examples.new_year_2025 0)))) days
      /\ StronglySorted Z.lt days.
Proof.
  rewrite day_first_labels_out_of_order.
  assert (Ef : filteredHistory Hosts.enGB_UTC TwoEntities.state_gb
                 (Hosts.still_world Examples.new_year_2025 0)
               = TwoEntities.february_march) by (vm_compute; reflexivity).
  rewrite Ef. intros (days & HF & Hs).
  inversion HF as [| l1 d1 ls1 ds1 H1 HF1]; subst.
  inversion HF1 as [| l2 d2 ls2 ds2 H2 HF2]; subst.
  inversion HF2; subst.
  assert (E1 : d1 = 19754).
  { destruct H1 as (item & t & Hin & Ht & <- & Hl). vm_compute in Hin.
    destruct Hin as [<- | [<- | []]].
    - vm_compute in Ht. injection Ht as <-. vm_compute. reflexivity.
    - vm_compute in Hl. discriminate Hl. }
  assert (E2 : d2 = 19725).
  { destruct H2 as (item & t & Hin & Ht & <- & Hl). vm_compute in Hin.
    destruct Hin as [<- | [<- | []]].
    - vm_compute in Hl. discriminate Hl.
    - vm_compute in Ht. injection Ht as <-. vm_compute. reflexivity. }
  subst. apply StronglySorted_inv in Hs as [_ Hall].
  apply Forall_inv in Hall. lia.
Qed.

(* ===================================================================== *)
(** * Part XIX.  The two date keys *)
(* ===================================================================== *)

Section DateKeys.
Variable rt : Runtime.

(** C2 (as amended).  The export and the chart group by two different
    functions.  The export key is the ISO date of the UTC day: two
    timestamps get the same export key exactly when they fall on the same
    UTC day.  The chart key is the locale's text for the local day: two
    timestamps on the same local day get the same chart label. *)
Theorem date_keys (i1 i2 : RankingHistoryItem) (t1 t2 : Z) :
  timeOf rt i1 = Some t1 -> timeOf rt i2 = Some t2 ->
  (Download.dateKey rt i1 = Download.dateKey rt i2 <-> Day t1 = Day t2)
  /\ (Day (LocalTime rt t1) = Day (LocalTime rt t2) ->
      Dashboard.dateLabel rt i1 = Dashboard.dateLabel rt i2).
Proof.
  intros H1 H2. split.
  - rewrite (dateKey_valid rt i1 t1 H1), (dateKey_valid rt i2 t2 H2). split.
    + intros [= E]. apply isoDateString_inj; [| | exact E];
        eapply timeOf_range; eassumption.
    + intros E. f_equal. apply isoDateString_same_day, E.
  - intros E. rewrite (dateLabel_valid rt _ _ H1), (dateLabel_valid rt _ _ H2).
    apply toLocaleDateString_same_day, E.
Qed.

End DateKeys.

(** On 2024-01-01 the export key is ["2024-01-01"] and the chart key of an
    en-US host is ["1/1/2024"]. *)
Lemma keys_differ :
  ~ keys_agree Hosts.enUS_UTC (Hosts.item "USA" "USA" 5 (1750 # 1) "2024-01-01").
Proof. unfold keys_agree. vm_compute. discriminate. Qed.

(** Five hours west of UTC, 01:00 and 23:00 of the same UTC day share the
    export key and have different chart labels. *)
Lemma same_key_different_label :
  let early := Hosts.item "USA" "USA" 5 (1750 # 1) "2024-01-01T01:00:00Z" in
  let late := Hosts.item "USA" "USA" 3 (1800 # 1) "2024-01-01T23:00:00Z" in
  Download.dateKey Hosts.enUS_west early = Download.dateKey Hosts.enUS_west late
  /\ Dashboard.dateLabel Hosts.enUS_west early = "12/31/2023"
  /\ Dashboard.dateLabel Hosts.enUS_west late = "1/1/2024".
Proof. vm_compute. repeat split. Qed.

Lemma date_keys_witness :
  Download.dateKey Hosts.enUS_west SameDay.noon
  = Download.dateKey Hosts.enUS_west SameDay.midnight.
Proof.
  apply (proj1 (date_keys Hosts.enUS_west SameDay.noon SameDay.midnight
                  1704110400000 1704067200000
                  ltac:(vm_compute; reflexivity) ltac:(vm_compute; reflexivity))).
  vm_compute. reflexivity.
Defined.

(* ===================================================================== *)
(** * Part XX.  Gaps *)
(* ===================================================================== *)

Lemma find_none_iff {A} (g : A -> bool) (l : list A) :
  List.find g l = None <-> forall x, In x l -> g x = false.
Proof.
  split; [apply find_none |]. induction l as [| x l IH]; intros H; cbn [List.find].
  - reflexivity.
  - rewrite (H x (or_introl eq_refl)). apply IH. intros y Hy. apply H. right. exact Hy.
Qed.

(** A [Map] built from entries has no value for a key that no entry has. *)
Lemma fold_insert_lookup_None {V} (entries : list (string * V)) (k : string) :
  forall m : gmap string V,
    fold_left (fun m kv => <[kv.1 := kv.2]> m) entries m !! k = None
    <-> m !! k = None /\ forall kv, In kv entries -> kv.1 <> k.
Proof.
  induction entries as [| [k0 v0] entries IH]; intros m; cbn [fold_left].
  - split; [intros H; split; [exact H | intros kv []] | intros [H _]; exact H].
  - rewrite IH. cbn [fst snd]. split.
    + intros [Hm Hall]. destruct (decide (k0 = k)) as [-> | Hne].
      * rewrite lookup_insert_eq in Hm. discriminate.
      * rewrite lookup_insert_ne in Hm by exact Hne. split; [exact Hm |].
        intros kv [<- | Hin]; [exact Hne | apply Hall, Hin].
    + intros [Hm Hall]. split.
      * rewrite lookup_insert_ne; [exact Hm |]. apply (Hall (k0, v0)). left. reflexivity.
      * intros kv Hin. apply Hall. right. exact Hin.
Qed.

Lemma mapIndexed_nth {A B} (f : A -> nat -> IO B) (l : list A) :
  forall (index : nat) (w : World) (i : nat) (y : B),
    nth_error (fst (Dashboard.mapIndexed f l index w)) i = Some y ->
    exists x w', nth_error l i = Some x /\ y = fst (f x (index + i)%nat w').
Proof.
  induction l as [| x l IH]; intros index w i y; cbn [Dashboard.mapIndexed].
  - destruct i; discriminate.
  - unfold bind, ret. destruct (f x index w) as [y0 w1] eqn:E.
    specialize (IH (S index) w1).
    destruct (Dashboard.mapIndexed f l (S index) w1) as [ys w2]. cbn [fst] in *.
    destruct i as [| i]; cbn [nth_error].
    + intros [= <-]. exists x, w. rewrite Nat.add_0_r, E. auto.
    + intros H. apply IH in H as (x' & w' & Hx & ->).
      exists x', w'. replace (index + S i)%nat with (S index + i)%nat by lia. auto.
Qed.

Section Gaps.
Variable rt : Runtime.

Lemma rankAt_gap (history : list RankingHistoryItem) (D : string) :
  (forall item, In item history -> Dashboard.dateLabel rt item <> D) ->
  Dashboard.rankAt rt history D = None.
Proof.
  intros H. unfold Dashboard.rankAt, Dashboard.rankMap, Map_of_entries.
  replace (fold_left _ _ _ !! D) with (@None Z); [reflexivity |].
  symmetry. apply fold_insert_lookup_None. split; [apply lookup_empty |].
  intros kv Hin. apply in_map_iff in Hin as (item & <- & Hi). cbn [fst].
  apply H, Hi.
Qed.

Lemma makeDataset_data (filtered : HistoryMap) (chart_labels : list string)
      (code : string) (index : nat) (w : World) :
  Dashboard.data (fst (Dashboard.makeDataset rt filtered chart_labels code index w))
  = map (Dashboard.rankAt rt (Dashboard.historyOf filtered code)) chart_labels.
Proof.
  unfold Dashboard.makeDataset, bind, ret.
  destruct (Dashboard.seriesColor index w) as [color w']. reflexivity.
Qed.

(** The series of the chart: one per key of the history map, in order,
    each with the ranks of its filtered history along the axis. *)
Lemma buildChart_dataset (st : Dashboard.State) (w : World) (i : nat)
      (ds : Dashboard.Dataset) :
  nth_error (Dashboard.datasets (fst (Dashboard.buildChart rt st w))) i = Some ds ->
  exists code,
    nth_error (Object_keys (Dashboard.historyData st)) i = Some code
    /\ Dashboard.data ds
       = map (Dashboard.rankAt rt (Dashboard.historyOf (filteredHistory rt st w) code))
             (Dashboard.labels (fst (Dashboard.buildChart rt st w))).
Proof.
  rewrite buildChart_labels.
  unfold Dashboard.buildChart, filteredHistory, bind, ret.
  destruct (Date_now w) as [now w1].
  destruct (Dashboard.filterHistories rt st now _ [] w1) as [filtered w2].
  cbn [fst].
  destruct (Dashboard.mapIndexed _ _ 0%nat w2) as [sets w3] eqn:E.
  cbn [fst Dashboard.datasets]. intros H.
  assert (E' : sets = fst (Dashboard.mapIndexed
                             (Dashboard.makeDataset rt filtered
                                (Dashboard.chartLabels rt filtered))
                             (Object_keys (Dashboard.historyData st)) 0%nat w2))
    by (rewrite E; reflexivity).
  rewrite E' in H. apply mapIndexed_nth in H as (code & w' & Hc & ->).
  exists code. split; [exact Hc | apply makeDataset_data].
Qed.

Lemma findByKey_gap (history : list RankingHistoryItem) (D : string) :
  (forall item, In item history -> isoKey rt item <> D) ->
  findByKey rt history D = None.
Proof.
  intros H. apply find_none_iff. intros x Hx.
  apply String.eqb_neq, H, Hx.
Qed.

Lemma entryField_get_other (h : HistoryMap) (D : string)
      (entry : Download.TimeSeriesEntry) (code A : string) :
  code <> A ->
  Object_get (entryField rt h D entry code) A = Object_get entry A.
Proof.
  intros Hne. unfold entryField. destruct (findByKey _ _ _); [| reflexivity].
  rewrite Object_get_set. destruct (String.eqb_spec code A); [contradiction | reflexivity].
Qed.

Lemma entryOf_gap (h : HistoryMap) (countries : list string) (D A : string) :
  findByKey rt (Dashboard.historyOf h A) D = None ->
  Object_get (entryOf rt h countries D) A
  = if String.eqb A "date" then Some (Download.DateField D) else None.
Proof.
  intros Hgap. unfold entryOf.
  assert (G : forall entry,
             Object_get (fold_left (entryField rt h D) countries entry) A
             = Object_get entry A).
  { induction countries as [| code countries IH]; intros entry; cbn [fold_left].
    - reflexivity.
    - rewrite IH. destruct (String.eqb_spec code A) as [-> | Hne].
      + unfold entryField. rewrite Hgap. reflexivity.
      + apply entryField_get_other, Hne. }
  rewrite G. cbn [Object_get]. rewrite String.eqb_sym. reflexivity.
Qed.

(** C5.  Let entity [A] have no record on the date [D] of an axis.
    On the chart, the value of the series of [A] at [D] is [null].
    In the CSV text, the row of [D] is the row up to [A], then [",,"]
    (two empty fields), then the cells of the entities after [A].
    In the JSON document, the entry of [D] has no property [A]: the only
    property of an entry that is not the data of an entity with a record
    is its own ["date"]. *)
Theorem gap_markers (st : Dashboard.State) (w : World) (A : string) :
  let h := Dashboard.historyData st in
  let chart := fst (Dashboard.buildChart rt st w) in
  (forall i ds j D,
      nth_error (Object_keys h) i = Some A ->
      nth_error (Dashboard.datasets chart) i = Some ds ->
      nth_error (Dashboard.labels chart) j = Some D ->
      (forall item, In item (Dashboard.historyOf (filteredHistory rt st w) A) ->
               Dashboard.dateLabel rt item <> D) ->
      nth_error (Dashboard.data ds) j = Some None)
  /\
  (forall dates D before after,
      Download.sortedDates rt h = Return dates ->
      In D dates ->
      Object_keys h = before ++ A :: after ->
      (forall item, In item (Dashboard.historyOf h A) -> isoKey rt item <> D) ->
      Download.csvRow rt h (Object_keys h) D
      = Return (rowText rt h before D +:+ ",," +:+ cellsText rt h D after)
      /\ exists entry,
          Download.jsonEntry rt h (Object_keys h) D = Return entry
          /\ Object_get entry A
             = if String.eqb A "date" then Some (Download.DateField D) else None).
Proof.
  cbv zeta. split.
  - intros i ds j D Hi Hds Hj Hgap.
    apply buildChart_dataset in Hds as (code & Hc & ->).
    rewrite Hi in Hc. injection Hc as <-.
    rewrite nth_error_map, Hj. cbn [option_map].
    rewrite rankAt_gap by exact Hgap. reflexivity.
  - intros dates D before after Hs HD Hk Hgap.
    assert (Hv : forall item, In item (records (Dashboard.historyData st)) ->
                         timeOf rt item <> None).
    { unfold Download.sortedDates in Hs.
      destruct (Download.allDates rt (Dashboard.historyData st)) as [ds | e] eqn:E;
        [| discriminate].
      apply export_allDates_returns in E as [Hv _]. exact Hv. }
    pose proof (findByKey_gap _ _ Hgap) as Hnone.
    split.
    + rewrite csvRow_pure by (exact Hv || apply incl_refl).
      f_equal. rewrite Hk, rowText_split.
      assert (Hcell : cellText rt (Dashboard.historyData st) D A = ",,")
        by (unfold cellText; rewrite Hnone; reflexivity).
      rewrite Hcell. reflexivity.
    + exists (entryOf rt (Dashboard.historyData st)
                      (Object_keys (Dashboard.historyData st)) D).
      split; [apply jsonEntry_pure; [exact Hv | apply incl_refl] |].
      apply entryOf_gap, Hnone.
Qed.

End Gaps.

(** USA has a record on 2024-01-01 and BRA has none: the row ends in two
    empty fields, the JSON entry has no property [BRA], and the series of
    BRA starts with [null]. *)
Lemma gap_markers_witness :
  Download.csvRow Hosts.enUS_UTC TwoEntities.history ["USA"; "BRA"] "2024-01-01"
  = Return "2024-01-01,5,1750.5,,".
Proof.
  pose proof (gap_markers Hosts.enUS_UTC TwoEntities.state
                (Hosts.still_world Examples.new_year_2025 0) "BRA") as [_ H].
  destruct (H ["2024-06-01"; "2024-01-01"] "2024-01-01" ["USA"] []
              ltac:(vm_compute; reflexivity)
              ltac:(right; left; reflexivity)
              eq_refl
              ltac:(intros item Hin; vm_compute in Hin;
                    destruct Hin as [<- | []]; vm_compute; discriminate))
    as [Hrow _].
  etransitivity; [exact Hrow |]. vm_compute. reflexivity.
Defined.

(* ===================================================================== *)
(** * Part XXI.  Several records on one day *)
(* ===================================================================== *)

Lemma StronglySorted_snoc_inv {A} (R : A -> A -> Prop) (l : list A) (x : A) :
  StronglySorted R (l ++ [x]) ->
  StronglySorted R l /\ forall y, In y l -> R y x.
Proof.
  induction l as [| y l IH]; cbn [app]; intros H.
  - split; [constructor | intros y []].
  - apply StronglySorted_inv in H as [Hs Hall].
    destruct (IH Hs) as [Hl Hx]. split.
    + constructor; [exact Hl |].
      rewrite List.Forall_forall in *. intros z Hz. apply Hall, in_or_app. auto.
    + intros z [<- | Hz]; [| apply Hx, Hz].
      rewrite List.Forall_forall in Hall. apply Hall, in_or_app. right. left. reflexivity.
Qed.

Lemma StronglySorted_filter {A} (R : A -> A -> Prop) (g : A -> bool) (l : list A) :
  StronglySorted R l -> StronglySorted R (List.filter g l).
Proof.
  induction 1 as [| x l Hs IH Hx]; cbn [List.filter]; [constructor |].
  destruct (g x); [| exact IH]. constructor; [exact IH |].
  rewrite List.Forall_forall in *. intros y Hy. apply filter_In in Hy as [Hy _]. auto.
Qed.

(** The first match of [find] in a sorted list is related to every other
    match. *)
Lemma find_first_sorted {A} (R : A -> A -> Prop) (g : A -> bool) (l : list A) (x : A) :
  StronglySorted R l -> List.find g l = Some x ->
  In x l /\ g x = true /\ forall y, In y l -> g y = true -> y = x \/ R x y.
Proof.
  induction 1 as [| z l Hs IH Hz]; cbn [List.find]; [discriminate |].
  destruct (g z) eqn:E.
  - intros [= <-]. split; [left; reflexivity |]. split; [exact E |].
    intros y [<- | Hy] _; [left; reflexivity | right].
    rewrite List.Forall_forall in Hz. apply Hz, Hy.
  - intros H. destruct (IH H) as (Hin & Hg & Hall).
    split; [right; exact Hin |]. split; [exact Hg |].
    intros y [<- | Hy] Gy; [congruence | apply Hall; assumption].
Qed.

Lemma Map_of_entries_snoc {V} (entries : list (string * V)) (k : string) (v : V) :
  Map_of_entries (entries ++ [(k, v)]) = <[k := v]> (Map_of_entries entries).
Proof. unfold Map_of_entries. rewrite fold_left_app. reflexivity. Qed.

Lemma StronglySorted_weaken {A} (R R' : A -> A -> Prop) (l : list A) :
  (forall a b, R a b -> R' a b) -> StronglySorted R l -> StronglySorted R' l.
Proof.
  intros H. induction 1 as [| x l Hs IH Hx]; constructor; [exact IH |].
  eapply List.Forall_impl; [| exact Hx]. intros y. apply H.
Qed.

Section SameDay.
Variable rt : Runtime.

(** [fetchRankings] leaves the records of an entity latest first, and the
    filter keeps them in that order. *)
Lemma fetched_latest_first (rankings : list RankingHistoryItem) :
  (forall item, In item rankings -> timeOf rt item <> None) ->
  latest_first rt (Array_sort (Dashboard.byPubDateDescending rt) rankings).
Proof.
  intros Hv. unfold latest_first.
  apply (StronglySorted_weaken (fun a b => - time0 rt a <= - time0 rt b));
    [intros a b; lia |].
  apply (Array_sort_sorted _ (fun item => - time0 rt item)
           (fun item => timeOf rt item <> None)).
  - intros a b Ha Hb. unfold Dashboard.byPubDateDescending, time0.
    fold (timeOf rt a) (timeOf rt b).
    destruct (timeOf rt a) as [ta |]; [| contradiction].
    destruct (timeOf rt b) as [tb |]; [| contradiction].
    cbn [num_sub]. f_equal. lia.
  - apply List.Forall_forall. exact Hv.
Qed.

Lemma filtered_latest_first (g : RankingHistoryItem -> bool)
      (history : list RankingHistoryItem) :
  latest_first rt history -> latest_first rt (List.filter g history).
Proof. apply StronglySorted_filter. Qed.

(** The exports show the first record with the key of the date: the
    latest one. *)
Lemma findByKey_latest (history : list RankingHistoryItem) (D : string)
      (item : RankingHistoryItem) :
  latest_first rt history ->
  findByKey rt history D = Some item ->
  latest_with rt (isoKey rt) history D item.
Proof.
  intros Hs Hf. unfold findByKey in Hf.
  apply (find_first_sorted _ _ _ _ Hs) in Hf as (Hin & Hk & Hall).
  apply String.eqb_eq in Hk.
  split; [exact Hin |]. split; [exact Hk |].
  intros item' Hin' Hk'.
  destruct (Hall item' Hin' ltac:(apply String.eqb_eq; exact Hk')) as [-> | H]; lia.
Qed.

(** The chart shows the last record with the label of the date: the
    earliest one. *)
Lemma rankMap_earliest (history : list RankingHistoryItem) (D : string) :
  latest_first rt history ->
  (exists item, In item history /\ Dashboard.dateLabel rt item = D) ->
  exists shown,
    earliest_with rt (Dashboard.dateLabel rt) history D shown
    /\ Dashboard.rankMap rt history !! D = Some (Rank shown).
Proof.
  unfold Dashboard.rankMap.
  induction history as [| x history IH] using rev_ind; intros Hs (item & Hin & Hl).
  - destruct Hin.
  - apply StronglySorted_snoc_inv in Hs as [Hs Hx].
    rewrite map_app. cbn [map]. rewrite Map_of_entries_snoc.
    destruct (String.eqb_spec (Dashboard.dateLabel rt x) D) as [E | Hne].
    + exists x. split.
      * split; [apply in_or_app; right; left; reflexivity |]. split; [exact E |].
        intros item' Hin' _. apply in_app_or in Hin' as [H | [<- | []]]; [| lia].
        apply Hx, H.
      * rewrite E. apply lookup_insert_eq.
    + apply in_app_or in Hin as [Hin | [-> | []]]; [| contradiction].
      destruct (IH Hs ltac:(eauto)) as (shown & (Hsi & Hsl & Hall) & Hget).
      exists shown. split.
      * split; [apply in_or_app; left; exact Hsi |]. split; [exact Hsl |].
        intros item' Hin' Hl'. apply in_app_or in Hin' as [H | [<- | []]];
          [apply Hall; assumption | contradiction].
      * rewrite lookup_insert_ne by exact Hne. exact Hget.
Qed.

(** C3 (as amended).  Take a history whose dates all parse and that lists
    later records first, as [fetchRankings] leaves every history and the
    time-range filter keeps it.  The CSV and JSON exports look a date up
    with [find], which returns a latest record among those with the key of
    the date.  The chart looks a label up in a [Map] in which later
    entries replace earlier ones: it shows the rank of an earliest record
    among those with the label. *)
Theorem same_day_records (history : list RankingHistoryItem) (D : string) :
  (forall item, In item history -> timeOf rt item <> None) ->
  latest_first rt history ->
  Download.findItem rt history D = Return (findByKey rt history D)
  /\ (forall item, findByKey rt history D = Some item ->
               latest_with rt (isoKey rt) history D item)
  /\ ((exists item, In item history /\ Dashboard.dateLabel rt item = D) ->
      exists shown,
        earliest_with rt (Dashboard.dateLabel rt) history D shown
        /\ Dashboard.rankMap rt history !! D = Some (Rank shown)).
Proof.
  intros Hv Hs. split; [| split].
  - unfold Download.findItem, findByKey. apply cfind_pure.
    intros x Hx. rewrite dateKey_isoKey by (apply Hv, Hx). reflexivity.
  - intros item. apply findByKey_latest, Hs.
  - apply rankMap_earliest, Hs.
Qed.

End SameDay.

(** With a record at noon (rank 3) and one at midnight (rank 5) of the
    same day, the chart shows rank 5. *)
Lemma chart_shows_earliest :
  ~ chart_shows_latest Hosts.enUS_UTC [SameDay.noon; SameDay.midnight] "1/1/2024".
Proof.
  intros H. specialize (H SameDay.noon).
  assert (L : latest_with Hosts.enUS_UTC (Dashboard.dateLabel Hosts.enUS_UTC)
                [SameDay.noon; SameDay.midnight] "1/1/2024" SameDay.noon).
  { split; [left; reflexivity |]. split; [vm_compute; reflexivity |].
    intros item' [<- | [<- | []]] _; vm_compute; discriminate. }
  apply H in L. vm_compute in L. discriminate L.
Qed.

Lemma same_day_records_witness :
  Download.findItem Hosts.enUS_UTC [SameDay.noon; SameDay.midnight] "2024-01-01"
  = Return (Some SameDay.noon)
  /\ Dashboard.rankMap Hosts.enUS_UTC [SameDay.noon; SameDay.midnight] !! "1/1/2024"
     = Some 5.
Proof.
  pose proof (same_day_records Hosts.enUS_UTC [SameDay.noon; SameDay.midnight]
                "2024-01-01"
                ltac:(intros item [<- | [<- | []]]; vm_compute; discriminate)
                ltac:(repeat constructor; vm_compute; discriminate)) as [H _].
  split; [etransitivity; [exact H |] |]; vm_compute; reflexivity.
Defined.

(* ===================================================================== *)
(** * Part XXII.  The histories through the pipeline and the fields of the cutoff *)
(* ===================================================================== *)

(** ** The order of the histories through the pipeline *)

Lemma filterM_sorted {A} (R : A -> A -> Prop) (f : A -> IO bool) (l : list A) :
  StronglySorted R l -> forall w, StronglySorted R (fst (filterM f l w)).
Proof.
  induction 1 as [| x l Hs IH Hx]; intros w; cbn [filterM].
  - constructor.
  - unfold bind, ret. destruct (f x w) as [b w1].
    specialize (IH w1). pose proof (filterM_In f l) as Hin.
    specialize (fun y => Hin y w1).
    destruct (filterM f l w1) as [r w2]. cbn [fst] in *.
    destruct b; [| exact IH]. constructor; [exact IH |].
    rewrite List.Forall_forall in *. intros y Hy. apply Hx. apply (Hin y Hy).
Qed.

Section Pipeline.
Variable rt : Runtime.
Variable fetch : string -> Dashboard.FetchResult.

Lemma newHistory_values (fetchedData : list Dashboard.Fetched)
      (hist : list RankingHistoryItem) :
  forall acc : HistoryMap,
    In hist (Object_values
               (fold_left (fun h item => Object_set h (Dashboard.code item)
                                                    (Dashboard.history item))
                          fetchedData acc)) ->
    In hist (Object_values acc)
    \/ exists item, In item fetchedData /\ Dashboard.history item = hist.
Proof.
  induction fetchedData as [| x l IH]; intros acc; cbn [fold_left]; [auto |].
  intros H. apply IH in H as [H | (item & Hi & Hh)].
  - apply Object_values_In in H as [k H]. apply Object_set_In in H as [[= _ ->] | H].
    + right. exists x. split; [left |]; reflexivity.
    + left. apply Object_values_In. eauto.
  - right. exists item. split; [right |]; assumption.
Qed.

Lemma cmap_In {A B} (f : A -> Completion B) (l : list A) (ys : list B) (y : B) :
  cmap f l = Return ys -> In y ys -> exists x, In x l /\ f x = Return y.
Proof.
  revert ys. induction l as [| x l IH]; intros ys; cbn [cmap].
  - intros [= <-] [].
  - destruct (f x) as [y0 | e] eqn:E; cbn [cbind]; [| discriminate].
    destruct (cmap f l) as [ys0 | e]; cbn [cbind]; [| discriminate].
    intros [= <-] [<- | H].
    + exists x. split; [left; reflexivity | exact E].
    + destruct (IH ys0 eq_refl H) as (x' & ? & ?). exists x'. split; [right |]; assumption.
Qed.

(** X1.  After [fetchRankings], every history of the map lists later
    records first, provided the dates the provider sends parse. *)
Lemma fetchRankings_latest_first (st : Dashboard.State) (w : World)
      (hist : list RankingHistoryItem) :
  (forall url rankings item,
      fetch url = Dashboard.Resolves (Some rankings) -> In item rankings ->
      timeOf rt item <> None) ->
  In hist (Object_values
             (Dashboard.historyData (fst (Dashboard.fetchRankings rt fetch st w)))) ->
  (length (Dashboard.selectedCountries st) =? 0)%nat = false ->
  latest_first rt hist.
Proof.
  intros Hv Hin Hsel. unfold Dashboard.fetchRankings in Hin. rewrite Hsel in Hin.
  set (st1 := Dashboard.with_fetch st true [] []) in *.
  destruct (Dashboard.fetchAll rt fetch st1) as [fetched | e] eqn:E.
  - unfold bind, ret in Hin.
    match type of Hin with
    | context [Dashboard.updateChart rt ?s w] =>
        pose proof (updateChart_keeps rt s w) as (_ & Hh & _);
        destruct (Dashboard.updateChart rt s w) as [st2 w2]
    end.
    cbn in Hh. cbn [fst Dashboard.historyData Dashboard.with_fetch] in Hin.
    rewrite Hh in Hin. unfold Dashboard.newHistory in Hin.
    apply newHistory_values in Hin as [[] | (item & Hi & <-)].
    unfold Dashboard.fetchAll in E.
    destruct (cmap _ _) as [ys |] eqn:Ec; [| discriminate]. cbn [cbind] in E.
    injection E as <-.
    apply list_elem_of_In, list_elem_of_omap in Hi as (o & Ho & Eo).
    cbn in Eo. subst o. apply list_elem_of_In in Ho.
    destruct (cmap_In _ _ _ _ Ec Ho) as (c & _ & Hc).
    apply fetchCountry_history in Hc as (_ & rankings & Hr & ->).
    apply fetched_latest_first. intros x Hx. eapply Hv; eassumption.
  - cbn in Hin. destruct Hin.
Qed.

(** X2.  The time-range filter of [updateChart] keeps that order: when
    every history of the map lists later records first, so does every
    history of the filtered map. *)
Lemma filteredHistory_latest_first (st : Dashboard.State) (w : World)
      (hist : list RankingHistoryItem) :
  (forall h, In h (Object_values (Dashboard.historyData st)) -> latest_first rt h) ->
  In hist (Object_values (filteredHistory rt st w)) ->
  latest_first rt hist.
Proof.
  intros Hs Hin. unfold filteredHistory in Hin. destruct (Date_now w) as [now w1].
  apply filterHistories_values in Hin as [[] | (c & w' & _ & ->)].
  apply filterM_sorted. unfold Dashboard.historyOf.
  destruct (Object_get (Dashboard.historyData st) c) as [h |] eqn:E; [| constructor].
  apply Hs. eapply Object_get_value, E.
Qed.

End Pipeline.

(** The history of USA after a retrieval, and the history of two records
    of one day through the filter. *)
Lemma fetchRankings_latest_first_witness :
  latest_first Hosts.enUS_UTC
    [ Hosts.item "USA" "USA" 3 (1800 # 1) "2024-06-01";
      Hosts.item "USA" "USA" 5 (175050 # 100) "2024-01-01" ].
Proof.
  apply (fetchRankings_latest_first Hosts.enUS_UTC Served.usa_or_error
           (Hosts.initial ["USA"]) (Hosts.still_world Examples.new_year_2025 0)).
  - intros url rankings item H. unfold Served.usa_or_error in H.
    destruct (String.eqb _ _); [| discriminate H]. injection H as <-.
    intros [<- | [<- | []]]; vm_compute; discriminate.
  - vm_compute. left. reflexivity.
  - reflexivity.
Defined.

Lemma filteredHistory_latest_first_witness :
  latest_first Hosts.enUS_UTC [SameDay.noon; SameDay.midnight].
Proof.
  apply (filteredHistory_latest_first Hosts.enUS_UTC SameDay.state
           (Hosts.still_world Examples.new_year_2025 0)).
  - intros h [<- | []]. repeat constructor. vm_compute. discriminate.
  - vm_compute. left. reflexivity.
Defined.

(** ** The cutoff of the relative range *)

Lemma month_of_yday_unique (d leap m : Z) :
  (leap = 0 \/ leap = 1) -> 0 <= m <= 11 ->
  DayToMonth m leap <= d < DayToMonth (m + 1) leap ->
  month_of_yday d leap = m.
Proof.
  intros Hl Hm. unfold month_of_yday.
  destruct Hl as [-> | ->]; month_cases m; intros Hd;
    repeat match goal with
           | |- context [if ?x <? ?y then _ else _] => destruct (Z.ltb_spec x y)
           end;
    eval_DayToMonth; lia.
Qed.

Lemma DayToMonth_mono (m leap : Z) :
  (leap = 0 \/ leap = 1) -> 0 <= m <= 11 ->
  0 <= DayToMonth m leap /\ DayToMonth (m + 1) leap <= 365 + leap
  /\ DayToMonth m leap < DayToMonth (m + 1) leap.
Proof.
  intros Hl Hm. destruct Hl as [-> | ->]; month_cases m; repeat split;
    vm_compute; try reflexivity; intros H; discriminate H.
Qed.

(** A valid date of a year is in that year, in its month, on its day. *)
Lemma civil_of_MakeDay (y m d tod : Z) :
  0 <= m <= 11 -> 1 <= d <= DaysInMonth y (m + 1) -> 0 <= tod < msPerDay ->
  YearFromTime (MakeDate (MakeDay y m d) tod) = y
  /\ MonthFromTime (MakeDate (MakeDay y m d) tod) = m
  /\ DateFromTime (MakeDate (MakeDay y m d) tod) = d
  /\ TimeWithinDay (MakeDate (MakeDay y m d) tod) = tod.
Proof.
  intros Hm Hd Htod.
  assert (Hmk : MakeDay y m d = DayFromYear y + DayToMonth m (leap_of_year y) + d - 1).
  { unfold MakeDay. rewrite Z.div_small, Z.mod_small, Z.add_0_r by lia. reflexivity. }
  generalize dependent (MakeDay y m d). intros day Hmk.
  assert (Hday : Day (MakeDate day tod) = day).
  { unfold MakeDate, Day. unfold msPerDay in *.
    rewrite Z.add_comm, Z.div_add by discriminate.
    rewrite Z.div_small by lia. reflexivity. }
  assert (Htw : TimeWithinDay (MakeDate day tod) = tod).
  { unfold MakeDate, TimeWithinDay. unfold msPerDay in *.
    rewrite Z.add_comm, Z.mod_add by discriminate. apply Z.mod_small. lia. }
  generalize dependent (MakeDate day tod). intros t Hday Htw.
  unfold DaysInMonth in Hd. replace (m + 1 - 1) with m in Hd by lia.
  pose proof (DayToMonth_mono m (leap_of_year y) (leap_of_year_01 y) Hm) as (M0 & M1 & M2).
  assert (Hy : YearFromTime t = y).
  { unfold YearFromTime. rewrite Hday. apply YearFromDay_unique.
    rewrite DayFromYear_succ, DaysInYear_leap. lia. }
  assert (Hdw : DayWithinYear t = DayToMonth m (leap_of_year y) + d - 1).
  { unfold DayWithinYear. rewrite Hday, Hy. lia. }
  assert (Hmo : MonthFromTime t = m).
  { unfold MonthFromTime, InLeapYear. rewrite Hdw, Hy.
    apply month_of_yday_unique; [apply leap_of_year_01 | exact Hm | lia]. }
  split; [exact Hy |]. split; [exact Hmo |]. split; [| exact Htw].
  unfold DateFromTime, InLeapYear. rewrite Hmo, Hdw, Hy. lia.
Qed.

Lemma LocalTime_UTC_fixed (rt : Runtime) (z x : Z) :
  (forall t, tza_of_utc rt t = z) -> (forall t, tza_of_local rt t = z) ->
  LocalTime rt (UTC rt x) = x.
Proof. intros Hu Hl. unfold LocalTime, UTC. rewrite Hu, Hl. lia. Qed.

Lemma shiftBackYears_eq (rt : Runtime) (now n : Z) :
  shiftBackYears rt now n
  = TimeClip (UTC rt (MakeDate (MakeDay (YearFromTime (LocalTime rt now) - n)
                                        (MonthFromTime (LocalTime rt now))
                                        (DateFromTime (LocalTime rt now)))
                               (TimeWithinDay (LocalTime rt now)))).
Proof. reflexivity. Qed.

(** On a host with a fixed offset from UTC, [now] shifted back [n] years
    has the local month, day and time of day of [now] and the local year
    lowered by [n], whenever that day exists in that year. *)
Lemma shiftBackYears_fields (rt : Runtime) (z now n cutoff : Z) :
  (forall t, tza_of_utc rt t = z) -> (forall t, tza_of_local rt t = z) ->
  DateFromTime (LocalTime rt now)
  <= DaysInMonth (YearFromTime (LocalTime rt now) - n)
                 (MonthFromTime (LocalTime rt now) + 1) ->
  shiftBackYears rt now n = Some cutoff ->
  YearFromTime (LocalTime rt cutoff) = YearFromTime (LocalTime rt now) - n
  /\ MonthFromTime (LocalTime rt cutoff) = MonthFromTime (LocalTime rt now)
  /\ DateFromTime (LocalTime rt cutoff) = DateFromTime (LocalTime rt now)
  /\ TimeWithinDay (LocalTime rt cutoff) = TimeWithinDay (LocalTime rt now).
Proof.
  intros Hu Hl Hd Hs. rewrite shiftBackYears_eq in Hs.
  generalize dependent (LocalTime rt now). intros lt Hd Hs.
  apply TimeClip_Some in Hs as [-> _].
  rewrite (LocalTime_UTC_fixed rt z) by assumption.
  apply civil_of_MakeDay.
  - apply MonthFromTime_range.
  - pose proof (DateFromTime_range lt). lia.
  - unfold TimeWithinDay, msPerDay. apply Z.mod_pos_bound. lia.
Qed.

(** The callback of the relative range when the clock moves: the cutoff
    takes its month, day and time of day from the reading of the clock
    inside the callback, and its year from [now]. *)
Lemma keepItem_relative_reading (rt : Runtime) (st : Dashboard.State) (w : World)
      (now : Date) (n : Z) (item : RankingHistoryItem) :
  relativeYears st n ->
  fst (Dashboard.keepItem rt st now item w)
  = num_ge (timeOf rt item)
           (setFullYear rt (Date_of_time (clock w (clock_reads w)))
                        (num_sub (getFullYear rt now) (Some n))).
Proof.
  intros (Hc & Ha & Hn). unfold Dashboard.keepItem.
  rewrite Hc, Ha, Hn. reflexivity.
Qed.

(** ** The relative range inside [updateChart] *)

Lemma filterHistories_get_invariant (rt : Runtime) (P : World -> Prop)
      (st : Dashboard.State) (now : Date) (codes : list string) (c : string) :
  (forall item w, P w -> P (snd (Dashboard.keepItem rt st now item w))) ->
  In c codes ->
  forall (acc : HistoryMap) (w : World),
    P w ->
    exists w',
      P w'
      /\ Object_get (fst (Dashboard.filterHistories rt st now codes acc w)) c
         = Some (fst (filterM (Dashboard.keepItem rt st now)
                        (Dashboard.historyOf (Dashboard.historyData st) c) w')).
Proof.
  intros Hk. induction codes as [| code codes IH]; intros Hc acc w Hw; [destruct Hc |].
  cbn [Dashboard.filterHistories]. unfold bind.
  assert (Hw1 : P (snd (filterM (Dashboard.keepItem rt st now)
                          (Dashboard.historyOf (Dashboard.historyData st) code) w))).
  { clear - Hk Hw. revert w Hw.
    induction (Dashboard.historyOf (Dashboard.historyData st) code) as [| x l IHl];
      intros w Hw; cbn [filterM]; [exact Hw |].
    unfold bind, ret. pose proof (Hk x w Hw) as H1.
    destruct (Dashboard.keepItem rt st now x w) as [b w1]. cbn [snd] in H1.
    specialize (IHl w1 H1). destruct (filterM _ l w1) as [r w2]. exact IHl. }
  destruct (filterM _ (Dashboard.historyOf (Dashboard.historyData st) code) w)
    as [kept w1] eqn:E. cbn [snd] in Hw1.
  destruct (in_dec string_dec c codes) as [Hin | Hnin].
  - apply IH; assumption.
  - destruct Hc as [-> | ?]; [| contradiction].
    exists w. split; [exact Hw |].
    rewrite filterHistories_get_other by assumption.
    rewrite Object_get_set, String.eqb_refl, E. reflexivity.
Qed.

(** With the relative range of [n] years and the clock at [now],
    [updateChart] keeps of the history of every entity exactly the records
    that are not older than [now] shifted back [n] years. *)
Lemma filteredHistory_relative (rt : Runtime) (st : Dashboard.State) (w : World)
      (now n : Z) (c : string) :
  relativeYears st n -> steady w now -> Z.abs now <= maxTime ->
  In c (Object_keys (Dashboard.historyData st)) ->
  Object_get (filteredHistory rt st w) c
  = Some (List.filter
            (fun item => num_ge (timeOf rt item) (shiftBackYears rt now n))
            (Dashboard.historyOf (Dashboard.historyData st) c)).
Proof.
  intros Hr Hw Hnow Hc. unfold filteredHistory, Date_now.
  rewrite Hw.
  destruct (filterHistories_get_invariant rt (fun w => steady w now) st
              (Date_of_time now) (Object_keys (Dashboard.historyData st)) c)
    with (acc := @nil (string * list RankingHistoryItem))
         (w := {| clock := clock w; clock_reads := S (clock_reads w);
                  random := random w; random_draws := random_draws w |})
    as (w' & Hw' & ->).
  - intros item w0 Hw0. apply (keepItem_relative rt st w0 now n item); assumption.
  - exact Hc.
  - exact Hw.
  - f_equal.
    apply (filterM_invariant (fun w => steady w now)); [| exact Hw'].
    intros x w0 Hw0. apply keepItem_relative; assumption.
Qed.

(* ===================================================================== *)
(** * Part XXIII.  The selection of countries *)
(* ===================================================================== *)

Lemma Array_includes_In (l : list string) (x : string) :
  Controls.Array_includes l x = true <-> In x l.
Proof. apply Set_has_In. Qed.

Lemma Array_includes_false (l : list string) (x : string) :
  Controls.Array_includes l x = false <-> ~ In x l.
Proof.
  rewrite <- Array_includes_In. destruct (Controls.Array_includes l x); split;
    intros H; try reflexivity; try discriminate; try (intros E; discriminate E).
  exfalso. apply H. reflexivity.
Qed.

Lemma filter_other_notin (l : list string) (code : string) :
  ~ In code l -> List.filter (fun c => negb (String.eqb c code)) l = l.
Proof.
  induction l as [| c l IH]; intros H; cbn [List.filter]; [reflexivity |].
  destruct (String.eqb_spec c code) as [-> | Hne]; cbn [negb].
  - exfalso. apply H. left. reflexivity.
  - rewrite IH; [reflexivity |]. intros Hin. apply H. right. exact Hin.
Qed.

Lemma filter_other_In (l : list string) (code c : string) :
  In c (List.filter (fun c => negb (String.eqb c code)) l) <-> In c l /\ c <> code.
Proof.
  rewrite filter_In. split; intros [H1 H2]; (split; [exact H1 |]).
  - intros ->. rewrite String.eqb_refl in H2. discriminate H2.
  - destruct (String.eqb_spec c code); [contradiction | reflexivity].
Qed.

(** X3.  A click on a country flips its membership in the selection and
    nothing else: the country is selected afterwards exactly when it was
    not before, and the other selected countries stay, in their order. *)
Theorem toggleCountry_flips (st : Dashboard.State) (code : string) :
  let before := Dashboard.selectedCountries st in
  let after := Dashboard.selectedCountries (Controls.toggleCountry st code) in
  (In code after <-> ~ In code before)
  /\ List.filter (fun c => negb (String.eqb c code)) after
     = List.filter (fun c => negb (String.eqb c code)) before.
Proof.
  cbv zeta. unfold Controls.toggleCountry.
  destruct (Controls.Array_includes (Dashboard.selectedCountries st) code) eqn:E;
    cbn [Controls.setSelectedCountries Dashboard.selectedCountries].
  - apply Array_includes_In in E. split.
    + rewrite filter_other_In. split; [intros [_ H]; contradiction | contradiction].
    + apply filter_other_notin. rewrite filter_other_In. intros [_ H]. apply H. reflexivity.
  - apply Array_includes_false in E. split.
    + split; [intros _; exact E | intros _; apply in_or_app; right; left; reflexivity].
    + rewrite List.filter_app. cbn [List.filter]. rewrite String.eqb_refl. cbn [negb].
      apply app_nil_r.
Qed.

Lemma toggleCountry_NoDup (st : Dashboard.State) (code : string) :
  List.NoDup (Dashboard.selectedCountries st) ->
  List.NoDup (Dashboard.selectedCountries (Controls.toggleCountry st code)).
Proof.
  intros H. unfold Controls.toggleCountry.
  destruct (Controls.Array_includes (Dashboard.selectedCountries st) code) eqn:E;
    cbn [Controls.setSelectedCountries Dashboard.selectedCountries].
  - apply List.NoDup_filter, H.
  - apply Array_includes_false in E. apply NoDup_snoc; assumption.
Qed.

(** X4.  Whatever is clicked, and in whatever order, the selection never
    holds a country twice. *)
Theorem selection_never_repeats (st : Dashboard.State) (clicks : list Click) :
  List.NoDup (Dashboard.selectedCountries st) ->
  List.NoDup (Dashboard.selectedCountries (fold_left click clicks st)).
Proof.
  revert st. induction clicks as [| c clicks IH]; intros st H; cbn [fold_left].
  - exact H.
  - apply IH. destruct c as [code |]; cbn [click].
    + apply toggleCountry_NoDup, H.
    + constructor.
Qed.

Lemma selection_never_repeats_witness :
  Dashboard.selectedCountries
    (fold_left click [Toggle "USA"; Toggle "BRA"; Toggle "USA"; Toggle "USA"]
               (Hosts.initial []))
  = ["BRA"; "USA"]
  /\ List.NoDup
       (Dashboard.selectedCountries
          (fold_left click [Toggle "USA"; Toggle "BRA"; Toggle "USA"; Toggle "USA"]
                     (Hosts.initial []))).
Proof.
  split; [reflexivity |].
  apply (selection_never_repeats (Hosts.initial [])). constructor.
Defined.

(** X5.  Two clicks on the same country: a country that was not selected
    is not selected again and the selection is as before; a country that
    was selected is selected again, but now as the last one. *)
Theorem toggleCountry_twice (st : Dashboard.State) (code : string) :
  Dashboard.selectedCountries (Controls.toggleCountry (Controls.toggleCountry st code) code)
  = if Controls.Array_includes (Dashboard.selectedCountries st) code
    then List.filter (fun c => negb (String.eqb c code)) (Dashboard.selectedCountries st)
         ++ [code]
    else Dashboard.selectedCountries st.
Proof.
  unfold Controls.toggleCountry at 2.
  destruct (Controls.Array_includes (Dashboard.selectedCountries st) code) eqn:E.
  - unfold Controls.toggleCountry.
    cbn [Controls.setSelectedCountries Dashboard.selectedCountries].
    replace (Controls.Array_includes _ code) with false; [reflexivity |].
    symmetry. apply Array_includes_false. rewrite filter_other_In.
    intros [_ H]. apply H. reflexivity.
  - unfold Controls.toggleCountry.
    cbn [Controls.setSelectedCountries Dashboard.selectedCountries].
    replace (Controls.Array_includes _ code) with true.
    + rewrite List.filter_app. cbn [List.filter]. rewrite String.eqb_refl. cbn [negb].
      rewrite app_nil_r. apply filter_other_notin, Array_includes_false, E.
    + symmetry. apply Array_includes_In, in_or_app. right. left. reflexivity.
Qed.

(* ===================================================================== *)
(** * Part XXIV.  The order of the result cards *)
(* ===================================================================== *)

Lemma sort_insert_filter_rank (k : Z) (x : Dashboard.RankingResult.t)
      (l : list Dashboard.RankingResult.t) :
  List.filter (fun r => Dashboard.RankingResult.rank r =? k)
              (sort_insert Controls.byRank x l)
  = List.filter (fun r => Dashboard.RankingResult.rank r =? k) (x :: l).
Proof.
  induction l as [| y l IH]; cbn [sort_insert]; [reflexivity |].
  change (SortCompare Controls.byRank x y)
    with (Dashboard.RankingResult.rank x - Dashboard.RankingResult.rank y).
  destruct (Z.ltb_spec 0 (Dashboard.RankingResult.rank x - Dashboard.RankingResult.rank y))
    as [Hlt | Hge]; [| reflexivity].
  change (List.filter ?f (y :: ?t))
    with (if f y then y :: List.filter f t else List.filter f t).
  rewrite IH.
  change (List.filter ?f (x :: y :: ?t))
    with (if f x then x :: (if f y then y :: List.filter f t else List.filter f t)
          else (if f y then y :: List.filter f t else List.filter f t)).
  change (List.filter ?f (x :: ?t))
    with (if f x then x :: List.filter f t else List.filter f t).
  cbv beta.
  destruct (Z.eqb_spec (Dashboard.RankingResult.rank x) k) as [Ex | Nx];
    destruct (Z.eqb_spec (Dashboard.RankingResult.rank y) k) as [Ey | Ny];
    try reflexivity.
  lia.
Qed.

(** X6.  The result cards are all the results, each once, ordered by rank
    with the best rank first; results of equal rank keep the order they
    have in the results. *)
Theorem cards_by_rank (st : Dashboard.State) :
  let cards := Controls.sortedResults st in
  Permutation (Dashboard.results st) cards
  /\ StronglySorted
       (fun a b => Dashboard.RankingResult.rank a <= Dashboard.RankingResult.rank b) cards
  /\ forall k,
      List.filter (fun r => Dashboard.RankingResult.rank r =? k) cards
      = List.filter (fun r => Dashboard.RankingResult.rank r =? k) (Dashboard.results st).
Proof.
  cbv zeta. unfold Controls.sortedResults. split; [apply Array_sort_perm |]. split.
  - apply (Array_sort_sorted Controls.byRank Dashboard.RankingResult.rank (fun _ => True)).
    + intros a b _ _. reflexivity.
    + apply List.Forall_forall. intros; exact I.
  - intros k. induction (Dashboard.results st) as [| x l IH]; [reflexivity |].
    unfold Array_sort in *. cbn [fold_right]. rewrite sort_insert_filter_rank.
    cbn [List.filter]. rewrite IH. reflexivity.
Qed.

(* ===================================================================== *)
(** * Part XXV.  What a retrieval leaves in the state *)
(* ===================================================================== *)

(** ** The keys of an object after an assignment *)

Lemma Object_update_keys {V} (o : Object V) (k : string) (v : V) :
  Object_keys (Object_update o k v) = Object_keys o.
Proof.
  unfold Object_keys. induction o as [| [k0 v0] o IH]; cbn [Object_update map fst].
  - reflexivity.
  - destruct (String.eqb k0 k); cbn [map fst]; [reflexivity | rewrite IH; reflexivity].
Qed.

Lemma Object_insert_index_keys {V} (o : Object V) (n : Z) (k : string) (v : V) :
  Permutation (k :: Object_keys o) (Object_keys (Object_insert_index o n k v)).
Proof.
  unfold Object_keys. induction o as [| [k0 v0] o IH]; cbn [Object_insert_index map fst].
  - reflexivity.
  - destruct (array_index k0) as [n0 |]; [destruct (n0 <? n) |]; cbn [map fst].
    + rewrite perm_swap. apply perm_skip, IH.
    + reflexivity.
    + reflexivity.
Qed.

Lemma Object_has_In {V} (o : Object V) (k : string) :
  Object_has o k = true <-> In k (Object_keys o).
Proof.
  unfold Object_has. pose proof (Object_get_None o k) as H.
  destruct (Object_get o k) as [v |].
  - split; [intros _ | reflexivity].
    destruct (in_dec string_dec k (Object_keys o)) as [Hin | Hnin]; [exact Hin |].
    apply H in Hnin. discriminate Hnin.
  - split; [discriminate |]. intros Hin. exfalso. apply (proj1 H); [reflexivity | exact Hin].
Qed.

(** An assignment to a property the object has keeps the keys; an
    assignment to a new property adds its key, once. *)
Lemma Object_set_keys {V} (o : Object V) (k : string) (v : V) :
  if Object_has o k then Object_keys (Object_set o k v) = Object_keys o
  else Permutation (k :: Object_keys o) (Object_keys (Object_set o k v)).
Proof.
  unfold Object_set. destruct (Object_has o k).
  - apply Object_update_keys.
  - destruct (array_index k) as [n |].
    + apply Object_insert_index_keys.
    + unfold Object_keys. rewrite map_app. cbn [map fst].
      apply Permutation_cons_append.
Qed.

Lemma Object_set_keys_In {V} (o : Object V) (k k' : string) (v : V) :
  In k' (Object_keys (Object_set o k v)) <-> k' = k \/ In k' (Object_keys o).
Proof.
  pose proof (Object_set_keys o k v) as H.
  destruct (Object_has o k) eqn:E.
  - rewrite H. apply Object_has_In in E. split; [auto |].
    intros [-> | Hin]; assumption.
  - split.
    + intros Hin. apply (Permutation_in _ (Permutation_sym H)) in Hin as [<- | Hin]; auto.
    + intros Hin. apply (Permutation_in _ H). destruct Hin as [-> | Hin]; [left | right]; auto.
Qed.

Lemma Object_set_keys_NoDup {V} (o : Object V) (k : string) (v : V) :
  List.NoDup (Object_keys o) -> List.NoDup (Object_keys (Object_set o k v)).
Proof.
  intros Hnd. pose proof (Object_set_keys o k v) as H.
  destruct (Object_has o k) eqn:E.
  - rewrite H. exact Hnd.
  - eapply Permutation_NoDup; [exact H |]. constructor; [| exact Hnd].
    intros Hin. apply Object_has_In in Hin. congruence.
Qed.

(** A new key that is not an array index goes to the end. *)
Lemma Object_set_keys_plain {V} (o : Object V) (k : string) (v : V) :
  ~ In k (Object_keys o) -> array_index k = None ->
  Object_keys (Object_set o k v) = Object_keys o ++ [k].
Proof.
  intros Hk Hi. unfold Object_set.
  destruct (Object_has o k) eqn:E; [apply Object_has_In in E; contradiction |].
  rewrite Hi. unfold Object_keys. rewrite map_app. reflexivity.
Qed.

(** ** The keys of the history map that [fetchRankings] builds *)

Lemma newHistory_keys_In (fetched : list Dashboard.Fetched) (c : string) :
  forall acc : HistoryMap,
    In c (Object_keys
            (fold_left (fun h item => Object_set h (Dashboard.code item)
                                                 (Dashboard.history item))
                       fetched acc))
    <-> In c (Object_keys acc) \/ In c (map Dashboard.code fetched).
Proof.
  induction fetched as [| x l IH]; intros acc; cbn [fold_left map In].
  - tauto.
  - rewrite IH, Object_set_keys_In. split; intros H; intuition auto.
Qed.

Lemma newHistory_keys_NoDup (fetched : list Dashboard.Fetched) :
  forall acc : HistoryMap,
    List.NoDup (Object_keys acc) ->
    List.NoDup (Object_keys
                  (fold_left (fun h item => Object_set h (Dashboard.code item)
                                                       (Dashboard.history item))
                             fetched acc)).
Proof.
  induction fetched as [| x l IH]; intros acc H; cbn [fold_left]; [exact H |].
  apply IH, Object_set_keys_NoDup, H.
Qed.

Lemma newHistory_keys_plain (fetched : list Dashboard.Fetched) :
  forall acc : HistoryMap,
    List.NoDup (Object_keys acc ++ map Dashboard.code fetched) ->
    (forall f, In f fetched -> array_index (Dashboard.code f) = None) ->
    Object_keys
      (fold_left (fun h item => Object_set h (Dashboard.code item) (Dashboard.history item))
                 fetched acc)
    = Object_keys acc ++ map Dashboard.code fetched.
Proof.
  induction fetched as [| x l IH]; intros acc Hnd Hi; cbn [fold_left map].
  - symmetry. apply app_nil_r.
  - assert (Hx : ~ In (Dashboard.code x) (Object_keys acc)).
    { intros Hin. apply NoDup_remove_2 in Hnd. apply Hnd, in_or_app. left. exact Hin. }
    rewrite IH.
    + rewrite Object_set_keys_plain by (exact Hx || apply Hi; left; reflexivity).
      rewrite <- app_assoc. reflexivity.
    + rewrite Object_set_keys_plain by (exact Hx || apply Hi; left; reflexivity).
      rewrite <- app_assoc. exact Hnd.
    + intros f Hf. apply Hi. right. exact Hf.
Qed.

Section Snapshot.
Variable rt : Runtime.
Variable fetch : string -> Dashboard.FetchResult.

(** ** The snapshot of one country *)

(** X7.  When the retrieval of a country delivers records whose dates all
    parse, its snapshot shows a latest record: name, rank, points and date
    are those of a record that no other record is later than, and the
    previous rank is that of the next record in the order latest first,
    or the rank of the same record when there is no other. *)
Theorem fetchCountry_snapshot (st : Dashboard.State) (code : string)
        (rankings : list RankingHistoryItem) :
  delivers fetch st code rankings ->
  (forall item, In item rankings -> timeOf rt item <> None) ->
  exists current rest,
    Permutation rankings (current :: rest)
    /\ latest_first rt (current :: rest)
    /\ Dashboard.fetchCountry rt fetch st code
       = Return (Some
           {| Dashboard.result :=
                {| Dashboard.RankingResult.countryCode := code;
                   Dashboard.RankingResult.countryName :=
                     or_string (firstDescription current) code;
                   Dashboard.RankingResult.rank := Rank current;
                   Dashboard.RankingResult.previousRank := Rank (hd current rest);
                   Dashboard.RankingResult.points := TotalPoints current;
                   Dashboard.RankingResult.date := PubDate current;
                   Dashboard.RankingResult.gender :=
                     if String.eqb (Dashboard.gender st) "1" then "Men" else "Women" |};
              Dashboard.history := current :: rest;
              Dashboard.code := code |}).
Proof.
  intros [Hf Hne] Hv.
  pose proof (Array_sort_perm (Dashboard.byPubDateDescending rt) rankings) as Hp.
  pose proof (fetched_latest_first rt rankings Hv) as Hs.
  unfold Dashboard.fetchCountry. rewrite Hf.
  destruct rankings as [| r rankings]; [contradiction |].
  change (0 <? length (r :: rankings))%nat with true. cbv iota.
  destruct (Array_sort (Dashboard.byPubDateDescending rt) (r :: rankings))
    as [| current rest].
  - apply Permutation_length in Hp. discriminate Hp.
  - exists current, rest. split; [exact Hp |]. split; [exact Hs |].
    destruct rest; reflexivity.
Qed.

(** ** The state after [fetchRankings] *)



(** ** The results and the keys of the history map *)

Lemma hasData_with_fetch (st : Dashboard.State) (l : bool)
      (r : list Dashboard.RankingResult.t) (h : HistoryMap) (c : string) :
  hasData fetch (Dashboard.with_fetch st l r h) c = hasData fetch st c.
Proof. reflexivity. Qed.

(** What the promise of a country resolves to when it does not reject. *)
Lemma fetchCountry_hasData (st : Dashboard.State) (c : string) :
  ~ rejected fetch st c ->
  if hasData fetch st c
  then exists item,
         Dashboard.fetchCountry rt fetch st c = Return (Some item)
         /\ Dashboard.code item = c
         /\ Dashboard.RankingResult.countryCode (Dashboard.result item) = c
  else Dashboard.fetchCountry rt fetch st c = Return None.
Proof.
  intros Hr. unfold hasData, Dashboard.fetchCountry, rejected in *.
  destruct (fetch (Dashboard.apiUrl st c)) as [e | [[| r rankings] |]].
  - exfalso. eauto.
  - reflexivity.
  - change (0 <? length (r :: rankings))%nat with true. cbv iota.
    destruct (Array_sort (Dashboard.byPubDateDescending rt) (r :: rankings))
      as [| current rest] eqn:E.
    + pose proof (Array_sort_length (Dashboard.byPubDateDescending rt) (r :: rankings)) as L.
      rewrite E in L. discriminate L.
    + eexists. split; [reflexivity |]. cbn. auto.
  - reflexivity.
Qed.

(** The promises of a selection in which no retrieval rejects: one value
    for each country with data, in the order of the selection. *)
Lemma fetchAll_codes (st : Dashboard.State) (sel : list string) :
  (forall c, In c sel -> ~ rejected fetch st c) ->
  exists ys,
    cmap (Dashboard.fetchCountry rt fetch st) sel = Return ys
    /\ map Dashboard.code (omap id ys) = List.filter (hasData fetch st) sel
    /\ map (fun f => Dashboard.RankingResult.countryCode (Dashboard.result f))
           (omap id ys)
       = List.filter (hasData fetch st) sel.
Proof.
  induction sel as [| c sel IH]; intros H; cbn [cmap List.filter].
  - exists []. auto.
  - destruct IH as (ys & E & Hc & Hr); [intros x Hx; apply H; right; exact Hx |].
    pose proof (fetchCountry_hasData st c (H c (or_introl eq_refl))) as Hd.
    rewrite E. destruct (hasData fetch st c).
    + destruct Hd as (item & -> & Hcode & Hres). cbn [cbind].
      exists (Some item :: ys). split; [reflexivity |].
      change (omap id (Some item :: ys)) with (item :: omap id ys).
      cbn [map]. rewrite Hc, Hr, Hcode, Hres. auto.
    + rewrite Hd. cbn [cbind]. exists (None :: ys). split; [reflexivity |].
      change (omap id (None :: ys)) with (omap id ys). auto.
Qed.

(** The value of every fulfilled promise carries the code of its country
    twice: as the key of the history and in the snapshot. *)
Lemma fetchAll_code_result (st : Dashboard.State) (fetched : list Dashboard.Fetched)
      (f : Dashboard.Fetched) :
  Dashboard.fetchAll rt fetch st = Return fetched -> In f fetched ->
  Dashboard.RankingResult.countryCode (Dashboard.result f) = Dashboard.code f.
Proof.
  unfold Dashboard.fetchAll.
  destruct (cmap _ _) as [ys |] eqn:E; [| discriminate]. cbn [cbind].
  intros [= <-] Hin.
  apply list_elem_of_In, list_elem_of_omap in Hin as (o & Ho & Eo).
  cbn in Eo. subst o. apply list_elem_of_In in Ho.
  destruct (cmap_In _ _ _ _ E Ho) as (c & _ & Hc).
  unfold Dashboard.fetchCountry in Hc.
  destruct (fetch _) as [e | [rankings |]]; [discriminate | | discriminate].
  destruct (0 <? length rankings)%nat; [| discriminate].
  destruct (Array_sort _ rankings) as [| current rest]; [discriminate |].
  injection Hc as <-. reflexivity.
Qed.

(** The state after a retrieval in which no promise rejects. *)
Lemma fetchRankings_fulfilled (st : Dashboard.State) (w : World) :
  Dashboard.selectedCountries st <> [] ->
  (forall c, In c (Dashboard.selectedCountries st) -> ~ rejected fetch st c) ->
  exists fetched,
    Dashboard.results (fst (Dashboard.fetchRankings rt fetch st w))
    = Dashboard.newResults fetched
    /\ Dashboard.historyData (fst (Dashboard.fetchRankings rt fetch st w))
       = Dashboard.newHistory fetched
    /\ map Dashboard.code fetched
       = List.filter (hasData fetch st) (Dashboard.selectedCountries st)
    /\ map (fun f => Dashboard.RankingResult.countryCode (Dashboard.result f)) fetched
       = List.filter (hasData fetch st) (Dashboard.selectedCountries st).
Proof.
  intros Hsel Hok. unfold Dashboard.fetchRankings.
  destruct (Dashboard.selectedCountries st) as [| c0 sel] eqn:Esel; [contradiction |].
  change (length (c0 :: sel) =? 0)%nat with false. cbv iota.
  set (st1 := Dashboard.with_fetch st true [] []).
  destruct (fetchAll_codes st1 (c0 :: sel)) as (ys & E & Hc & Hr).
  { intros c Hc. apply Hok, Hc. }
  unfold Dashboard.fetchAll.
  change (Dashboard.selectedCountries st1) with (Dashboard.selectedCountries st).
  rewrite Esel, E. cbn [cbind]. unfold bind, ret.
  match goal with
  | |- context [Dashboard.updateChart rt ?s w] =>
      pose proof (updateChart_keeps rt s w) as (Hres & Hh & _);
      destruct (Dashboard.updateChart rt s w) as [st2 w2]
  end.
  cbn in Hres, Hh. cbn [fst Dashboard.results Dashboard.historyData Dashboard.with_fetch].
  exists (omap id ys). rewrite Hres, Hh. auto.
Qed.


(** X10.  After a retrieval, successful or not, the history map has a key
    for exactly the countries that have a result, and no key twice. *)
Theorem history_keys_match_results (st : Dashboard.State) (w : World) :
  Dashboard.selectedCountries st <> [] ->
  let st' := fst (Dashboard.fetchRankings rt fetch st w) in
  List.NoDup (Object_keys (Dashboard.historyData st'))
  /\ forall c,
      In c (Object_keys (Dashboard.historyData st'))
      <-> exists r, In r (Dashboard.results st')
                    /\ Dashboard.RankingResult.countryCode r = c.
Proof.
  intros Hsel. cbv zeta. unfold Dashboard.fetchRankings.
  destruct (Dashboard.selectedCountries st) as [| c0 sel] eqn:Esel; [contradiction |].
  change (length (c0 :: sel) =? 0)%nat with false. cbv iota.
  destruct (Dashboard.fetchAll rt fetch _) as [fetched | e] eqn:E.
  - unfold bind, ret.
    match goal with
    | |- context [Dashboard.updateChart rt ?s w] =>
        pose proof (updateChart_keeps rt s w) as (Hres & Hh & _);
        destruct (Dashboard.updateChart rt s w) as [st2 w2]
    end.
    cbn in Hres, Hh. cbn [fst Dashboard.results Dashboard.historyData Dashboard.with_fetch].
    rewrite Hres, Hh. unfold Dashboard.newHistory, Dashboard.newResults. split.
    + apply newHistory_keys_NoDup. constructor.
    + intros c. rewrite newHistory_keys_In. cbn [Object_keys map In].
      rewrite in_map_iff. split.
      * intros [[] | (f & Hc & Hf)]. exists (Dashboard.result f).
        split; [apply in_map, Hf |].
        rewrite (fetchAll_code_result _ _ _ E Hf). exact Hc.
      * intros (r & Hr & Hc). apply in_map_iff in Hr as (f & <- & Hf).
        right. exists f. split; [| exact Hf].
        rewrite <- (fetchAll_code_result _ _ _ E Hf). exact Hc.
  - cbn. split; [constructor |]. intros c. split; [intros [] | intros (r & [] & _)].
Qed.

(** X11.  When no retrieval rejects, no country is selected twice and no
    code is the decimal form of an array index, the keys of the history
    map are the selected countries that have data, in the order of the
    selection.  (The series of the chart and the columns of the exports
    follow the order of these keys.) *)
Theorem history_keys_follow_selection (st : Dashboard.State) (w : World) :
  Dashboard.selectedCountries st <> [] ->
  (forall c, In c (Dashboard.selectedCountries st) -> ~ rejected fetch st c) ->
  List.NoDup (Dashboard.selectedCountries st) ->
  (forall c, In c (Dashboard.selectedCountries st) -> array_index c = None) ->
  Object_keys (Dashboard.historyData (fst (Dashboard.fetchRankings rt fetch st w)))
  = List.filter (hasData fetch st) (Dashboard.selectedCountries st).
Proof.
  intros Hsel Hok Hnd Hidx.
  destruct (fetchRankings_fulfilled st w Hsel Hok) as (fetched & _ & -> & Hc & _).
  unfold Dashboard.newHistory. rewrite newHistory_keys_plain.
  - cbn [Object_keys map app]. exact Hc.
  - cbn [Object_keys map app]. rewrite Hc. apply List.NoDup_filter, Hnd.
  - intros f Hf. apply Hidx.
    assert (Hin : In (Dashboard.code f) (map Dashboard.code fetched)) by (apply in_map, Hf).
    rewrite Hc in Hin. apply filter_In in Hin as [Hin _]. exact Hin.
Qed.

End Snapshot.

(** USA alone, served with two records: the snapshot shows the record of
    June, and the previous rank is that of January. *)
Lemma fetchCountry_snapshot_witness :
  exists current rest,
    Permutation Examples.usa_records (current :: rest)
    /\ latest_first Hosts.enUS_UTC (current :: rest)
    /\ Dashboard.fetchCountry Hosts.enUS_UTC Examples.only_usa (Hosts.initial ["USA"]) "USA"
       = Return (Some
           {| Dashboard.result :=
                {| Dashboard.RankingResult.countryCode := "USA";
                   Dashboard.RankingResult.countryName :=
                     or_string (firstDescription current) "USA";
                   Dashboard.RankingResult.rank := Rank current;
                   Dashboard.RankingResult.previousRank := Rank (hd current rest);
                   Dashboard.RankingResult.points := TotalPoints current;
                   Dashboard.RankingResult.date := PubDate current;
                   Dashboard.RankingResult.gender :=
                     if String.eqb (Dashboard.gender (Hosts.initial ["USA"])) "1"
                     then "Men" else "Women" |};
              Dashboard.history := current :: rest;
              Dashboard.code := "USA" |}).
Proof.
  apply (fetchCountry_snapshot Hosts.enUS_UTC Examples.only_usa (Hosts.initial ["USA"])
           "USA" Examples.usa_records).
  - split; [reflexivity | discriminate].
  - intros item [<- | [<- | []]]; vm_compute; discriminate.
Defined.



Lemma history_keys_match_results_witness :
  List.NoDup
    (Object_keys
       (Dashboard.historyData
          (fst (Dashboard.fetchRankings Hosts.enUS_UTC Served.usa_or_error
                  (Hosts.initial ["BRA"; "USA"])
                  (Hosts.still_world Examples.new_year_2025 0))))).
Proof.
  pose proof (history_keys_match_results Hosts.enUS_UTC Served.usa_or_error
                (Hosts.initial ["BRA"; "USA"])
                (Hosts.still_world Examples.new_year_2025 0)
                ltac:(discriminate)) as H.
  cbv zeta in H. destruct H as [H _]. exact H.
Defined.

Lemma history_keys_follow_selection_witness :
  Object_keys
    (Dashboard.historyData
       (fst (Dashboard.fetchRankings Hosts.enUS_UTC Served.usa_or_error
               (Hosts.initial ["BRA"; "USA"])
               (Hosts.still_world Examples.new_year_2025 0))))
  = ["USA"].
Proof.
  pose proof (history_keys_follow_selection Hosts.enUS_UTC Served.usa_or_error
                (Hosts.initial ["BRA"; "USA"])
                (Hosts.still_world Examples.new_year_2025 0)
                ltac:(discriminate)
                ltac:(intros c _ [e He]; unfold Served.usa_or_error in He;
                      destruct (String.eqb _ _); discriminate He)
                ltac:(repeat constructor; cbn; intuition discriminate)
                ltac:(intros c [<- | [<- | []]]; reflexivity)) as H.
  etransitivity; [exact H |]. vm_compute. reflexivity.
Defined.

(* ===================================================================== *)
(** * Part XXVI.  The series of the chart *)
(* ===================================================================== *)

Lemma mapIndexed_length {A B} (f : A -> nat -> IO B) (l : list A) :
  forall (index : nat) (w : World),
    length (fst (Dashboard.mapIndexed f l index w)) = length l.
Proof.
  induction l as [| x l IH]; intros index w; cbn [Dashboard.mapIndexed].
  - reflexivity.
  - unfold bind, ret. destruct (f x index w) as [y w1].
    specialize (IH (S index) w1).
    destruct (Dashboard.mapIndexed f l (S index) w1) as [ys w2].
    cbn [fst length] in *. rewrite IH. reflexivity.
Qed.

(** A [Map] built from entries has a value for a key only if an entry has
    that key and that value. *)
Lemma fold_insert_lookup_Some {V} (entries : list (string * V)) (k : string) (v : V) :
  forall m : gmap string V,
    fold_left (fun m kv => <[kv.1 := kv.2]> m) entries m !! k = Some v ->
    m !! k = Some v \/ In (k, v) entries.
Proof.
  induction entries as [| [k0 v0] entries IH]; intros m; cbn [fold_left].
  - auto.
  - intros H. apply IH in H as [H | H]; [| right; right; exact H].
    cbn [fst snd] in H. destruct (decide (k0 = k)) as [-> | Hne].
    + rewrite lookup_insert_eq in H. injection H as ->. right. left. reflexivity.
    + rewrite lookup_insert_ne in H by exact Hne. left. exact H.
Qed.

Section Series.
Variable rt : Runtime.

Lemma makeDataset_label (filtered : HistoryMap) (chart_labels : list string)
      (code : string) (index : nat) (w : World) :
  Dashboard.label (fst (Dashboard.makeDataset rt filtered chart_labels code index w))
  = or_string (Dashboard.headDescription (Dashboard.historyOf filtered code)) code
    +:+ " (" +:+ code +:+ ")".
Proof.
  unfold Dashboard.makeDataset, bind, ret.
  destruct (Dashboard.seriesColor index w) as [color w']. reflexivity.
Qed.

(** The legend of a series. *)
Lemma buildChart_label (st : Dashboard.State) (w : World) (i : nat)
      (ds : Dashboard.Dataset) :
  nth_error (Dashboard.datasets (fst (Dashboard.buildChart rt st w))) i = Some ds ->
  exists code,
    nth_error (Object_keys (Dashboard.historyData st)) i = Some code
    /\ Dashboard.label ds
       = or_string (Dashboard.headDescription
                      (Dashboard.historyOf (filteredHistory rt st w) code)) code
         +:+ " (" +:+ code +:+ ")".
Proof.
  unfold Dashboard.buildChart, filteredHistory, bind, ret.
  destruct (Date_now w) as [now w1].
  destruct (Dashboard.filterHistories rt st now _ [] w1) as [filtered w2].
  cbn [fst].
  destruct (Dashboard.mapIndexed _ _ 0%nat w2) as [sets w3] eqn:E.
  cbn [fst Dashboard.datasets]. intros H.
  assert (E' : sets = fst (Dashboard.mapIndexed
                             (Dashboard.makeDataset rt filtered
                                (Dashboard.chartLabels rt filtered))
                             (Object_keys (Dashboard.historyData st)) 0%nat w2))
    by (rewrite E; reflexivity).
  rewrite E' in H. apply mapIndexed_nth in H as (code & w' & Hc & ->).
  exists code. split; [exact Hc | apply makeDataset_label].
Qed.

Lemma buildChart_datasets_length (st : Dashboard.State) (w : World) :
  length (Dashboard.datasets (fst (Dashboard.buildChart rt st w)))
  = length (Object_keys (Dashboard.historyData st)).
Proof.
  unfold Dashboard.buildChart, bind, ret.
  destruct (Date_now w) as [now w1].
  destruct (Dashboard.filterHistories rt st now _ [] w1) as [filtered w2].
  pose proof (mapIndexed_length
                (Dashboard.makeDataset rt filtered (Dashboard.chartLabels rt filtered))
                (Object_keys (Dashboard.historyData st)) 0%nat w2) as L.
  destruct (Dashboard.mapIndexed _ _ 0%nat w2) as [sets w3]. exact L.
Qed.

(** What the filter kept of the history of a key was in that history. *)
Lemma filteredHistory_of_key (st : Dashboard.State) (w : World) (code : string)
      (item : RankingHistoryItem) :
  In code (Object_keys (Dashboard.historyData st)) ->
  In item (Dashboard.historyOf (filteredHistory rt st w) code) ->
  In item (Dashboard.historyOf (Dashboard.historyData st) code).
Proof.
  intros Hc. unfold filteredHistory. destruct (Date_now w) as [now w1].
  destruct (filterHistories_get rt st now _ code Hc [] w1) as [w' E].
  unfold Dashboard.historyOf at 1. rewrite E.
  intros H. apply filterM_In in H as [H _]. exact H.
Qed.

Lemma buildChart_data_length (st : Dashboard.State) (w : World) :
  List.Forall
    (fun ds => length (Dashboard.data ds)
               = length (Dashboard.labels (fst (Dashboard.buildChart rt st w))))
    (Dashboard.datasets (fst (Dashboard.buildChart rt st w))).
Proof.
  apply List.Forall_forall. intros ds Hin.
  apply In_nth_error in Hin as [i Hi].
  apply buildChart_dataset in Hi as (code & _ & ->).
  apply length_map.
Qed.

(** X12.  The chart has one series for every key of the history map, and
    every series has one value, a rank or a gap, for every label of the
    axis. *)
Theorem chart_shape (st : Dashboard.State) (w : World) :
  let chart := fst (Dashboard.buildChart rt st w) in
  length (Dashboard.datasets chart) = length (Object_keys (Dashboard.historyData st))
  /\ List.Forall
       (fun ds => length (Dashboard.data ds) = length (Dashboard.labels chart))
       (Dashboard.datasets chart).
Proof.
  cbv zeta. split; [apply buildChart_datasets_length | apply buildChart_data_length].
Qed.

(** X13.  A country of which no record passes the time-range filter keeps
    its series: the legend shows its code in place of its name, and the
    series is a gap at every label. *)
Theorem empty_series (st : Dashboard.State) (w : World) (i : nat) (code : string)
        (ds : Dashboard.Dataset) :
  let chart := fst (Dashboard.buildChart rt st w) in
  nth_error (Object_keys (Dashboard.historyData st)) i = Some code ->
  nth_error (Dashboard.datasets chart) i = Some ds ->
  Dashboard.historyOf (filteredHistory rt st w) code = [] ->
  Dashboard.label ds = code +:+ " (" +:+ code +:+ ")"
  /\ Dashboard.data ds = repeat None (length (Dashboard.labels chart)).
Proof.
  cbv zeta. intros Hk Hds He. split.
  - apply buildChart_label in Hds as (code' & Hc & ->).
    rewrite Hk in Hc. injection Hc as <-. rewrite He. reflexivity.
  - apply buildChart_dataset in Hds as (code' & Hc & ->).
    rewrite Hk in Hc. injection Hc as <-. rewrite He.
    induction (Dashboard.labels _) as [| D labels IH]; [reflexivity |].
    cbn [map length repeat]. rewrite IH. f_equal.
Qed.

(** X14.  Every value of a series that is not a gap is the rank, not zero,
    of a record of that country that passed the filter and whose label is
    the label of the value. *)
Theorem chart_points_sound (st : Dashboard.State) (w : World) (i j : nat)
        (code D : string) (ds : Dashboard.Dataset) (r : Z) :
  let chart := fst (Dashboard.buildChart rt st w) in
  nth_error (Object_keys (Dashboard.historyData st)) i = Some code ->
  nth_error (Dashboard.datasets chart) i = Some ds ->
  nth_error (Dashboard.labels chart) j = Some D ->
  nth_error (Dashboard.data ds) j = Some (Some r) ->
  r <> 0
  /\ exists item,
      In item (Dashboard.historyOf (Dashboard.historyData st) code)
      /\ In item (Dashboard.historyOf (filteredHistory rt st w) code)
      /\ Dashboard.dateLabel rt item = D
      /\ Rank item = r.
Proof.
  cbv zeta. intros Hk Hds HD Hr.
  apply buildChart_dataset in Hds as (code' & Hc & E).
  rewrite Hk in Hc. injection Hc as <-.
  rewrite E, nth_error_map, HD in Hr. cbn [option_map] in Hr.
  injection Hr as Hr. unfold Dashboard.rankAt in Hr.
  destruct (Dashboard.rankMap rt _ !! D) as [r' |] eqn:Em; [| discriminate].
  destruct (Z.eqb_spec r' 0) as [| Hne]; [discriminate |].
  injection Hr as ->. split; [exact Hne |].
  unfold Dashboard.rankMap, Map_of_entries in Em.
  apply fold_insert_lookup_Some in Em as [Em | Hin].
  - rewrite lookup_empty in Em. discriminate.
  - apply in_map_iff in Hin as (item & [= Hl Hrk] & Hi).
    exists item. split; [| auto].
    apply (filteredHistory_of_key st w); [| exact Hi].
    eapply nth_error_In, Hk.
Qed.

End Series.

(* ===================================================================== *)
(** * Part XXVII.  The custom range *)
(* ===================================================================== *)

Section Custom.
Variable rt : Runtime.

Lemma keepItem_custom (st : Dashboard.State) (now : Date) (item : RankingHistoryItem)
      (w : World) :
  Dashboard.timeRange st = "custom" ->
  fst (Dashboard.keepItem rt st now item w) = in_custom_range rt st item.
Proof. intros H. unfold Dashboard.keepItem. rewrite H. reflexivity. Qed.

(** X15.  With the custom range, [updateChart] keeps of the history of
    every country exactly the records whose local year lies between the
    start year and the end year, both included, in their order; a record
    whose date does not parse is dropped, and so is every record when one
    of the two years is not a number. *)
Theorem custom_years_filter (st : Dashboard.State) (w : World) (c : string) :
  Dashboard.timeRange st = "custom" ->
  In c (Object_keys (Dashboard.historyData st)) ->
  let history := Dashboard.historyOf (Dashboard.historyData st) c in
  Object_get (filteredHistory rt st w) c
  = Some (List.filter (in_custom_range rt st) history)
  /\ forall item,
      in_custom_range rt st item = true
      <-> exists y a b,
            localYear rt item = Some y
            /\ Dashboard.customStartYear st = Some a
            /\ Dashboard.customEndYear st = Some b
            /\ a <= y <= b.
Proof.
  intros Hcustom Hc. cbv zeta. split.
  - unfold filteredHistory. destruct (Date_now w) as [now w1].
    destruct (filterHistories_get rt st now _ c Hc [] w1) as [w' ->].
    f_equal. apply filterM_pure. intros x w'' _. apply keepItem_custom, Hcustom.
  - intros item. unfold in_custom_range, num_le.
    rewrite andb_true_iff, !num_ge_spec. split.
    + intros [(y & a & Hy & Ha & Hay) (b & y' & Hb & Hy' & Hyb)].
      rewrite Hy in Hy'. injection Hy' as <-. exists y, a, b. auto.
    + intros (y & a & b & Hy & Ha & Hb & H1 & H2). split.
      * exists y, a. auto.
      * exists b, y. auto.
Qed.

(** With the custom range and no record in it, the chart is blank. *)
Lemma blank_custom_chart (st : Dashboard.State) (w : World) :
  Dashboard.timeRange st = "custom" ->
  Dashboard.chartCanvas st = true ->
  Dashboard.historyData st <> [] ->
  (forall item, in_custom_range rt st item = false) ->
  exists chart,
    Dashboard.chartInstance (fst (Dashboard.updateChart rt st w)) = Some chart
    /\ Dashboard.labels chart = []
    /\ length (Dashboard.datasets chart)
       = length (Object_keys (Dashboard.historyData st))
    /\ List.Forall (fun ds => Dashboard.data ds = []) (Dashboard.datasets chart).
Proof.
  intros Hcustom Hcanvas Hne Hnone.
  set (st0 := Dashboard.with_chart st None).
  assert (Hlabels : Dashboard.labels (fst (Dashboard.buildChart rt st0 w)) = []).
  { rewrite buildChart_labels.
    destruct (Dashboard.chartLabels rt (filteredHistory rt st0 w)) as [| D l] eqn:E;
      [reflexivity |].
    assert (Hin : In D (Dashboard.chartLabels rt (filteredHistory rt st0 w)))
      by (rewrite E; left; reflexivity).
    apply chartLabels_In in Hin as (item & Hi & _).
    apply filteredHistory_records in Hi as (_ & now & w' & Hk).
    rewrite keepItem_custom in Hk by exact Hcustom.
    change (in_custom_range rt st0 item) with (in_custom_range rt st item) in Hk.
    rewrite Hnone in Hk. discriminate Hk. }
  unfold Dashboard.updateChart. rewrite Hcanvas. cbn [negb]. cbv zeta.
  fold st0. change (Dashboard.historyData st0) with (Dashboard.historyData st).
  rewrite keys_nonempty by exact Hne.
  unfold bind, ret.
  pose proof (buildChart_datasets_length rt st0 w) as Hlen.
  pose proof (buildChart_data_length rt st0 w) as Hdata.
  destruct (Dashboard.buildChart rt st0 w) as [chart w'] eqn:E.
  cbn [fst] in *. exists chart. split; [reflexivity |]. split; [exact Hlabels |].
  split; [exact Hlen |].
  eapply List.Forall_impl; [| exact Hdata]. cbn. intros ds Hd.
  rewrite Hlabels in Hd. destruct (Dashboard.data ds); [reflexivity | discriminate Hd].
Qed.

(** X16.  With the custom range, a year box that is emptied, or holds a
    text that does not start with a number, blanks the chart: the axis has
    no label and every series is empty, though every country keeps its
    series. *)
Theorem empty_year_blanks_chart (st : Dashboard.State) (w : World) (value : string)
        (st' : Dashboard.State) :
  Dashboard.timeRange st = "custom" ->
  Dashboard.chartCanvas st = true ->
  Dashboard.historyData st <> [] ->
  parseInt value = None ->
  st' = fst (Controls.inputStartYear rt st value w)
  \/ st' = fst (Controls.inputEndYear rt st value w) ->
  exists chart,
    Dashboard.chartInstance st' = Some chart
    /\ Dashboard.labels chart = []
    /\ length (Dashboard.datasets chart)
       = length (Object_keys (Dashboard.historyData st))
    /\ List.Forall (fun ds => Dashboard.data ds = []) (Dashboard.datasets chart).
Proof.
  intros Hcustom Hcanvas Hne Hnan [-> | ->].
  - unfold Controls.inputStartYear. rewrite Hnan.
    apply (blank_custom_chart (Controls.setCustomStartYear st None) w);
      [exact Hcustom | exact Hcanvas | exact Hne |].
    intros item. unfold in_custom_range.
    cbn [Controls.setCustomStartYear Dashboard.customStartYear].
    destruct (localYear rt item); reflexivity.
  - unfold Controls.inputEndYear. rewrite Hnan.
    apply (blank_custom_chart (Controls.setCustomEndYear st None) w);
      [exact Hcustom | exact Hcanvas | exact Hne |].
    intros item. unfold in_custom_range, num_le.
    cbn [Controls.setCustomEndYear Dashboard.customEndYear].
    apply andb_false_r.
Qed.

End Custom.

(** On 2025-01-01, with the range of one year, the record of Brazil is
    out of range: its series is labelled with the code and has a gap at
    the one label of the axis. *)
Lemma empty_series_witness :
  exists ds,
    nth_error (Dashboard.datasets
                 (fst (Dashboard.buildChart Hosts.enUS_UTC Sparse.one_year
                         (Hosts.still_world Examples.new_year_2025 0)))) 1
    = Some ds
    /\ Dashboard.label ds = "BRA (BRA)"
    /\ Dashboard.data ds = [None].
Proof.
  assert (E : nth_error (Dashboard.datasets
                           (fst (Dashboard.buildChart Hosts.enUS_UTC Sparse.one_year
                                   (Hosts.still_world Examples.new_year_2025 0)))) 1
              = Some {| Dashboard.label := "BRA (BRA)"; Dashboard.data := [None];
                        Dashboard.borderColor := Some "#ef4444";
                        Dashboard.backgroundColor := Some "#ef4444" |})
    by (vm_compute; reflexivity).
  eexists. split; [exact E |].
  pose proof (empty_series Hosts.enUS_UTC Sparse.one_year
                (Hosts.still_world Examples.new_year_2025 0) 1 "BRA" _
                eq_refl E ltac:(vm_compute; reflexivity)) as [Hl Hd].
  split; [exact Hl |]. etransitivity; [exact Hd |]. vm_compute. reflexivity.
Defined.

(** The value of the series of USA at its label is the rank of the record
    of June. *)
Lemma chart_points_sound_witness :
  3 <> 0
  /\ exists item,
      In item (Dashboard.historyOf (Dashboard.historyData Sparse.one_year) "USA")
      /\ In item (Dashboard.historyOf
                    (filteredHistory Hosts.enUS_UTC Sparse.one_year
                       (Hosts.still_world Examples.new_year_2025 0)) "USA")
      /\ Dashboard.dateLabel Hosts.enUS_UTC item = "6/1/2024"
      /\ Rank item = 3.
Proof.
  apply (chart_points_sound Hosts.enUS_UTC Sparse.one_year
           (Hosts.still_world Examples.new_year_2025 0) 0 0 "USA" "6/1/2024"
           {| Dashboard.label := "USA (USA)"; Dashboard.data := [Some 3];
              Dashboard.borderColor := Some "#3b82f6";
              Dashboard.backgroundColor := Some "#3b82f6" |} 3).
  - reflexivity.
  - vm_compute. reflexivity.
  - vm_compute. reflexivity.
  - reflexivity.
Defined.

(** With the custom range from 2024 to 2025, nothing is kept of Brazil. *)
Lemma custom_years_filter_witness :
  Object_get (filteredHistory Hosts.enUS_UTC Sparse.custom
                (Hosts.still_world Examples.new_year_2025 0)) "BRA"
  = Some [].
Proof.
  pose proof (custom_years_filter Hosts.enUS_UTC Sparse.custom
                (Hosts.still_world Examples.new_year_2025 0) "BRA"
                eq_refl ltac:(right; left; reflexivity)) as H.
  cbv zeta in H. destruct H as [H _].
  etransitivity; [exact H |]. vm_compute. reflexivity.
Defined.

(** Emptying the box of the start year blanks the chart of two countries. *)
Lemma empty_year_blanks_chart_witness :
  exists chart,
    Dashboard.chartInstance
      (fst (Controls.inputStartYear Hosts.enUS_UTC Sparse.custom EmptyString
              (Hosts.still_world Examples.new_year_2025 0)))
    = Some chart
    /\ Dashboard.labels chart = []
    /\ length (Dashboard.datasets chart)
       = length (Object_keys (Dashboard.historyData Sparse.custom))
    /\ List.Forall (fun ds => Dashboard.data ds = []) (Dashboard.datasets chart).
Proof.
  apply (empty_year_blanks_chart Hosts.enUS_UTC Sparse.custom
           (Hosts.still_world Examples.new_year_2025 0) EmptyString).
  - reflexivity.
  - reflexivity.
  - discriminate.
  - reflexivity.
  - left. reflexivity.
Defined.

(* ===================================================================== *)
(** * Part XXVIII.  The values of a series where the country has a record *)
(* ===================================================================== *)

Section Values.
Variable rt : Runtime.

(** X17.  Where a country has a record that passed the filter and carries
    the label of a position of the axis, the value of its series at that
    position is the rank of such a record; a rank of zero is shown as a
    gap. *)
Theorem chart_points_complete (st : Dashboard.State) (w : World) (i j : nat)
        (code D : string) (ds : Dashboard.Dataset) :
  let chart := fst (Dashboard.buildChart rt st w) in
  let kept := Dashboard.historyOf (filteredHistory rt st w) code in
  nth_error (Object_keys (Dashboard.historyData st)) i = Some code ->
  nth_error (Dashboard.datasets chart) i = Some ds ->
  nth_error (Dashboard.labels chart) j = Some D ->
  (exists item, In item kept /\ Dashboard.dateLabel rt item = D) ->
  exists shown,
    In shown kept
    /\ Dashboard.dateLabel rt shown = D
    /\ nth_error (Dashboard.data ds) j
       = Some (if Rank shown =? 0 then None else Some (Rank shown)).
Proof.
  cbv zeta. intros Hk Hds HD (item & Hin & Hl).
  apply buildChart_dataset in Hds as (code' & Hc & ->).
  rewrite Hk in Hc. injection Hc as <-.
  rewrite nth_error_map, HD. cbn [option_map]. unfold Dashboard.rankAt.
  destruct (Dashboard.rankMap rt _ !! D) as [r |] eqn:Em.
  - unfold Dashboard.rankMap, Map_of_entries in Em.
    apply fold_insert_lookup_Some in Em as [Em | Hm].
    + rewrite lookup_empty in Em. discriminate.
    + apply in_map_iff in Hm as (shown & [= Hsl Hsr] & Hs).
      exists shown. rewrite Hsr. auto.
  - exfalso. unfold Dashboard.rankMap, Map_of_entries in Em.
    apply fold_insert_lookup_None in Em as [_ Hall].
    apply (Hall (Dashboard.dateLabel rt item, Rank item)); [| exact Hl].
    apply in_map_iff. exists item. auto.
Qed.

End Values.

(** A record of rank 0 is on the axis and is shown as a gap. *)
Lemma chart_points_complete_witness :
  exists shown,
    In shown (Dashboard.historyOf
                (filteredHistory Hosts.enUS_UTC Unranked.state
                   (Hosts.still_world Examples.new_year_2025 0)) "USA")
    /\ Dashboard.dateLabel Hosts.enUS_UTC shown = "6/1/2024"
    /\ nth_error [@None Z] 0
       = Some (if Rank shown =? 0 then None else Some (Rank shown)).
Proof.
  apply (chart_points_complete Hosts.enUS_UTC Unranked.state
           (Hosts.still_world Examples.new_year_2025 0) 0 0 "USA" "6/1/2024"
           {| Dashboard.label := "USA (USA)"; Dashboard.data := [None];
              Dashboard.borderColor := Some "#3b82f6";
              Dashboard.backgroundColor := Some "#3b82f6" |}).
  - reflexivity.
  - vm_compute. reflexivity.
  - vm_compute. reflexivity.
  - exists (Hosts.item "USA" "USA" 0 (0 # 1) "2024-06-01").
    split; vm_compute; [left |]; reflexivity.
Defined.

(* ===================================================================== *)
(** * Part XXIX.  The chart after a retrieval *)
(* ===================================================================== *)

Section ChartAfterFetch.
Variable rt : Runtime.
Variable fetch : string -> Dashboard.FetchResult.

Lemma newHistory_nonempty (f : Dashboard.Fetched) (fetched : list Dashboard.Fetched) :
  Dashboard.newHistory (f :: fetched) <> [].
Proof.
  intros E.
  assert (Hin : In (Dashboard.code f) (Object_keys (Dashboard.newHistory (f :: fetched)))).
  { unfold Dashboard.newHistory.
    apply (proj2 (newHistory_keys_In (f :: fetched) (Dashboard.code f) [])).
    right. left. reflexivity. }
  rewrite E in Hin. destruct Hin.
Qed.

(** X18.  The chart after a click on ["Get Rankings"].  When a retrieval
    rejects, [updateChart] is not reached and the chart drawn before stays
    as it was.  When none rejects and the canvas is in place, the chart
    drawn before is destroyed; a new one is drawn exactly when at least
    one selected country has data, and it has one series for every key of
    the new history map. *)
Theorem chart_after_fetch (st : Dashboard.State) (w : World) :
  Dashboard.selectedCountries st <> [] ->
  let st' := fst (Dashboard.fetchRankings rt fetch st w) in
  ((exists c, In c (Dashboard.selectedCountries st) /\ rejected fetch st c) ->
   Dashboard.chartInstance st' = Dashboard.chartInstance st)
  /\
  ((forall c, In c (Dashboard.selectedCountries st) -> ~ rejected fetch st c) ->
   Dashboard.chartCanvas st = true ->
   match List.filter (hasData fetch st) (Dashboard.selectedCountries st) with
   | [] => Dashboard.chartInstance st' = None
   | _ :: _ =>
       exists chart,
         Dashboard.chartInstance st' = Some chart
         /\ length (Dashboard.datasets chart)
            = length (Object_keys (Dashboard.historyData st'))
   end).
Proof.
  intros Hsel. cbv zeta. unfold Dashboard.fetchRankings.
  destruct (Dashboard.selectedCountries st) as [| c0 sel] eqn:Esel; [contradiction |].
  change (length (c0 :: sel) =? 0)%nat with false. cbv iota.
  set (st1 := Dashboard.with_fetch st true [] []).
  unfold Dashboard.fetchAll.
  change (Dashboard.selectedCountries st1) with (Dashboard.selectedCountries st).
  rewrite Esel. split.
  - intros (c & Hin & Hrej).
    apply (fetchCountry_rejected rt) in Hrej as [e He].
    destruct (cmap_throws (Dashboard.fetchCountry rt fetch st1) _ _ _ Hin He) as [e' ->].
    reflexivity.
  - intros Hok Hcanvas.
    destruct (fetchAll_codes rt fetch st1 (c0 :: sel)) as (ys & E & Hc & _).
    { intros c Hc. apply Hok, Hc. }
    rewrite E. cbn [cbind]. unfold bind, ret.
    change (hasData fetch st1) with (hasData fetch st) in Hc. rewrite <- Hc.
    unfold Dashboard.updateChart. subst st1.
    cbn [Dashboard.with_fetch Dashboard.chartCanvas]. rewrite Hcanvas.
    cbn [negb]. cbv zeta.
    cbn [Dashboard.with_chart Dashboard.historyData].
    destruct (omap id ys) as [| f fetched] eqn:Ef.
    + reflexivity.
    + rewrite keys_nonempty by apply newHistory_nonempty.
      unfold bind, ret.
      match goal with
      | |- context [Dashboard.buildChart rt ?s w] =>
          pose proof (buildChart_datasets_length rt s w) as Hlen;
          destruct (Dashboard.buildChart rt s w) as [chart w']
      end.
      cbn [fst] in *. exists chart. split; [reflexivity |]. exact Hlen.
Qed.

End ChartAfterFetch.

(** With USA served, a chart of one series is drawn. *)
Lemma chart_after_fetch_witness :
  exists chart,
    Dashboard.chartInstance
      (fst (Dashboard.fetchRankings Hosts.enUS_UTC Served.usa_or_error
              (Hosts.initial ["BRA"; "USA"])
              (Hosts.still_world Examples.new_year_2025 0)))
    = Some chart
    /\ length (Dashboard.datasets chart)
       = length (Object_keys
                   (Dashboard.historyData
                      (fst (Dashboard.fetchRankings Hosts.enUS_UTC Served.usa_or_error
                              (Hosts.initial ["BRA"; "USA"])
                              (Hosts.still_world Examples.new_year_2025 0))))).
Proof.
  pose proof (chart_after_fetch Hosts.enUS_UTC Served.usa_or_error
                (Hosts.initial ["BRA"; "USA"])
                (Hosts.still_world Examples.new_year_2025 0)
                ltac:(discriminate)) as H.
  cbv zeta in H. destruct H as [_ H].
  specialize (H ltac:(intros c _ [e He]; unfold Served.usa_or_error in He;
                      destruct (String.eqb _ _); discriminate He)
                eq_refl).
  exact H.
Defined.

(* ===================================================================== *)
(** * Part XXX.  The year boxes *)
(* ===================================================================== *)








(* ===================================================================== *)
(** * Part XXXI.  The range of all years *)
(* ===================================================================== *)

Section AllYears.
Variable rt : Runtime.

(** X20.  A click on ["All Years"], with the canvas in place and a
    history map that is not empty, draws a chart whose axis holds the
    label of every record of every country, whether its date parses or
    not, and nothing else. *)
Theorem all_years_shows_everything (st : Dashboard.State) (w : World) :
  Dashboard.chartCanvas st = true ->
  Dashboard.historyData st <> [] ->
  exists chart,
    Dashboard.chartInstance (fst (Controls.selectRange rt st "all" w)) = Some chart
    /\ (forall c history item,
           Object_get (Dashboard.historyData st) c = Some history ->
           In item history ->
           In (Dashboard.dateLabel rt item) (Dashboard.labels chart))
    /\ (forall label,
           In label (Dashboard.labels chart) ->
           exists item,
             In item (records (Dashboard.historyData st))
             /\ Dashboard.dateLabel rt item = label).
Proof.
  intros Hcanvas Hne. unfold Controls.selectRange, Dashboard.updateChart.
  cbn [Dashboard.setTimeRange Dashboard.chartCanvas]. rewrite Hcanvas.
  cbn [negb]. cbv zeta.
  cbn [Dashboard.with_chart Dashboard.historyData].
  rewrite keys_nonempty by exact Hne. unfold bind, ret.
  match goal with
  | |- context [Dashboard.buildChart rt ?s w] => set (st1 := s)
  end.
  pose proof (buildChart_labels rt st1 w) as Hl.
  destruct (Dashboard.buildChart rt st1 w) as [chart w'].
  cbn [fst] in *. exists chart. split; [reflexivity |]. rewrite Hl. split.
  - intros c history item Hget Hin. apply chartLabels_In. exists item.
    split; [| reflexivity]. apply records_In. exists history. split; [| exact Hin].
    eapply Object_get_value. apply (filteredHistory_all rt st1 w c history);
      [reflexivity | exact Hget].
  - intros label Hin. apply chartLabels_In in Hin as (item & Hi & E).
    apply filteredHistory_records in Hi as [Hi _]. exists item. auto.
Qed.

End AllYears.

Lemma all_years_shows_everything_witness :
  exists chart,
    Dashboard.chartInstance
      (fst (Controls.selectRange Hosts.enUS_UTC Sparse.one_year "all"
              (Hosts.still_world Examples.new_year_2025 0)))
    = Some chart
    /\ (forall c history item,
           Object_get (Dashboard.historyData Sparse.one_year) c = Some history ->
           In item history ->
           In (Dashboard.dateLabel Hosts.enUS_UTC item) (Dashboard.labels chart))
    /\ (forall label,
           In label (Dashboard.labels chart) ->
           exists item,
             In item (records (Dashboard.historyData Sparse.one_year))
             /\ Dashboard.dateLabel Hosts.enUS_UTC item = label).
Proof.
  apply (all_years_shows_everything Hosts.enUS_UTC Sparse.one_year
           (Hosts.still_world Examples.new_year_2025 0)).
  - reflexivity.
  - discriminate.
Defined.

(* ===================================================================== *)
(** * Part XXXII.  The parameters the route reads *)
(* ===================================================================== *)

Lemma GET_extensional (provider : string -> Api.Upstream) (req req' : Api.Request) :
  Api.searchParams_get (Api.searchParams req) "countryCode"
  = Api.searchParams_get (Api.searchParams req') "countryCode" ->
  Api.searchParams_get (Api.searchParams req) "gender"
  = Api.searchParams_get (Api.searchParams req') "gender" ->
  Api.searchParams_get (Api.searchParams req) "footballType"
  = Api.searchParams_get (Api.searchParams req') "footballType" ->
  Api.GET provider req = Api.GET provider req'.
Proof.
  intros Hc Hg Hf. unfold Api.GET. rewrite Hc, Hg, Hf. reflexivity.
Qed.

(** Dropping the parameters the route does not read changes no parameter
    it reads. *)
Lemma searchParams_get_filter (params : list (string * string)) (name : string) :
  route_parameter name = true ->
  Api.searchParams_get (List.filter (fun kv => route_parameter kv.1) params) name
  = Api.searchParams_get params name.
Proof.
  intros Hn. induction params as [| [k v] params IH]; [reflexivity |].
  cbn [List.filter fst Api.searchParams_get].
  destruct (route_parameter k) eqn:Ek; cbn [Api.searchParams_get].
  - rewrite IH. reflexivity.
  - destruct (String.eqb_spec k name) as [-> | _]; [congruence | exact IH].
Qed.

(** X21.  The route reads three query parameters and no other: whatever
    else the query holds, before, between or after them, the answer and
    the URL requested from the provider are those of the query with the
    other parameters left out. *)
Theorem GET_ignores_other_parameters (provider : string -> Api.Upstream)
        (params : list (string * string)) :
  Api.GET provider
    {| Api.searchParams := List.filter (fun kv => route_parameter kv.1) params |}
  = Api.GET provider {| Api.searchParams := params |}.
Proof.
  apply GET_extensional; cbn [Api.searchParams];
    apply searchParams_get_filter; reflexivity.
Qed.

(* ===================================================================== *)
(** * Part XXXIII.  The cutoff of the relative range *)
(* ===================================================================== *)

Lemma DaysInMonth_february (y : Z) : DaysInMonth y 2 = 28 + leap_of_year y.
Proof. unfold DaysInMonth. destruct (leap_of_year_01 y) as [-> | ->]; reflexivity. Qed.

(** February apart, a month has the same number of days in every year. *)
Lemma DaysInMonth_other_years (y1 y2 m : Z) :
  0 <= m <= 11 -> m <> 1 -> DaysInMonth y1 (m + 1) = DaysInMonth y2 (m + 1).
Proof.
  intros Hm H1. unfold DaysInMonth.
  destruct (leap_of_year_01 y1) as [-> | ->], (leap_of_year_01 y2) as [-> | ->];
    month_cases m; try reflexivity; contradiction.
Qed.

(** A 29 February of a year without one is its 1 March. *)
Lemma MakeDay_leap_day (y : Z) :
  leap_of_year y = 0 -> MakeDay y 1 29 = MakeDay y 2 1.
Proof.
  intros H. unfold MakeDay.
  change (1 / 12) with 0. change (2 / 12) with 0.
  change (1 mod 12) with 1. change (2 mod 12) with 2.
  rewrite Z.add_0_r, H. eval_DayToMonth. lia.
Qed.

Lemma first_of_March (y : Z) :
  leap_of_year y = 0 -> 1 <= 1 <= DaysInMonth y (2 + 1).
Proof. intros H. unfold DaysInMonth. rewrite H. vm_compute. split; discriminate. Qed.

(** The cutoff that the filter computes when the clock stands at [now]. *)
Lemma relative_cutoff_eq (rt : Runtime) (now n : Z) :
  Z.abs now <= maxTime ->
  setFullYear rt (Date_of_time now)
              (num_sub (getFullYear rt (Date_of_time now)) (Some n))
  = shiftBackYears rt now n.
Proof.
  intros H. unfold Date_of_time. rewrite TimeClip_in_range by exact H.
  unfold shiftBackYears, setFullYear, getFullYear.
  cbn [option_map num_sub]. reflexivity.
Qed.

(** X22.  The cutoff of the relative range, on a host with a fixed offset
    from UTC and with the clock standing at [now]: it has the local time
    of day of [now] and lies in the local year of [now] lowered by the
    number of years; it falls on the same day of the same month, except
    that from a 29 February it falls on 1 March when the year it goes back
    to has no 29 February. *)
Theorem relative_cutoff_fields (rt : Runtime) (z now n cutoff : Z) :
  (forall t, tza_of_utc rt t = z) -> (forall t, tza_of_local rt t = z) ->
  Z.abs now <= maxTime ->
  setFullYear rt (Date_of_time now)
              (num_sub (getFullYear rt (Date_of_time now)) (Some n))
  = Some cutoff ->
  TimeWithinDay (LocalTime rt cutoff) = TimeWithinDay (LocalTime rt now)
  /\ YearFromTime (LocalTime rt cutoff) = YearFromTime (LocalTime rt now) - n
  /\ if DateFromTime (LocalTime rt now)
        <=? DaysInMonth (YearFromTime (LocalTime rt now) - n)
                        (MonthFromTime (LocalTime rt now) + 1)
     then MonthFromTime (LocalTime rt cutoff) = MonthFromTime (LocalTime rt now)
          /\ DateFromTime (LocalTime rt cutoff) = DateFromTime (LocalTime rt now)
     else MonthFromTime (LocalTime rt now) = 1
          /\ DateFromTime (LocalTime rt now) = 29
          /\ MonthFromTime (LocalTime rt cutoff) = 2
          /\ DateFromTime (LocalTime rt cutoff) = 1.
Proof.
  intros Hu Hl Hnow Hs.
  rewrite (relative_cutoff_eq rt now n Hnow), shiftBackYears_eq in Hs.
  pose proof (MonthFromTime_range (LocalTime rt now)) as Hm.
  pose proof (DateFromTime_range (LocalTime rt now)) as Hd.
  assert (Htod : 0 <= TimeWithinDay (LocalTime rt now) < msPerDay).
  { unfold TimeWithinDay, msPerDay. apply Z.mod_pos_bound. lia. }
  generalize dependent (LocalTime rt now). intros lt Hs Hm Hd Htod.
  apply TimeClip_Some in Hs as [-> _].
  rewrite (LocalTime_UTC_fixed rt z) by assumption.
  destruct (Z.leb_spec (DateFromTime lt)
              (DaysInMonth (YearFromTime lt - n) (MonthFromTime lt + 1))) as [Hle | Hgt].
  - destruct (civil_of_MakeDay (YearFromTime lt - n) (MonthFromTime lt) (DateFromTime lt)
                (TimeWithinDay lt) Hm ltac:(lia) Htod) as (Hy & Hmo & Hda & Htw).
    auto.
  - assert (E1 : MonthFromTime lt = 1).
    { destruct (Z.eq_dec (MonthFromTime lt) 1) as [E | Hne]; [exact E |].
      rewrite (DaysInMonth_other_years (YearFromTime lt - n) (YearFromTime lt)) in Hgt
        by assumption.
      lia. }
    rewrite E1 in Hgt, Hd |- *.
    rewrite DaysInMonth_february in Hgt, Hd.
    assert (L0 : leap_of_year (YearFromTime lt - n) = 0)
      by (destruct (leap_of_year_01 (YearFromTime lt - n)),
                   (leap_of_year_01 (YearFromTime lt)); lia).
    assert (E29 : DateFromTime lt = 29)
      by (destruct (leap_of_year_01 (YearFromTime lt)); lia).
    rewrite E29, (MakeDay_leap_day _ L0).
    destruct (civil_of_MakeDay (YearFromTime lt - n) 2 1 (TimeWithinDay lt)
                ltac:(lia) (first_of_March _ L0) Htod)
      as (Hy & Hmo & Hda & Htw).
    repeat split; assumption.
Qed.

(** One year before noon of 29 February 2024 is noon of 1 March 2023. *)
Lemma relative_cutoff_fields_witness :
  TimeWithinDay (LocalTime Hosts.enUS_UTC 1677672000000)
  = TimeWithinDay (LocalTime Hosts.enUS_UTC 1709208000000)
  /\ YearFromTime (LocalTime Hosts.enUS_UTC 1677672000000)
     = YearFromTime (LocalTime Hosts.enUS_UTC 1709208000000) - 1
  /\ if DateFromTime (LocalTime Hosts.enUS_UTC 1709208000000)
        <=? DaysInMonth (YearFromTime (LocalTime Hosts.enUS_UTC 1709208000000) - 1)
                        (MonthFromTime (LocalTime Hosts.enUS_UTC 1709208000000) + 1)
     then MonthFromTime (LocalTime Hosts.enUS_UTC 1677672000000)
          = MonthFromTime (LocalTime Hosts.enUS_UTC 1709208000000)
          /\ DateFromTime (LocalTime Hosts.enUS_UTC 1677672000000)
             = DateFromTime (LocalTime Hosts.enUS_UTC 1709208000000)
     else MonthFromTime (LocalTime Hosts.enUS_UTC 1709208000000) = 1
          /\ DateFromTime (LocalTime Hosts.enUS_UTC 1709208000000) = 29
          /\ MonthFromTime (LocalTime Hosts.enUS_UTC 1677672000000) = 2
          /\ DateFromTime (LocalTime Hosts.enUS_UTC 1677672000000) = 1.
Proof.
  apply (relative_cutoff_fields Hosts.enUS_UTC 0 1709208000000 1 1677672000000).
  - intros t. reflexivity.
  - intros t. reflexivity.
  - vm_compute. discriminate.
  - vm_compute. reflexivity.
Defined.

(* ===================================================================== *)
(** * Part XXXIV.  Wider ranges *)
(* ===================================================================== *)

Lemma DayToMonth_leap (m l1 l2 : Z) :
  (l1 = 0 \/ l1 = 1) -> (l2 = 0 \/ l2 = 1) -> 0 <= m <= 11 ->
  DayToMonth m l1 <= DayToMonth m l2 + 1.
Proof.
  intros H1 H2 Hm. destruct H1 as [-> | ->], H2 as [-> | ->]; month_cases m;
    vm_compute; discriminate.
Qed.

(** The same month and day of a later year is a later day. *)
Lemma MakeDay_year_mono (y1 y2 m d : Z) :
  0 <= m <= 11 -> y1 <= y2 -> MakeDay y1 m d <= MakeDay y2 m d.
Proof.
  intros Hm Hy. unfold MakeDay.
  rewrite Z.div_small, Z.mod_small, !Z.add_0_r by lia.
  destruct (Z.eq_dec y1 y2) as [-> | Hne]; [lia |].
  pose proof (DayFromYear_mono (y1 + 1) y2 ltac:(lia)) as H1.
  rewrite DayFromYear_succ, DaysInYear_leap in H1.
  pose proof (DayToMonth_leap m (leap_of_year y1) (leap_of_year y2)
                (leap_of_year_01 y1) (leap_of_year_01 y2) Hm) as H2.
  destruct (leap_of_year_01 y1) as [E | E]; rewrite E in *; lia.
Qed.

Lemma historyOf_get (h : HistoryMap) (c : string) (history : list RankingHistoryItem) :
  Object_get h c = Some history -> Dashboard.historyOf h c = history.
Proof. intros H. unfold Dashboard.historyOf. rewrite H. reflexivity. Qed.

Section Wider.
Variable rt : Runtime.

(** The cutoff of a longer range is not later. *)
Lemma shiftBackYears_mono (now n1 n2 c1 c2 : Z) :
  (forall a b, a <= b -> UTC rt a <= UTC rt b) ->
  n1 <= n2 ->
  shiftBackYears rt now n1 = Some c1 -> shiftBackYears rt now n2 = Some c2 ->
  c2 <= c1.
Proof.
  intros Hmono Hn H1 H2. rewrite shiftBackYears_eq in H1, H2.
  apply TimeClip_Some in H1 as [-> _]. apply TimeClip_Some in H2 as [-> _].
  apply Hmono. unfold MakeDate.
  pose proof (MakeDay_year_mono (YearFromTime (LocalTime rt now) - n2)
                (YearFromTime (LocalTime rt now) - n1)
                (MonthFromTime (LocalTime rt now)) (DateFromTime (LocalTime rt now))
                (MonthFromTime_range _) ltac:(lia)) as H.
  unfold msPerDay. lia.
Qed.

(** X23.  A longer relative range never hides a record that a shorter one
    shows: on a host whose local time grows with the instant, with the
    clock standing at the same instant, every record kept with the range
    of [n1] years is kept with a range of [n2 >= n1] years, as long as the
    cutoff of the longer range is a valid date. *)
Theorem wider_range_keeps_more (st1 st2 : Dashboard.State) (w1 w2 : World)
        (now n1 n2 : Z) (c : string) (item : RankingHistoryItem) :
  (forall a b, a <= b -> UTC rt a <= UTC rt b) ->
  Dashboard.historyData st1 = Dashboard.historyData st2 ->
  relativeYears st1 n1 -> relativeYears st2 n2 -> n1 <= n2 ->
  steady w1 now -> steady w2 now -> Z.abs now <= maxTime ->
  shiftBackYears rt now n2 <> None ->
  In c (Object_keys (Dashboard.historyData st1)) ->
  In item (Dashboard.historyOf (filteredHistory rt st1 w1) c) ->
  In item (Dashboard.historyOf (filteredHistory rt st2 w2) c).
Proof.
  intros Hmono Hh Hr1 Hr2 Hn Hw1 Hw2 Hnow Hc2 Hc.
  rewrite (historyOf_get _ _ _ (filteredHistory_relative rt st1 w1 now n1 c Hr1 Hw1 Hnow Hc)).
  rewrite Hh in Hc.
  rewrite (historyOf_get _ _ _ (filteredHistory_relative rt st2 w2 now n2 c Hr2 Hw2 Hnow Hc)).
  rewrite Hh, !filter_In. intros [Hin Hge]. split; [exact Hin |].
  apply num_ge_spec in Hge as (t & c1 & Ht & E1 & Hle).
  destruct (shiftBackYears rt now n2) as [c2 |] eqn:E2; [| contradiction].
  apply num_ge_spec. exists t, c2. split; [exact Ht |]. split; [reflexivity |].
  pose proof (shiftBackYears_mono now n1 n2 c1 c2 Hmono Hn E1 E2). lia.
Qed.

End Wider.

(** On 2025-01-01 the record of USA of June 2024 is on the chart with the
    range of one year, and so it is with the range of two years. *)
Lemma wider_range_keeps_more_witness :
  In (Hosts.item "USA" "USA" 3 (1800 # 1) "2024-06-01")
     (Dashboard.historyOf
        (filteredHistory Hosts.enUS_UTC Sparse.two_years
           (Hosts.still_world Examples.new_year_2025 0)) "USA").
Proof.
  apply (wider_range_keeps_more Hosts.enUS_UTC Sparse.one_year Sparse.two_years
           (Hosts.still_world Examples.new_year_2025 0)
           (Hosts.still_world Examples.new_year_2025 0)
           Examples.new_year_2025 1 2 "USA").
  - intros a b Hab. unfold UTC. cbn. lia.
  - reflexivity.
  - repeat split.
  - repeat split.
  - lia.
  - intros i. reflexivity.
  - intros i. reflexivity.
  - vm_compute. discriminate.
  - vm_compute. discriminate.
  - left. reflexivity.
  - vm_compute. left. reflexivity.
Defined.

(* ===================================================================== *)
(** * Part XXXV.  The date key of the exports read back *)
(* ===================================================================== *)

Section KeyRoundTrip.
Variable rt : Runtime.

(** X24.  The date key of a record whose date parses is read back by
    [Date], on every host, as the UTC midnight of the day of the record,
    and a record dated with that key has the same key again. *)
Theorem dateKey_reads_back (item : RankingHistoryItem) (t : Z) :
  timeOf rt item = Some t ->
  exists key,
    Download.dateKey rt item = Return key
    /\ Date_of_string rt key = Some (Day t * msPerDay)
    /\ forall item', PubDate item' = key -> Download.dateKey rt item' = Return key.
Proof.
  intros Ht. pose proof (timeOf_range rt item t Ht) as Hr.
  exists (isoDateString t). split; [apply dateKey_valid, Ht |].
  split; [apply Date_of_isoDateString, Hr |].
  intros item' E.
  rewrite (dateKey_valid rt item' (Day t * msPerDay)).
  - f_equal. apply isoDateString_same_day, Day_midnight.
  - rewrite E. apply Date_of_isoDateString, Hr.
Qed.

End KeyRoundTrip.

Lemma dateKey_reads_back_witness :
  exists key,
    Download.dateKey Hosts.enUS_west SameDay.noon = Return key
    /\ Date_of_string Hosts.enUS_west key = Some (Day 1704110400000 * msPerDay)
    /\ forall item', PubDate item' = key ->
                     Download.dateKey Hosts.enUS_west item' = Return key.
Proof.
  apply (dateKey_reads_back Hosts.enUS_west SameDay.noon 1704110400000).
  vm_compute. reflexivity.
Defined.

(* ===================================================================== *)
(** * Part XXXVI.  The chart and the exports side by side *)
(* ===================================================================== *)

Lemma find_some_of {A} (g : A -> bool) (l : list A) (x : A) :
  In x l -> g x = true -> exists y, List.find g l = Some y.
Proof.
  intros Hin Hg. destruct (List.find g l) as [y |] eqn:E; [eauto |].
  rewrite (find_none _ _ E x Hin) in Hg. discriminate Hg.
Qed.

Section SideBySide.
Variable rt : Runtime.

(** The property of a country in the entry of a date, when the country
    has a record on that date. *)
Lemma entryOf_found (h : HistoryMap) (countries : list string) (D A : string)
      (item : RankingHistoryItem) :
  In A countries ->
  findByKey rt (Dashboard.historyOf h A) D = Some item ->
  Object_get (entryOf rt h countries D) A
  = Some (Download.CountryField
            {| Download.rank := Rank item;
               Download.points := TotalPoints item;
               Download.countryName := firstDescription item |}).
Proof.
  intros HA Hf. unfold entryOf.
  set (v := Download.CountryField _).
  assert (G : forall entry,
             In A countries \/ Object_get entry A = Some v ->
             Object_get (fold_left (entryField rt h D) countries entry) A = Some v).
  { clear HA. induction countries as [| code countries IH]; intros entry H;
      cbn [fold_left].
    - destruct H as [[] | H]. exact H.
    - apply IH. destruct (String.eqb_spec code A) as [-> | Hne].
      + right. unfold entryField. rewrite Hf, Object_get_set, String.eqb_refl.
        reflexivity.
      + destruct H as [[-> | H] | H]; [contradiction | left; exact H |].
        right. rewrite entryField_get_other by exact Hne. exact H. }
  apply G. left. exact HA.
Qed.

(** X25.  When every date parses, the two exports agree cell by cell: for
    every date and every country of the history map, the CSV cell holds
    the rank and the points of the object that the JSON entry of that date
    has for the country, and it is empty exactly when the entry has no
    such object. *)
Theorem exports_agree (h : HistoryMap) (D A : string) :
  (forall item, In item (records h) -> timeOf rt item <> None) ->
  In A (Object_keys h) ->
  exists entry,
    Download.jsonEntry rt h (Object_keys h) D = Return entry
    /\ Download.csvCell rt h D A
       = Return (match Object_get entry A with
                 | Some (Download.CountryField d) =>
                     "," +:+ Z_toString (Download.rank d) +:+ ","
                     +:+ Number_toString rt (Download.points d)
                 | _ => ",,"
                 end).
Proof.
  intros Hv HA. exists (entryOf rt h (Object_keys h) D).
  split; [apply jsonEntry_pure; [exact Hv | apply incl_refl] |].
  rewrite csvCell_pure by assumption. f_equal. unfold cellText.
  destruct (findByKey rt (Dashboard.historyOf h A) D) as [item |] eqn:E.
  - rewrite (entryOf_found h _ D A item HA E). reflexivity.
  - rewrite (entryOf_gap rt h _ D A E). destruct (String.eqb A "date"); reflexivity.
Qed.

(** X26.  When every date parses, every record shown on the chart is in
    the exports: its day is a date of the export axis, and the CSV cell of
    its country on that date is filled, with the rank and the points of a
    record of that country on that day. *)
Theorem chart_within_export (st : Dashboard.State) (w : World) (c : string)
        (item : RankingHistoryItem) :
  let h := Dashboard.historyData st in
  (forall item, In item (records h) -> timeOf rt item <> None) ->
  In c (Object_keys h) ->
  In item (Dashboard.historyOf (filteredHistory rt st w) c) ->
  exists dates found,
    Download.sortedDates rt h = Return dates
    /\ In (isoKey rt item) dates
    /\ In found (Dashboard.historyOf h c)
    /\ isoKey rt found = isoKey rt item
    /\ Download.csvCell rt h (isoKey rt item) c
       = Return ("," +:+ Z_toString (Rank found) +:+ ","
                 +:+ Number_toString rt (TotalPoints found)).
Proof.
  cbv zeta. intros Hv Hc Hin.
  apply (filteredHistory_of_key rt st w c item Hc) in Hin.
  destruct (find_some_of (fun x => String.eqb (isoKey rt x) (isoKey rt item))
              (Dashboard.historyOf (Dashboard.historyData st) c) item Hin
              (String.eqb_refl _)) as [found Hf].
  pose proof (find_some _ _ Hf) as [Hfin Hfk]. apply String.eqb_eq in Hfk.
  eexists _, found. split; [apply sortedDates_pure, Hv |].
  split; [| split; [exact Hfin | split; [exact Hfk |]]].
  - apply Array_sort_In, Set_of_list_In, in_map. eapply historyOf_records, Hin.
  - rewrite csvCell_pure by assumption. unfold cellText, findByKey. rewrite Hf.
    reflexivity.
Qed.

End SideBySide.

(** On 2024-01-01 the cell of USA and the object of USA in the entry hold
    rank 5. *)
Lemma exports_agree_witness :
  exists entry,
    Download.jsonEntry Hosts.enUS_UTC TwoEntities.history
      (Object_keys TwoEntities.history) "2024-01-01" = Return entry
    /\ Download.csvCell Hosts.enUS_UTC TwoEntities.history "2024-01-01" "USA"
       = Return (match Object_get entry "USA" with
                 | Some (Download.CountryField d) =>
                     "," +:+ Z_toString (Download.rank d) +:+ ","
                     +:+ Number_toString Hosts.enUS_UTC (Download.points d)
                 | _ => ",,"
                 end).
Proof.
  apply (exports_agree Hosts.enUS_UTC TwoEntities.history "2024-01-01" "USA").
  - intros item Hin. vm_compute in Hin.
    repeat (destruct Hin as [<- | Hin]; [vm_compute; discriminate |]).
    destruct Hin.
  - left. reflexivity.
Defined.

(** The record of USA that the chart of one year shows has its row and
    its cell in the CSV text. *)
Lemma chart_within_export_witness :
  exists dates found,
    Download.sortedDates Hosts.enUS_UTC (Dashboard.historyData Sparse.one_year)
    = Return dates
    /\ In (isoKey Hosts.enUS_UTC (Hosts.item "USA" "USA" 3 (1800 # 1) "2024-06-01")) dates
    /\ In found (Dashboard.historyOf (Dashboard.historyData Sparse.one_year) "USA")
    /\ isoKey Hosts.enUS_UTC found
       = isoKey Hosts.enUS_UTC (Hosts.item "USA" "USA" 3 (1800 # 1) "2024-06-01")
    /\ Download.csvCell Hosts.enUS_UTC (Dashboard.historyData Sparse.one_year)
         (isoKey Hosts.enUS_UTC (Hosts.item "USA" "USA" 3 (1800 # 1) "2024-06-01")) "USA"
       = Return ("," +:+ Z_toString (Rank found) +:+ ","
                 +:+ Number_toString Hosts.enUS_UTC (TotalPoints found)).
Proof.
  apply (chart_within_export Hosts.enUS_UTC Sparse.one_year
           (Hosts.still_world Examples.new_year_2025 0) "USA"
           (Hosts.item "USA" "USA" 3 (1800 # 1) "2024-06-01")).
  - intros item Hin. vm_compute in Hin.
    repeat (destruct Hin as [<- | Hin]; [vm_compute; discriminate |]).
    destruct Hin.
  - left. reflexivity.
  - vm_compute. left. reflexivity.
Defined.

(* ===================================================================== *)
(** * Part XXXVII.  The ISO text of an instant read back *)
(* ===================================================================== *)

Lemma expect_cons (c : ascii) (s : string) : expect c (String c s) = Some s.
Proof. cbn [expect]. rewrite Ascii.eqb_refl. reflexivity. Qed.

(** The time of day is the hour, the minute, the second and the
    millisecond put together. *)
Lemma MakeTime_of_time (t : Z) :
  MakeTime (HourFromTime t) (MinFromTime t) (SecFromTime t) (msFromTime t)
  = TimeWithinDay t.
Proof.
  unfold MakeTime, HourFromTime, MinFromTime, SecFromTime, msFromTime, TimeWithinDay,
    msPerHour, msPerMinute, msPerSecond, msPerDay.
  Z.div_mod_to_equations. lia.
Qed.

Lemma time_fields_range (t : Z) :
  0 <= HourFromTime t <= 23 /\ 0 <= MinFromTime t <= 59 /\ 0 <= SecFromTime t <= 59
  /\ 0 <= msFromTime t <= 999.
Proof.
  unfold HourFromTime, MinFromTime, SecFromTime, msFromTime, msPerSecond.
  pose proof (Z.mod_pos_bound (t / msPerHour) 24 ltac:(lia)).
  pose proof (Z.mod_pos_bound (t / msPerMinute) 60 ltac:(lia)).
  pose proof (Z.mod_pos_bound (t / 1000) 60 ltac:(lia)).
  pose proof (Z.mod_pos_bound t 1000 ltac:(lia)).
  lia.
Qed.

Lemma parse_iso_time_isoTimeString (t : Z) :
  parse_iso_time (isoTimeString t +:+ "Z") = Some (TimeWithinDay t).
Proof.
  destruct (time_fields_range t) as (Hh & Hm & Hs & Hms).
  unfold parse_iso_time, isoTimeString.
  rewrite !append_assoc.
  rewrite take_digits_pad by (cbn; lia). cbn [mbind option_bind].
  rewrite append_cons, append_nil_l, expect_cons. cbn [mbind option_bind].
  rewrite take_digits_pad by (cbn; lia). cbn [mbind option_bind].
  rewrite append_cons, append_nil_l, expect_cons. cbn [mbind option_bind].
  rewrite take_digits_pad by (cbn; lia). cbn [mbind option_bind].
  destruct (Z.leb_spec (HourFromTime t) 23); [| lia].
  destruct (Z.leb_spec (MinFromTime t) 59); [| lia].
  destruct (Z.leb_spec (SecFromTime t) 59); [| lia].
  cbn [andb].
  rewrite append_cons, append_nil_l.
  rewrite take_digits_pad by (cbn; lia). cbn [mbind option_bind].
  rewrite MakeTime_of_time. reflexivity.
Qed.

Lemma parse_iso_toISOString (t : Z) :
  Z.abs t <= maxTime ->
  parse_iso (isoDateString t +:+ "T" +:+ isoTimeString t +:+ "Z") = Some t.
Proof.
  intros Ht. pose proof (YearFromTime_range t Ht) as Hy.
  pose proof (MonthFromTime_range t) as Hm.
  pose proof (DateFromTime_range t) as Hd.
  assert (Hdm : DaysInMonth (YearFromTime t) (MonthFromTime t + 1) <= 31).
  { unfold DaysInMonth. destruct (leap_of_year_01 (YearFromTime t)) as [-> | ->];
      month_cases (MonthFromTime t); vm_compute; discriminate. }
  unfold parse_iso, isoDateString.
  rewrite !append_assoc.
  rewrite parse_year_yearString by lia. cbn [mbind option_bind].
  rewrite append_cons, append_nil_l, expect_cons. cbn [mbind option_bind].
  rewrite take_digits_pad by (cbn; lia). cbn [mbind option_bind].
  rewrite append_cons, append_nil_l, expect_cons. cbn [mbind option_bind].
  rewrite take_digits_pad by (cbn; lia). cbn [mbind option_bind].
  destruct (Z.leb_spec 1 (MonthFromTime t + 1)); [| lia].
  destruct (Z.leb_spec (MonthFromTime t + 1) 12); [| lia].
  destruct (Z.leb_spec 1 (DateFromTime t)); [| lia].
  destruct (Z.leb_spec (DateFromTime t)
              (DaysInMonth (YearFromTime t) (MonthFromTime t + 1))); [| lia].
  cbn [andb].
  replace (MonthFromTime t + 1 - 1) with (MonthFromTime t) by lia.
  rewrite MakeDay_of_time.
  rewrite append_cons, append_nil_l.
  rewrite parse_iso_time_isoTimeString. cbn [mbind option_bind].
  f_equal. unfold MakeDate, Day, TimeWithinDay, msPerDay.
  pose proof (Z.div_mod t 86400000 ltac:(lia)). lia.
Qed.

(** X27.  Every valid instant is read back from its ISO text: on every
    host, [new Date(d.toISOString())] is the instant of [d], to the
    millisecond. *)
Theorem toISOString_reads_back (rt : Runtime) (t : Z) :
  Z.abs t <= maxTime ->
  exists s,
    toISOString (Date_of_time t) = Return s
    /\ Date_of_string rt s = Some t.
Proof.
  intros Ht. unfold Date_of_time. rewrite TimeClip_in_range by exact Ht.
  eexists. split; [reflexivity |].
  unfold Date_of_string, Date_parse.
  rewrite parse_iso_toISOString by exact Ht.
  cbn [mbind option_bind]. apply TimeClip_in_range, Ht.
Qed.

Lemma toISOString_reads_back_witness :
  exists s,
    toISOString (Date_of_time 1704110400123) = Return s
    /\ Date_of_string Hosts.enUS_west s = Some 1704110400123.
Proof.
  apply (toISOString_reads_back Hosts.enUS_west 1704110400123).
  vm_compute. discriminate.
Defined.
